(** * ContentEngine: pipeline execution and project-state tracking

    A shallow embedding of the backend of the ContentEngine repository:

    - [backend/utils/progress_tracker.py]  (module [ProgressTracker])
    - [backend/models/project.py]          (module [ContentProject])
    - [backend/core/script_executor.py]    (module [ScriptExecutor])
    - [backend/core/pipeline_executor.py]  (module [PipelineExecutor])
    - [backend/core/project_manager.py]    (module [ProjectManager])

    Python dictionaries are finite maps ([gmap]), objects are records, and
    every method is a function that threads the state it mutates: the
    object itself and the [World] (file system, working directory, clock,
    the progress callbacks' deliveries and the child processes started).
    Exceptions are values of [pyres]; a [try/except] is a [match]. *)

From Stdlib Require Import ZArith QArith Ascii String.
From stdpp Require Import base strings gmap list option fin_maps pretty.

Local Open Scope string_scope.
Local Open Scope list_scope.

(** ** Python values shared by the modules *)

(** Exceptions, with the text [str(e)] gives. *)
Inductive exn_kind :=
  | AttributeError | FileNotFoundError | FileExistsError | NotADirectoryError
  | IsADirectoryError | TypeError | ValueError | KeyError | JSONDecodeError
  | TimeoutExpired | OSError | Exception.

Record exn := Exn { kind : exn_kind; str_of : string }.

Inductive pyres (A : Type) :=
  | Ok (a : A)
  | Raise (e : exn).
Arguments Ok {A} a.
Arguments Raise {A} e.

(** ** backend/utils/progress_tracker.py *)

Module ProgressTracker.

(** [progress: float]. The tracker only compares and stores the number, so
    a rational stands for any finite int or float the callers pass. *)
Record ProgressUpdate := {
  project_id : string;
  stage : string;
  progress : Q;
  message : string;
  timestamp : Z            (* datetime, as microseconds on the clock *)
}.

Record t := {
  _progress_data : gmap string (gmap string ProgressUpdate);
  _callbacks : list nat;                         (* registered callables *)
  delivered : list (nat * ProgressUpdate)        (* calls made to them *)
}.

Definition __init__ : t :=
  {| _progress_data := ∅; _callbacks := []; delivered := [] |}.

Definition Qltb (x y : Q) : bool := negb (Qle_bool y x).

(** Python's two-argument [min] and [max] keep the first argument unless the
    second is strictly smaller (resp. larger). *)
Definition py_min (a b : Q) : Q := if Qltb b a then b else a.
Definition py_max (a b : Q) : Q := if Qltb a b then b else a.

Definition add_callback (cb : nat) (tr : t) : t :=
  {| _progress_data := _progress_data tr;
     _callbacks := _callbacks tr ++ [cb];
     delivered := delivered tr |}.

Fixpoint list_remove_first (cb : nat) (l : list nat) : list nat :=
  match l with
  | [] => []
  | x :: l' => if decide (x = cb) then l' else x :: list_remove_first cb l'
  end.

Definition remove_callback (cb : nat) (tr : t) : t :=
  {| _progress_data := _progress_data tr;
     _callbacks := list_remove_first cb (_callbacks tr);
     delivered := delivered tr |}.

Definition update_progress (now : Z) (pid stg : string) (p : Q) (msg : string)
    (tr : t) : t :=
  let progress_update :=
    {| project_id := pid; stage := stg;
       progress := py_max 0 (py_min 100 p);          (* Clamp to 0-100 *)
       message := msg; timestamp := now |} in
  let stages := default ∅ (_progress_data tr !! pid) in
  {| _progress_data := <[pid := <[stg := progress_update]> stages]> (_progress_data tr);
     _callbacks := _callbacks tr;
     delivered := delivered tr ++ map (λ cb, (cb, progress_update)) (_callbacks tr) |}.

(** [max(values, key=timestamp)]: the first value with the greatest key. *)
Fixpoint latest_of (best : ProgressUpdate) (l : list ProgressUpdate) : ProgressUpdate :=
  match l with
  | [] => best
  | u :: l' => latest_of (if (timestamp best <? timestamp u)%Z then u else best) l'
  end.

Definition get_progress (pid : string) (stg : option string) (tr : t)
    : option ProgressUpdate :=
  match _progress_data tr !! pid with
  | None => None
  | Some stages =>
      match stg with
      | Some s => if decide (s = "") then
                    match (map_to_list stages).*2 with
                    | [] => None
                    | u :: l => Some (latest_of u l)
                    end
                  else stages !! s
      | None => match (map_to_list stages).*2 with
                | [] => None
                | u :: l => Some (latest_of u l)
                end
      end
  end.

Definition get_all_progress (pid : string) (tr : t) : gmap string ProgressUpdate :=
  default ∅ (_progress_data tr !! pid).

Definition clear_progress (pid : string) (stg : option string) (tr : t) : t :=
  let data :=
    match _progress_data tr !! pid with
    | None => _progress_data tr
    | Some stages =>
        match stg with
        | Some s => if decide (s = "") then delete pid (_progress_data tr)
                    else <[pid := delete s stages]> (_progress_data tr)
        | None => delete pid (_progress_data tr)
        end
    end in
  {| _progress_data := data; _callbacks := _callbacks tr; delivered := delivered tr |}.

Definition get_active_operations (tr : t) : gmap string (gmap string ProgressUpdate) :=
  (λ stages : gmap string ProgressUpdate,
     filter (λ kv, Qltb (progress kv.2) 100 = true) stages) <$> _progress_data tr.

(** The attributes of the standard module [time] that the repository uses.
    [timedelta] is a class of the module [datetime]; progress_tracker.py
    imports [time] and, from [datetime], only the class [datetime]. *)
Definition time_attributes : list string :=
  ["time"; "sleep"; "strftime"; "localtime"; "perf_counter"; "monotonic"].

Definition time_getattr (attr : string) : pyres unit :=
  if bool_decide (attr ∈ time_attributes) then Ok ()
  else Raise (Exn AttributeError ("module 'time' has no attribute '" ++ attr ++ "'")).

(** [timedelta(hours=h)] on the microsecond clock. *)
Definition timedelta_hours (h : Z) : Z := (h * 3600 * 1000000)%Z.

Definition to_remove (cutoff_time : Z) (u : ProgressUpdate) : bool :=
  Qle_bool 100 (progress u) && (timestamp u <? cutoff_time)%Z.

(** The body of the [with self._lock:] block of [cleanup_completed]. *)
Definition cleanup_sweep (cutoff_time : Z)
    (data : gmap string (gmap string ProgressUpdate))
    : gmap string (gmap string ProgressUpdate) :=
  omap (λ stages : gmap string ProgressUpdate,
          let stages' := filter (λ kv, to_remove cutoff_time kv.2 = false) stages in
          if decide (stages' = ∅) then None else Some stages')
       data.

Definition cleanup_completed (now : Z) (max_age_hours : Z) (tr : t) : pyres t :=
  match time_getattr "timedelta" with
  | Raise e => Raise e
  | Ok _ =>
      let cutoff_time := (now - timedelta_hours max_age_hours)%Z in
      Ok {| _progress_data := cleanup_sweep cutoff_time (_progress_data tr);
            _callbacks := _callbacks tr; delivered := delivered tr |}
  end.

End ProgressTracker.

(** [StreamlitProgressTracker]: the tracker it wraps and the attribute
    [current_operations] of the session state ([None] while the attribute
    is not set), which keeps what was published as it was given. *)
Module StreamlitProgressTracker.

Record Operation := {
  progress : Q;
  message : string;
  timestamp : string          (* datetime.now().isoformat() *)
}.

Record t := {
  tracker : ProgressTracker.t;
  current_operations : option (gmap string (gmap string Operation))
}.

(** [StreamlitProgressTracker(session_state)], given the tracker and the
    operations the session state already holds, if any. *)
Definition __init__ (progress_tracker : option ProgressTracker.t)
    (current_operations : option (gmap string (gmap string Operation))) : t :=
  {| tracker := default ProgressTracker.__init__ progress_tracker;
     current_operations := current_operations |}.

(** [now] is the reading of the tracker's clock, [iso] the text of the
    second reading. *)
Definition update_progress (now : Z) (iso : string) (project_id stage : string)
    (p : Q) (msg : string) (self : t) : t :=
  let ops := default ∅ (current_operations self) in
  let stages := default ∅ (ops !! project_id) in
  {| tracker := ProgressTracker.update_progress now project_id stage p msg (tracker self);
     current_operations :=
       Some (<[project_id := <[stage := {| progress := p; message := msg;
                                            timestamp := iso |}]> stages]> ops) |}.

(** [max(keys, key=timestamp)]: the first entry with the greatest text. *)
Fixpoint latest_of (best : Operation) (l : list Operation) : Operation :=
  match l with
  | [] => best
  | o :: l' => latest_of (if String.ltb (timestamp best) (timestamp o) then o else best) l'
  end.

Definition get_progress (project_id : string) (stage : option string) (self : t)
    : option Operation :=
  let current_ops := default ∅ (current_operations self) in
  match current_ops !! project_id with
  | None => None
  | Some stages =>
      let most_recent :=
        match (map_to_list stages).*2 with
        | [] => None
        | o :: l => Some (latest_of o l)
        end in
      match stage with
      | Some s => if decide (s = "") then most_recent else stages !! s
      | None => most_recent
      end
  end.

Definition is_stage_running (project_id stage : string) (self : t) : bool :=
  match get_progress project_id (Some stage) self with
  | Some progress_data =>
      ProgressTracker.Qltb 0 (progress progress_data)
      && ProgressTracker.Qltb (progress progress_data) 100
  | None => false
  end.

Definition clear_completed (project_id : string) (self : t) : t :=
  match current_operations self with
  | None => self
  | Some current_ops =>
      match current_ops !! project_id with
      | None => self
      | Some stages =>
          {| tracker := tracker self;
             current_operations :=
               Some (<[project_id :=
                         filter (λ kv, Qle_bool 100 (progress kv.2) = false) stages]>
                       current_ops) |}
      end
  end.

End StreamlitProgressTracker.

(** [OperationContext]: what entering and leaving the [with] block
    publish. *)
Module OperationContext.

Record t := {
  project_id : string;
  stage : string;
  total_steps : Z;
  current_step : Z
}.

Definition __init__ (project_id stage : string) (total_steps : Z) : t :=
  {| project_id := project_id; stage := stage; total_steps := total_steps;
     current_step := 0 |}.

Definition __enter__ (now : Z) (self : t) (tracker : ProgressTracker.t) : ProgressTracker.t :=
  ProgressTracker.update_progress now (project_id self) (stage self) 0
    "Starting operation..." tracker.

(** [exc_val] is [None] when the block ended without an exception, else the
    text of the exception. *)
Definition __exit__ (now : Z) (exc_val : option string) (self : t)
    (tracker : ProgressTracker.t) : ProgressTracker.t :=
  match exc_val with
  | None =>
      ProgressTracker.update_progress now (project_id self) (stage self) 100
        "Operation completed" tracker
  | Some e =>
      ProgressTracker.update_progress now (project_id self) (stage self) (-1)
        ("Operation failed: " ++ e) tracker
  end.

End OperationContext.

(** ** Strings and paths, as Python's [str] and [pathlib] treat them *)

Module Str.

Definition lower_ascii (c : ascii) : ascii :=
  let n := nat_of_ascii c in
  if (65 <=? n)%nat && (n <=? 90)%nat then ascii_of_nat (n + 32) else c.

(** [s.lower()] on ASCII text: the letters A to Z are lowered and every
    other character is kept, so on a text with other capitals (which
    Python lowers too) this is not [str.lower]. *)
Fixpoint lower (s : string) : string :=
  match s with
  | EmptyString => EmptyString
  | String c s' => String (lower_ascii c) (lower s')
  end.

(** [s.replace(a, b)] for one-character [a] and [b]. *)
Fixpoint replace (a b : ascii) (s : string) : string :=
  match s with
  | EmptyString => EmptyString
  | String c s' => String (if decide (c = a) then b else c) (replace a b s')
  end.

(** [s[:n]] *)
Fixpoint take (n : nat) (s : string) : string :=
  match n, s with
  | S n', String c s' => String c (take n' s')
  | _, _ => EmptyString
  end.

(** [s.startswith(p)] *)
Fixpoint startswith (p s : string) : bool :=
  match p, s with
  | EmptyString, _ => true
  | String a p', String b s' => bool_decide (a = b) && startswith p' s'
  | String _ _, EmptyString => false
  end.

(** [needle in hay] *)
Fixpoint contains (needle hay : string) : bool :=
  startswith needle hay ||
  match hay with
  | EmptyString => false
  | String _ hay' => contains needle hay'
  end.

Fixpoint split_on (sep : ascii) (s : string) : list string :=
  match s with
  | EmptyString => [EmptyString]
  | String c s' =>
      if decide (c = sep) then EmptyString :: split_on sep s'
      else match split_on sep s' with
           | [] => [String c EmptyString]
           | x :: xs => String c x :: xs
           end
  end.

Definition join (sep : string) (l : list string) : string := String.concat sep l.

(** The non-empty prefixes of a list, shortest first. *)
Fixpoint inits {A} (l : list A) : list (list A) :=
  match l with
  | [] => []
  | x :: l' => [x] :: map (cons x) (inits l')
  end.

End Str.

Module Path.

(** [Path(d) / n] for a relative [n]. *)
Definition join (d n : string) : string := d ++ "/" ++ n.

(** [p.name] *)
Definition name (p : string) : string := List.last (Str.split_on "/" p) "".

(** [p.parent], the empty string standing for the root of an absolute path
    (and for the working directory of a one-component relative one). *)
Definition parent (p : string) : string :=
  Str.join "/" (List.removelast (Str.split_on "/" p)).

Definition is_absolute (p : string) : bool := Str.startswith "/" p.

(** The proper ancestors of an absolute path below the root, outermost
    first, followed by the path itself. *)
Definition chain (p : string) : list string :=
  List.tail (map (Str.join "/") (Str.inits (Str.split_on "/" p))).

End Path.

(** ** State and exceptions

    [M S A] is a computation on the state [S] that always returns; [ME S A]
    one that may raise. What was written to the state before a [raise]
    stays written, as in Python. *)

Definition M (S A : Type) : Type := S → A * S.
Definition ME (S A : Type) : Type := S → pyres A * S.

Section monad.
Context {S : Type}.

Definition ret {A} (a : A) : M S A := λ s, (a, s).

Definition bind {A B} (c : M S A) (k : A → M S B) : M S B :=
  λ s, let '(a, s') := c s in k a s'.

Definition ok {A} (a : A) : ME S A := λ s, (Ok a, s).

Definition raise {A} (e : exn) : ME S A := λ s, (Raise e, s).

Definition bindE {A B} (c : ME S A) (k : A → ME S B) : ME S B :=
  λ s, match c s with
       | (Ok a, s') => k a s'
       | (Raise e, s') => (Raise e, s')
       end.

Definition lift {A} (c : M S A) : ME S A :=
  λ s, let '(a, s') := c s in (Ok a, s').

(** [try: body / except Exception as e: handler e] *)
Definition try_except {A} (body : ME S A) (handler : exn → M S A) : M S A :=
  λ s, match body s with
       | (Ok a, s') => (a, s')
       | (Raise e, s') => handler e s'
       end.

(** [try: body / finally: fin] *)
Definition try_finally {A} (body : ME S A) (fin : ME S unit) : ME S A :=
  λ s, let '(r, s') := body s in
       match fin s' with
       | (Ok _, s'') => (r, s'')
       | (Raise e, s'') => (Raise e, s'')
       end.

Definition get : M S S := λ s, (s, s).
Definition put (s : S) : M S unit := λ _, ((), s).
End monad.

Notation "'let*' x ':=' c 'in' k" := (bind c (λ x, k))
  (at level 10, x pattern, c at level 200, k at level 200).
Notation "'let?' x ':=' c 'in' k" := (bindE c (λ x, k))
  (at level 10, x pattern, c at level 200, k at level 200).

(** A method of an object [O] runs on the object and the world. *)
Definition on_world {O W A} (c : M W A) : M (O * W) A :=
  λ s, let '(a, w) := c s.2 in (a, (s.1, w)).
Definition on_worldE {O W A} (c : ME W A) : ME (O * W) A :=
  λ s, let '(a, w) := c s.2 in (a, (s.1, w)).
Definition on_self {O W A} (c : M O A) : M (O * W) A :=
  λ s, let '(a, o) := c s.1 in (a, (o, s.2)).

(** ** The data of a project *)

(** A configuration value: JSON string or number. *)
Inductive cfg_value :=
  | CfgStr (s : string)
  | CfgNum (q : Q).

Record InputData := {
  seed_keywords : list string;
  target_audience : string;
  custom_instructions : string
}.

Definition set_seed_keywords (l : list string) (i : InputData) : InputData :=
  {| seed_keywords := l; target_audience := target_audience i;
     custom_instructions := custom_instructions i |}.
Definition set_custom_instructions (c : string) (i : InputData) : InputData :=
  {| seed_keywords := seed_keywords i; target_audience := target_audience i;
     custom_instructions := c |}.

(** The dictionary [config_data] that [save_config] dumps and
    [load_from_config] reads back. [json.load (json.dump d) = d] on these
    types (string keys, strings, numbers, lists, null), so the file holds
    the dictionary itself. *)
Module Snapshot.
Record t := {
  project_id : string;
  name : string;
  description : string;
  created_at : string;
  updated_at : string;
  config : gmap string cfg_value;
  input_data : InputData;
  execution_status : gmap string (gmap string (option string));
  output_files : gmap string (list string)
}.
End Snapshot.

(** ** The world outside the objects *)

Inductive content :=
  | ConfigJson (d : Snapshot.t)                       (* config.json *)
  | SettingsJson (c : gmap string cfg_value)          (* inputs/settings.json *)
  | Lines (l : list string)                           (* one string per line *)
  | Text (s : string)
  | KeywordScript (template : content) (seeds : list string)
      (* KeywordResearcher.py with SEED_KEYWORDS and the progress calls
         substituted by _create_keyword_research_script *)
  | ArticleBrief (project_name : string) (config : gmap string cfg_value)
                 (keyword_csv : content)
      (* the text _create_article_brief_placeholder renders from the CSV *)
  | ArticleBriefError.
      (* its "Article Brief Generation Error" text, when the CSV is unreadable *)

Inductive node :=
  | Dir
  | File (c : content).

(** A call of one registered progress callback. *)
Record ProgressCall := {
  pc_callback : nat;
  pc_project_id : string;
  pc_stage : string;
  pc_progress : Q;
  pc_message : string
}.

(** A [subprocess.run] call: the command, the variables added to
    [os.environ] (before [str()]), the working directory, the timeout. *)
Record Process := {
  argv : list string;
  environ : gmap string cfg_value;
  proc_cwd : string;
  timeout : Z
}.

Inductive ProcOutcome :=
  | Completed (returncode : Z) (stdout stderr : string) (fs' : gmap string node)
  | Expired (fs' : gmap string node)                 (* subprocess.TimeoutExpired *)
  | NotStarted (e : exn).                            (* OSError from the spawn *)

Record World := {
  fs : gmap string node;       (* absolute path ↦ node *)
  cwd : string;                (* os.getcwd() *)
  clock : nat;                 (* readings taken of the clock and of uuid4 *)
  calls : list ProgressCall;   (* progress callbacks called so far *)
  processes : list Process     (* children started so far *)
}.

(** What the code reads from outside and cannot compute. *)
Record Env := {
  isoformat_now : nat → string;       (* datetime.now().isoformat() *)
  uuid4 : nat → string;               (* str(uuid.uuid4()) *)
  subprocess_run : Process → gmap string node → ProcOutcome
}.

Definition set_fs (f : gmap string node) (w : World) : World :=
  {| fs := f; cwd := cwd w; clock := clock w; calls := calls w; processes := processes w |}.
Definition set_cwd (d : string) (w : World) : World :=
  {| fs := fs w; cwd := d; clock := clock w; calls := calls w; processes := processes w |}.
Definition tick (w : World) : World :=
  {| fs := fs w; cwd := cwd w; clock := S (clock w); calls := calls w; processes := processes w |}.
Definition add_calls (l : list ProgressCall) (w : World) : World :=
  {| fs := fs w; cwd := cwd w; clock := clock w; calls := calls w ++ l; processes := processes w |}.
Definition add_process (p : Process) (w : World) : World :=
  {| fs := fs w; cwd := cwd w; clock := clock w; calls := calls w; processes := processes w ++ [p] |}.

Definition datetime_now (E : Env) : M World string :=
  λ w, (isoformat_now E (clock w), tick w).
Definition new_uuid4 (E : Env) : M World string :=
  λ w, (uuid4 E (clock w), tick w).

Definition run_process (E : Env) (p : Process) : ME World (Z * string * string) :=
  λ w, let w := add_process p w in
       match subprocess_run E p (fs w) with
       | Completed rc out err f => (Ok (rc, out, err), set_fs f w)
       | Expired f => (Raise (Exn TimeoutExpired "Command timed out"), set_fs f w)
       | NotStarted e => (Raise e, w)
       end.

(** ** The file system, as [pathlib], [os] and [glob] use it

    Paths are strings with ["/"] as separator and are not normalised; a
    relative path is resolved against the working directory at the time of
    the call. *)

Module FS.

Definition resolve (w : World) (p : string) : string :=
  if Path.is_absolute p then p else Path.join (cwd w) p.

Definition node_at (w : World) (p : string) : option node :=
  let a := resolve w p in
  if decide (a = "") then Some Dir else fs w !! a.

Definition exists_ (w : World) (p : string) : bool :=
  bool_decide (is_Some (node_at w p)).
Definition is_dir (w : World) (p : string) : bool :=
  match node_at w p with Some Dir => true | _ => false end.
Definition is_file (w : World) (p : string) : bool :=
  match node_at w p with Some (File _) => true | _ => false end.

Definition errno (k : exn_kind) (text p : string) : exn :=
  Exn k (text ++ ": '" ++ p ++ "'").
Definition ENOENT (p : string) := errno FileNotFoundError "[Errno 2] No such file or directory" p.
Definition EEXIST (p : string) := errno FileExistsError "[Errno 17] File exists" p.
Definition ENOTDIR (p : string) := errno NotADirectoryError "[Errno 20] Not a directory" p.
Definition EISDIR (p : string) := errno IsADirectoryError "[Errno 21] Is a directory" p.

(** What stands in the way of creating or opening an entry at [p]. *)
Definition parent_error (w : World) (p : string) : option exn :=
  match node_at w (Path.parent (resolve w p)) with
  | Some Dir => None
  | Some (File _) => Some (ENOTDIR p)
  | None => Some (ENOENT p)
  end.

(** [Path(p).mkdir(exist_ok=True)] *)
Definition mkdir (p : string) : ME World unit :=
  λ w, match node_at w p with
       | Some Dir => (Ok (), w)
       | Some (File _) => (Raise (EEXIST p), w)
       | None =>
           match parent_error w p with
           | Some e => (Raise e, w)
           | None => (Ok (), set_fs (<[resolve w p := Dir]> (fs w)) w)
           end
       end.

Fixpoint mkdir_chain (l : list string) : ME World unit :=
  match l with
  | [] => ok ()
  | d :: l' => let? _ := mkdir d in mkdir_chain l'
  end.

(** [Path(p).mkdir(parents=True, exist_ok=True)] *)
Definition mkdir_parents (p : string) : ME World unit :=
  λ w, mkdir_chain (Path.chain (resolve w p)) w.

(** [with open(p, 'w') as f: f.write(c)] (or [json.dump(c, f)]) *)
Definition write (p : string) (c : content) : ME World unit :=
  λ w, match node_at w p with
       | Some Dir => (Raise (EISDIR p), w)
       | Some (File _) => (Ok (), set_fs (<[resolve w p := File c]> (fs w)) w)
       | None =>
           match parent_error w p with
           | Some e => (Raise e, w)
           | None => (Ok (), set_fs (<[resolve w p := File c]> (fs w)) w)
           end
       end.

(** [with open(p, 'r') as f: f.read()] *)
Definition read (p : string) : ME World content :=
  λ w, match node_at w p with
       | Some (File c) => (Ok c, w)
       | Some Dir => (Raise (EISDIR p), w)
       | None => (Raise (ENOENT p), w)
       end.

(** The names in the directory at absolute path [a], in the order the
    map enumerates them (the order of [os.scandir] is unspecified). *)
Definition names_in (w : World) (a : string) : list string :=
  omap (λ kv : string * node,
          if decide (Path.parent kv.1 = a ∧ kv.1 ≠ "") then Some (Path.name kv.1)
          else None)
       (map_to_list (fs w)).

(** [Path(p).iterdir()], as the children's paths. *)
Definition iterdir (p : string) : ME World (list string) :=
  λ w, match node_at w p with
       | Some Dir => (Ok (map (Path.join p) (names_in w (resolve w p))), w)
       | Some (File _) => (Raise (ENOTDIR p), w)
       | None => (Raise (ENOENT p), w)
       end.

(** [Path(p).unlink()] *)
Definition unlink (p : string) : ME World unit :=
  λ w, match node_at w p with
       | Some (File _) => (Ok (), set_fs (delete (resolve w p) (fs w)) w)
       | Some Dir => (Raise (EISDIR p), w)
       | None => (Raise (ENOENT p), w)
       end.

(** [Path(src).rename(dst)] for a regular file [src]; renaming a
    directory, which the callers do only when a child process left one
    under an output file's name, is reported as an [OSError]. *)
Definition rename (src dst : string) : ME World unit :=
  λ w, match node_at w src with
       | None => (Raise (ENOENT (src ++ "' -> '" ++ dst)), w)
       | Some Dir => (Raise (Exn OSError ("cannot rename directory '" ++ src ++ "'")), w)
       | Some (File c) =>
           match node_at w dst with
           | Some Dir => (Raise (EISDIR (src ++ "' -> '" ++ dst)), w)
           | _ =>
               match parent_error w dst with
               | Some _ => (Raise (ENOENT (src ++ "' -> '" ++ dst)), w)
               | None =>
                   (Ok (), set_fs (<[resolve w dst := File c]>
                                     (delete (resolve w src) (fs w))) w)
               end
           end
       end.

(** [os.chdir(p)] *)
Definition chdir (p : string) : ME World unit :=
  λ w, match node_at w p with
       | Some Dir => (Ok (), set_cwd (resolve w p) w)
       | Some (File _) => (Raise (ENOTDIR p), w)
       | None => (Raise (ENOENT p), w)
       end.

(** [fnmatch] with [*] as the only wildcard. *)
Fixpoint wild (pattern name : list ascii) {struct pattern} : bool :=
  match pattern with
  | [] => bool_decide (name = [])
  | c :: pattern' =>
      if decide (c = "*"%char) then
        (fix star (n : list ascii) : bool :=
           wild pattern' n || match n with [] => false | _ :: n' => star n' end) name
      else match name with
           | [] => false
           | d :: name' => bool_decide (c = d) && wild pattern' name'
           end
  end.

(** A name matches a [glob] pattern; a leading dot is matched only by a
    pattern that starts with one. *)
Definition glob_match (pattern name : string) : bool :=
  wild (list_ascii_of_string pattern) (list_ascii_of_string name)
  && (negb (Str.startswith "." name) || Str.startswith "." pattern).

(** [glob.glob(str(Path(d) / pattern))] for a pattern without separator,
    [d] taken literally. *)
Definition glob (d pattern : string) (w : World) : list string :=
  if is_dir w d then
    map (Path.join d) (filter (λ n, glob_match pattern n = true) (names_in w (resolve w d)))
  else [].

(** [shutil.rmtree(p)]: the directory at [p] and everything below it. *)
Definition rmtree (p : string) : ME World unit :=
  λ w, match node_at w p with
       | Some Dir =>
           let a := resolve w p in
           (Ok (), set_fs (filter (λ kv, ¬ (kv.1 = a ∨ Str.startswith (a ++ "/") kv.1 = true))
                                  (fs w)) w)
       | Some (File _) => (Raise (ENOTDIR p), w)
       | None => (Raise (ENOENT p), w)
       end.

End FS.

(** ** backend/models/project.py *)

Module ContentProject.

Record t := {
  project_id : string;
  name : string;
  description : string;
  created_at : string;
  updated_at : string;
  config : gmap string cfg_value;
  input_data : InputData;
  execution_status : gmap string (gmap string (option string));
  output_files : gmap string (list string);
  project_path : option string
}.

Definition set_updated_at (v : string) (p : t) : t :=
  {| project_id := project_id p; name := name p; description := description p;
     created_at := created_at p; updated_at := v; config := config p;
     input_data := input_data p; execution_status := execution_status p;
     output_files := output_files p; project_path := project_path p |}.
Definition set_config (v : gmap string cfg_value) (p : t) : t :=
  {| project_id := project_id p; name := name p; description := description p;
     created_at := created_at p; updated_at := updated_at p; config := v;
     input_data := input_data p; execution_status := execution_status p;
     output_files := output_files p; project_path := project_path p |}.
Definition set_input_data (v : InputData) (p : t) : t :=
  {| project_id := project_id p; name := name p; description := description p;
     created_at := created_at p; updated_at := updated_at p; config := config p;
     input_data := v; execution_status := execution_status p;
     output_files := output_files p; project_path := project_path p |}.
Definition set_execution_status (v : gmap string (gmap string (option string))) (p : t) : t :=
  {| project_id := project_id p; name := name p; description := description p;
     created_at := created_at p; updated_at := updated_at p; config := config p;
     input_data := input_data p; execution_status := v;
     output_files := output_files p; project_path := project_path p |}.
Definition set_output_files (v : gmap string (list string)) (p : t) : t :=
  {| project_id := project_id p; name := name p; description := description p;
     created_at := created_at p; updated_at := updated_at p; config := config p;
     input_data := input_data p; execution_status := execution_status p;
     output_files := v; project_path := project_path p |}.
Definition set_project_path (v : option string) (p : t) : t :=
  {| project_id := project_id p; name := name p; description := description p;
     created_at := created_at p; updated_at := updated_at p; config := config p;
     input_data := input_data p; execution_status := execution_status p;
     output_files := output_files p; project_path := v |}.

(** [{"status": "pending", "completed_at": None, "error": None}] *)
Definition pending_entry : gmap string (option string) :=
  <["status" := Some "pending"]> (<["completed_at" := None]> (<["error" := None]> ∅)).

Definition default_config : gmap string cfg_value :=
  list_to_map
    [("target_location", CfgStr "India");
     ("target_language", CfgStr "en");
     ("serp_overlap_threshold", CfgNum (3 # 10));
     ("min_search_volume", CfgNum 100);
     ("max_competition", CfgNum (3 # 10));
     ("content_generator", CfgStr "claude");
     ("claude_model_preference", CfgStr "quality")].

Definition __init__ (E : Env) (name description : string) (project_id : option string)
    : M World t :=
  let* pid :=
    match project_id with
    | Some i => if decide (i = "") then new_uuid4 E else ret i
    | None => new_uuid4 E
    end in
  let* created := datetime_now E in
  let* updated := datetime_now E in
  ret {| project_id := pid; name := name; description := description;
         created_at := created; updated_at := updated;
         config := default_config;
         input_data := {| seed_keywords := []; target_audience := "";
                          custom_instructions := "" |};
         execution_status :=
           list_to_map
             [("keyword_research", pending_entry);
              ("content_briefs", pending_entry);
              ("article_writing", pending_entry);
              ("social_media", pending_entry);
              ("youtube_scripts", pending_entry)];
         output_files :=
           list_to_map
             [("keyword_research", []);
              ("content_briefs", []);
              ("articles", []);
              ("social_media", []);
              ("youtube", [])];
         project_path := None |}.

Definition slug (p : t) : string :=
  Str.replace "_" "-" (Str.replace " " "-" (Str.lower (name p))).

Definition project_folder_name (p : t) : string :=
  "project-" ++ Str.take 8 (project_id p) ++ "-" ++ slug p.

Definition get_project_path (base_projects_dir : string) : M t string :=
  λ p, match project_path p with
       | Some path => (path, p)
       | None =>
           let path := Path.join base_projects_dir (project_folder_name p) in
           (path, set_project_path (Some path) p)
       end.

Definition config_data (p : t) : Snapshot.t :=
  {| Snapshot.project_id := project_id p; Snapshot.name := name p;
     Snapshot.description := description p; Snapshot.created_at := created_at p;
     Snapshot.updated_at := updated_at p; Snapshot.config := config p;
     Snapshot.input_data := input_data p;
     Snapshot.execution_status := execution_status p;
     Snapshot.output_files := output_files p |}.

Definition save_config : M (t * World) bool :=
  try_except
    (let? project_path := lift (on_self (get_project_path "projects")) in
     let config_file := Path.join project_path "config.json" in
     let? self := lift get in
     let? _ := on_worldE (FS.write config_file (ConfigJson (config_data self.1))) in
     ok true)
    (λ _, ret false).

Definition save_inputs : M (t * World) bool :=
  try_except
    (let? project_path := lift (on_self (get_project_path "projects")) in
     let inputs_dir := Path.join project_path "inputs" in
     let? self := lift get in
     let p := self.1 in
     let? _ :=
       match seed_keywords (input_data p) with
       | [] => ok ()
       | kws => on_worldE (FS.write (Path.join inputs_dir "seed_keywords.txt") (Lines kws))
       end in
     let? _ := on_worldE (FS.write (Path.join inputs_dir "settings.json")
                                   (SettingsJson (config p))) in
     let? _ :=
       if decide (custom_instructions (input_data p) = "") then ok ()
       else on_worldE (FS.write (Path.join inputs_dir "custom_instructions.md")
                                (Text (custom_instructions (input_data p)))) in
     ok true)
    (λ _, ret false).

Definition subdirs : list string :=
  ["inputs"; "stage_01_keyword_research"; "stage_02_content_briefs";
   "stage_03_articles"; "stage_04_social_media"; "stage_05_youtube"; "exports"].

Fixpoint mkdir_each (project_path : string) (l : list string) : ME World unit :=
  match l with
  | [] => ok ()
  | subdir :: l' =>
      let? _ := FS.mkdir (Path.join project_path subdir) in
      mkdir_each project_path l'
  end.

Definition create_project_structure (base_projects_dir : string) : M (t * World) bool :=
  try_except
    (let? project_path := lift (on_self (get_project_path base_projects_dir)) in
     let? _ := on_worldE (FS.mkdir_parents project_path) in
     let? _ := on_worldE (mkdir_each project_path subdirs) in
     let? _ := lift save_config in
     let? _ := lift save_inputs in
     ok true)
    (λ _, ret false).

Definition load_from_config (E : Env) (project_path : string) : M World (option t) :=
  try_except
    (let config_file := Path.join project_path "config.json" in
     let? w := lift get in
     if negb (FS.exists_ w config_file) then ok None
     else
       let? c := FS.read config_file in
       match c with
       | ConfigJson data =>
           let? project := lift (__init__ E (Snapshot.name data) (Snapshot.description data)
                                          (Some (Snapshot.project_id data))) in
           ok (Some
                 {| project_id := project_id project;
                    name := name project;
                    description := description project;
                    created_at := Snapshot.created_at data;
                    updated_at := Snapshot.updated_at data;
                    config := Snapshot.config data;
                    input_data := Snapshot.input_data data;
                    execution_status := Snapshot.execution_status data;
                    output_files := Snapshot.output_files data;
                    project_path := Some project_path |})
       | _ => raise (Exn JSONDecodeError "Expecting value: line 1 column 1 (char 0)")
       end)
    (λ _, ret None).

(** [if error:] *)
Definition truthy (error : option string) : bool :=
  match error with
  | Some e => negb (bool_decide (e = ""))
  | None => false
  end.

Definition update_stage_status (E : Env) (stage status : string) (error : option string)
    : M (t * World) bool :=
  let* self := get in
  match execution_status self.1 !! stage with
  | Some entry =>
      let entry := <["status" := Some status]> entry in
      let* entry :=
        if decide (status = "completed") then
          let* now := on_world (datetime_now E) in
          ret (<["completed_at" := Some now]> entry)
        else ret entry in
      let entry := if truthy error then <["error" := error]> entry else entry in
      let* now := on_world (datetime_now E) in
      let* _ := on_self (λ p, ((), set_updated_at now
                                      (set_execution_status
                                         (<[stage := entry]> (execution_status p)) p))) in
      let* _ := save_config in
      ret true
  | None => ret false
  end.

Definition add_output_file (E : Env) (stage file_path : string) : M (t * World) bool :=
  let* self := get in
  match output_files self.1 !! stage with
  | Some files =>
      if bool_decide (file_path ∈ files) then ret true
      else
        let* now := on_world (datetime_now E) in
        let* _ := on_self (λ p, ((), set_updated_at now
                                        (set_output_files
                                           (<[stage := files ++ [file_path]]> (output_files p)) p))) in
        let* _ := save_config in
        ret true
  | None => ret false
  end.

Definition stage_map : gmap string string :=
  list_to_map
    [("keyword_research", "stage_01_keyword_research");
     ("content_briefs", "stage_02_content_briefs");
     ("articles", "stage_03_articles");
     ("social_media", "stage_04_social_media");
     ("youtube", "stage_05_youtube")].

Definition get_stage_files (stage : string) : ME (t * World) (list string) :=
  match stage_map !! stage with
  | Some d =>
      let? project_path := lift (on_self (get_project_path "projects")) in
      let stage_dir := Path.join project_path d in
      let? self := lift get in
      if FS.exists_ self.2 stage_dir then
        let? children := on_worldE (FS.iterdir stage_dir) in
        ok (filter (λ f, FS.is_file self.2 f = true) children)
      else ok []
  | None => ok []
  end.

End ContentProject.

(** ** backend/core/script_executor.py *)

Definition cfg_get (c : gmap string cfg_value) (key : string) (dflt : cfg_value) : cfg_value :=
  default dflt (c !! key).

(** [sys.executable] *)
Definition sys_executable : string := "python".

Module ScriptExecutor.

Record t := { scripts_dir : string }.

Definition _create_keyword_research_script (self : t) (seed_keywords : list string)
    : ME World content :=
  let original_script := Path.join (scripts_dir self) "KeywordResearcher.py" in
  let? script_content := FS.read original_script in
  ok (KeywordScript script_content seed_keywords).

Definition execute_keyword_research (E : Env) (self : t)
    (progress_callback : option (Q → string → M World unit))
    : M (ContentProject.t * World) bool :=
  let report (p : Q) (m : string) : M (ContentProject.t * World) unit :=
    match progress_callback with
    | Some f => on_world (f p m)
    | None => ret ()
    end in
  try_except
    (let? _ := lift (report 10%Q "Setting up keyword research...") in
     let? st := lift get in
     let project := st.1 in
     let? project_dir :=
       match ContentProject.project_path project with
       | Some d => ok d
       | None => raise (Exn TypeError
                   "expected str, bytes or os.PathLike object, not NoneType")
       end in
     let output_dir := Path.join project_dir "stage_01_keyword_research" in
     let? _ := on_worldE (FS.mkdir output_dir) in
     let seeds := seed_keywords (ContentProject.input_data project) in
     match seeds with
     | [] => raise (Exn ValueError "No seed keywords found in project")
     | _ =>
       let? _ := lift (report 20%Q ("Processing " ++ pretty (length seeds)
                                    ++ " seed keywords...")%string) in
       let cfg := ContentProject.config project in
       let env : gmap string cfg_value :=
         list_to_map
           [("TARGET_LOCATION", cfg_get cfg "target_location" (CfgStr "India"));
            ("TARGET_LANGUAGE", cfg_get cfg "target_language" (CfgStr "en"));
            ("KEYWORD_CLUSTERS_FILE", CfgStr (Path.join output_dir "keyword_clusters.csv"));
            ("CLUSTER_SUMMARY_FILE", CfgStr (Path.join output_dir "cluster_summary.csv"));
            ("SERP_OVERLAP_THRESHOLD", cfg_get cfg "serp_overlap_threshold" (CfgStr "0.3"));
            ("MIN_SEARCH_VOLUME", cfg_get cfg "min_search_volume" (CfgStr "100"));
            ("MAX_COMPETITION", cfg_get cfg "max_competition" (CfgStr "0.3"))] in
       let? _ := lift (report 30%Q "Creating modified script for project...") in
       let? script_content := on_worldE (_create_keyword_research_script self seeds) in
       let temp_script := Path.join output_dir "keyword_research_temp.py" in
       let? _ := on_worldE (FS.write temp_script script_content) in
       let? _ := lift (report 40%Q "Executing keyword research script...") in
       let? result := on_worldE (run_process E
                        {| argv := [sys_executable; temp_script]; environ := env;
                           proc_cwd := output_dir; timeout := 300 |}) in
       let? _ := lift (report 80%Q "Processing results...") in
       if negb (result.1.1 =? 0)%Z then ok false
       else
         let output_file := Path.join output_dir "keyword_clusters.csv" in
         let summary_file := Path.join output_dir "cluster_summary.csv" in
         let? st := lift get in
         if negb (FS.exists_ st.2 output_file) || negb (FS.exists_ st.2 summary_file)
         then ok false
         else
           let? _ := lift (on_self (λ p, ((),
                         ContentProject.set_output_files
                           (<["keyword_research" :=
                                ["stage_01_keyword_research/keyword_clusters.csv";
                                 "stage_01_keyword_research/cluster_summary.csv"]]>
                              (ContentProject.output_files p)) p))) in
           let? _ := lift (report 100%Q "Keyword research completed successfully!") in
           let? st := lift get in
           let? _ := if FS.exists_ st.2 temp_script
                     then on_worldE (FS.unlink temp_script) else ok () in
           ok true
     end)
    (λ e, let* _ := report (-1)%Q ("Error: " ++ str_of e)%string in ret false).

Definition _create_article_brief_placeholder (project : ContentProject.t)
    (keyword_file : string) : M World content :=
  try_except
    (let? df := FS.read keyword_file in
     ok (ArticleBrief (ContentProject.name project) (ContentProject.config project) df))
    (λ _, ret ArticleBriefError).

Definition execute_article_brief (E : Env) (self : t)
    (progress_callback : option (Q → string → M World unit))
    : M (ContentProject.t * World) bool :=
  let report (p : Q) (m : string) : M (ContentProject.t * World) unit :=
    match progress_callback with
    | Some f => on_world (f p m)
    | None => ret ()
    end in
  try_except
    (let? _ := lift (report 10%Q "Setting up article brief generation...") in
     let? st := lift get in
     let project := st.1 in
     let? project_dir :=
       match ContentProject.project_path project with
       | Some d => ok d
       | None => raise (Exn TypeError
                   "expected str, bytes or os.PathLike object, not NoneType")
       end in
     let keyword_file :=
       Path.join (Path.join project_dir "stage_01_keyword_research") "keyword_clusters.csv" in
     if negb (FS.exists_ st.2 keyword_file) then
       let? _ := lift (report (-1)%Q "Keyword research must be completed first") in
       ok false
     else
       let output_dir := Path.join project_dir "stage_02_content_briefs" in
       let? _ := on_worldE (FS.mkdir output_dir) in
       let? _ := lift (report 50%Q "Generating article brief...") in
       let? brief_content :=
         lift (on_world (_create_article_brief_placeholder project keyword_file)) in
       let brief_file := Path.join output_dir "article_brief.md" in
       let? _ := on_worldE (FS.write brief_file brief_content) in
       let? _ := lift (on_self (λ p, ((),
                     ContentProject.set_output_files
                       (<["content_briefs" := ["stage_02_content_briefs/article_brief.md"]]>
                          (ContentProject.output_files p)) p))) in
       let? _ := lift (report 100%Q "Article brief generated successfully!") in
       ok true)
    (λ e, let* _ := report (-1)%Q ("Error: " ++ str_of e)%string in ret false).

End ScriptExecutor.

(** ** backend/core/pipeline_executor.py *)

Module PipelineExecutor.

Record t := {
  scripts_dir : string;
  script_executor : ScriptExecutor.t;
  progress_callbacks : list nat
}.

(** A value of a [stage_scripts] entry: a script name or description, or
    the list of expected outputs. *)
Inductive sval :=
  | SStr (s : string)
  | SList (l : list string).

Definition stage_scripts : gmap string (gmap string sval) :=
  list_to_map
    [("keyword_research",
      list_to_map [("script", SStr "KeywordResearcher.py");
                   ("description", SStr "Keyword clustering and SERP analysis");
                   ("outputs", SList ["keyword_clusters.csv"; "cluster_summary.csv"])]);
     ("content_briefs",
      list_to_map [("openai", SStr "ArticleBrief.py");
                   ("claude", SStr "ArticleBrief_Claude.py");
                   ("description", SStr "Content outline generation with competitive analysis");
                   ("outputs", SList ["article_briefs.json"; "article_briefs.md"])]);
     ("article_writing",
      list_to_map [("openai", SStr "ArticleWriter.py");
                   ("claude", SStr "ArticleWriter_Claude.py");
                   ("description", SStr "Article generation and writing");
                   ("outputs", SList ["article_draft.json"; "article_draft.md"])]);
     ("social_media",
      list_to_map [("openai", SStr "SocialMedia.py");
                   ("claude", SStr "SocialMedia_Claude.py");
                   ("description", SStr "Multi-platform social media content creation");
                   ("outputs", SList ["social_posts.json"; "social_posts.md"])]);
     ("youtube_scripts",
      list_to_map [("openai", SStr "YoutTubeScript.py");
                   ("claude", SStr "YouTubeScript_Claude.py");
                   ("description", SStr "YouTube video script generation");
                   ("outputs", SList ["youtube_script.json"; "youtube_script.md"])])].

Definition add_progress_callback (callback : nat) (self : t) : t :=
  {| scripts_dir := scripts_dir self; script_executor := script_executor self;
     progress_callbacks := progress_callbacks self ++ [callback] |}.

(** Every registered callback is called; one that raises is caught and
    the loop goes on, so the record of the calls is all that remains. *)
Definition _notify_progress (self : t) (project_id stage : string) (progress : Q)
    (message : string) : M World unit :=
  λ w, ((), add_calls (map (λ cb, {| pc_callback := cb; pc_project_id := project_id;
                                     pc_stage := stage; pc_progress := progress;
                                     pc_message := message |})
                           (progress_callbacks self)) w).

Definition _setup_project_environment : M ContentProject.t (gmap string cfg_value) :=
  let* project_path := ContentProject.get_project_path "projects" in
  let* project := get in
  let cfg := ContentProject.config project in
  ret (list_to_map
         [("TARGET_LOCATION", cfg_get cfg "target_location" (CfgStr "India"));
          ("TARGET_LANGUAGE", cfg_get cfg "target_language" (CfgStr "en"));
          ("SERP_OVERLAP_THRESHOLD", cfg_get cfg "serp_overlap_threshold" (CfgNum (3 # 10)));
          ("MIN_SEARCH_VOLUME", cfg_get cfg "min_search_volume" (CfgNum 100));
          ("MAX_COMPETITION", cfg_get cfg "max_competition" (CfgNum (3 # 10)));
          ("CONTENT_GENERATOR", cfg_get cfg "content_generator" (CfgStr "claude"));
          ("CLAUDE_MODEL_PREFERENCE", cfg_get cfg "claude_model_preference" (CfgStr "quality"))]).

(** [if script_name:] *)
Definition sval_truthy (v : option sval) : bool :=
  match v with
  | Some (SStr s) => negb (bool_decide (s = ""))
  | Some (SList l) => negb (bool_decide (l = []))
  | None => false
  end.

Definition _get_script_path (self : t) (stage : string) (content_generator : cfg_value)
    : pyres (option string) :=
  match stage_scripts !! stage with
  | None => Ok None
  | Some stage_config =>
      let script_name :=
        if decide (stage = "keyword_research") then stage_config !! "script"
        else
          let by_generator :=
            match content_generator with
            | CfgStr g => stage_config !! g
            | CfgNum _ => None
            end in
          if sval_truthy by_generator then by_generator else stage_config !! "openai" in
      if sval_truthy script_name then
        match script_name with
        | Some (SStr s) => Ok (Some (Path.join (scripts_dir self) s))
        | _ => Raise (Exn TypeError
                 "unsupported operand type(s) for /: 'PosixPath' and 'list'")
        end
      else Ok None
  end.

Record Result := {
  success : bool;
  message : string;
  outputs : option (list string);
  stdout : option string;
  stderr : option string
}.

Definition stage_mapping : gmap string string :=
  list_to_map
    [("keyword_research", "stage_01_keyword_research");
     ("content_briefs", "stage_02_content_briefs");
     ("article_writing", "stage_03_articles");
     ("social_media", "stage_04_social_media");
     ("youtube_scripts", "stage_05_youtube")].

Definition claude_patterns : list string :=
  ["claude_writing_prompt.md"; "claude_social_prompts_*.md";
   "claude_youtube_prompts_*.md"; "*_claude.json"; "*_claude.md"].

Fixpoint move_expected (E : Env) (project_path stage_dir stage : string)
    (expected_outputs : list string) : ME (ContentProject.t * World) unit :=
  match expected_outputs with
  | [] => ok ()
  | output_file :: rest =>
      let source_file := Path.join project_path output_file in
      let? st := lift get in
      let? _ :=
        if FS.exists_ st.2 source_file then
          let dest_file := Path.join stage_dir output_file in
          let? _ := on_worldE (FS.rename source_file dest_file) in
          let? _ := lift (ContentProject.add_output_file E stage dest_file) in
          ok ()
        else ok () in
      move_expected E project_path stage_dir stage rest
  end.

Fixpoint move_matches (E : Env) (stage_dir stage : string) (matches : list string)
    : ME (ContentProject.t * World) unit :=
  match matches with
  | [] => ok ()
  | file_path :: rest =>
      let dest_file := Path.join stage_dir (Path.name file_path) in
      let? _ :=
        if decide (file_path ≠ dest_file) then
          let? _ := on_worldE (FS.rename file_path dest_file) in
          let? _ := lift (ContentProject.add_output_file E stage dest_file) in
          ok ()
        else ok () in
      move_matches E stage_dir stage rest
  end.

Fixpoint move_patterns (E : Env) (project_path stage_dir stage : string)
    (patterns : list string) : ME (ContentProject.t * World) unit :=
  match patterns with
  | [] => ok ()
  | pattern :: rest =>
      let? st := lift get in
      let? _ := move_matches E stage_dir stage (FS.glob project_path pattern st.2) in
      move_patterns E project_path stage_dir stage rest
  end.

Definition _organize_stage_outputs (E : Env) (self : t) (stage : string)
    : ME (ContentProject.t * World) unit :=
  let? project_path := lift (on_self (ContentProject.get_project_path "projects")) in
  let stage_dir := Path.join project_path (default stage (stage_mapping !! stage)) in
  let? _ := on_worldE (FS.mkdir stage_dir) in
  let expected_outputs :=
    match default ∅ (stage_scripts !! stage) !! "outputs" with
    | Some (SList l) => l
    | _ => []
    end in
  let? _ := move_expected E project_path stage_dir stage expected_outputs in
  let? st := lift get in
  match ContentProject.config st.1 !! "content_generator" with
  | Some (CfgStr "claude") => move_patterns E project_path stage_dir stage claude_patterns
  | _ => ok ()
  end.

Definition failed (E : Env) (stage error_msg : string)
    : M (ContentProject.t * World) Result :=
  let* _ := ContentProject.update_stage_status E stage "failed" (Some error_msg) in
  ret {| success := false; message := error_msg; outputs := None;
         stdout := None; stderr := None |}.

(** The [try] block of [execute_stage]. *)
Definition run_stage_body (E : Env) (self : t) (stage : string)
    : ME (ContentProject.t * World) Result :=
  let? st0 := lift get in
  let progress_callback : Q → string → M World unit :=
    λ progress message,
      _notify_progress self (ContentProject.project_id st0.1) stage progress message in
  let notify (p : Q) (m : string) : ME (ContentProject.t * World) unit :=
    lift (on_world (progress_callback p m)) in
  let completed_successfully := ("Stage " ++ stage ++ " completed successfully")%string in
  if decide (stage = "keyword_research") then
    let? ok_ := lift (ScriptExecutor.execute_keyword_research E (script_executor self)
                        (Some progress_callback)) in
    if negb ok_ then raise (Exn Exception "Keyword research execution failed")
    else
      let? _ := lift (ContentProject.update_stage_status E stage "completed" None) in
      let? _ := lift ContentProject.save_config in
      let? st := lift get in
      ok {| success := true; message := completed_successfully;
            outputs := Some (default [] (ContentProject.output_files st.1 !! stage));
            stdout := None; stderr := None |}
  else if decide (stage = "content_briefs") then
    let? ok_ := lift (ScriptExecutor.execute_article_brief E (script_executor self)
                        (Some progress_callback)) in
    if negb ok_ then raise (Exn Exception "Article brief generation failed")
    else
      let? _ := lift (ContentProject.update_stage_status E stage "completed" None) in
      let? _ := lift ContentProject.save_config in
      let? st := lift get in
      ok {| success := true; message := completed_successfully;
            outputs := Some (default [] (ContentProject.output_files st.1 !! stage));
            stdout := None; stderr := None |}
  else
    let content_generator :=
      cfg_get (ContentProject.config st0.1) "content_generator" (CfgStr "claude") in
    let not_found := Exn FileNotFoundError ("Script not found for stage " ++ stage) in
    match _get_script_path self stage content_generator with
    | Raise e => raise e
    | Ok None => raise not_found
    | Ok (Some script_path) =>
        if negb (FS.exists_ st0.2 script_path) then raise not_found
        else
          let? env := lift (on_self _setup_project_environment) in
          let original_cwd := cwd st0.2 in
          let? project_path := lift (on_self (ContentProject.get_project_path "projects")) in
          try_finally
            (let? _ := on_worldE (FS.chdir project_path) in
             let? _ := notify 25%Q "Executing script" in
             let? st := lift get in
             let? result := on_worldE (run_process E
                              {| argv := [sys_executable; FS.resolve st.2 script_path];
                                 environ := env; proc_cwd := cwd st.2;
                                 timeout := 3600 |}) in
             let? _ := notify 75%Q "Processing outputs" in
             if (result.1.1 =? 0)%Z then
               let? _ := _organize_stage_outputs E self stage in
               let? _ := lift (ContentProject.update_stage_status E stage "completed" None) in
               let? _ := notify 100%Q "Stage completed successfully" in
               let? files := ContentProject.get_stage_files stage in
               ok {| success := true; message := completed_successfully;
                     outputs := Some files;
                     stdout := Some result.1.2; stderr := Some result.2 |}
             else
               let error_msg := ("Script execution failed: " ++ result.2)%string in
               let? _ := lift (ContentProject.update_stage_status E stage "failed"
                                 (Some error_msg)) in
               ok {| success := false; message := error_msg; outputs := None;
                     stdout := Some result.1.2; stderr := Some result.2 |})
            (on_worldE (FS.chdir original_cwd))
    end.

Definition is_timeout (e : exn) : bool :=
  match kind e with TimeoutExpired => true | _ => false end.

Definition execute_stage (E : Env) (self : t) (stage : string) (force_regenerate : bool)
    : ME (ContentProject.t * World) Result :=
  let? st := lift get in
  let stage_status := default ∅ (ContentProject.execution_status st.1 !! stage) in
  if bool_decide (stage_status !! "status" = Some (Some "completed"))
     && negb force_regenerate
  then
    let? files := ContentProject.get_stage_files stage in
    ok {| success := true; message := "Stage " ++ stage ++ " already completed";
          outputs := Some files; stdout := None; stderr := None |}
  else
    let? _ := lift (ContentProject.update_stage_status E stage "running" None) in
    let? _ := lift (on_world (_notify_progress self (ContentProject.project_id st.1) stage
                                0%Q "Starting stage execution")) in
    lift (try_except (run_stage_body E self stage)
            (λ e, if is_timeout e then failed E stage "Script execution timed out"
                  else failed E stage ("Error executing stage: " ++ str_of e))).

Definition stages : list string :=
  ["keyword_research"; "content_briefs"; "article_writing"; "social_media";
   "youtube_scripts"].

Fixpoint index (l : list string) (x : string) : option nat :=
  match l with
  | [] => None
  | y :: l' => if decide (y = x) then Some 0 else S <$> index l' x
  end.

Record PipelineResult := {
  pipeline_success : bool;
  results : gmap string Result;
  pipeline_project_id : string
}.

(** The [for i, stage in enumerate(stages[start_index:], start_index)] loop;
    returns [overall_success] and [results]. *)
Fixpoint pipeline_loop (E : Env) (self : t) (force_regenerate : bool)
    (i : nat) (todo : list string) (results : gmap string Result)
    : ME (ContentProject.t * World) (bool * gmap string Result) :=
  match todo with
  | [] => ok (true, results)
  | stage :: rest =>
      let? st := lift get in
      let? _ := lift (on_world (_notify_progress self (ContentProject.project_id st.1)
                        "pipeline" (inject_Z (Z.of_nat i) / 5 * 100)%Q
                        ("Executing " ++ stage))) in
      let? result := execute_stage E self stage force_regenerate in
      let results := <[stage := result]> results in
      if negb (success result) then ok (false, results)
      else pipeline_loop E self force_regenerate (S i) rest results
  end.

Definition execute_full_pipeline (E : Env) (self : t) (start_stage : option string)
    (force_regenerate : bool) : ME (ContentProject.t * World) PipelineResult :=
  let start_index :=
    match start_stage with
    | Some s => if decide (s = "") then 0 else default 0 (index stages s)
    | None => 0
    end in
  let? r := pipeline_loop E self force_regenerate start_index (drop start_index stages) ∅ in
  let? st := lift get in
  let? _ := lift (on_world (_notify_progress self (ContentProject.project_id st.1)
                    "pipeline" 100%Q
                    (if r.1 then "Pipeline execution completed"
                     else "Pipeline execution failed"))) in
  ok {| pipeline_success := r.1; results := r.2;
        pipeline_project_id := ContentProject.project_id st.1 |}.

Definition stage_dependencies : gmap string (list string) :=
  list_to_map
    [("keyword_research", []);
     ("content_briefs", ["keyword_research"]);
     ("article_writing", ["keyword_research"; "content_briefs"]);
     ("social_media", ["keyword_research"; "content_briefs"; "article_writing"]);
     ("youtube_scripts", ["keyword_research"; "content_briefs"; "article_writing"])].

(** [project.execution_status.get(dep_stage, {}).get("status", "pending")];
    [None] is Python's [None]. *)
Definition dep_status_of (project : ContentProject.t) (dep_stage : string) : option string :=
  default (Some "pending")
          (default ∅ (ContentProject.execution_status project !! dep_stage) !! "status").

(** [f"{dep_status}"] *)
Definition format_status (s : option string) : string := default "None" s.

Fixpoint check_dependencies (project : ContentProject.t) (dependencies : list string)
    : bool * string :=
  match dependencies with
  | [] => (true, "Dependencies satisfied")
  | dep_stage :: rest =>
      let dep_status := dep_status_of project dep_stage in
      if decide (dep_status ≠ Some "completed") then
        (false, ("Dependency " ++ dep_stage ++ " not completed (status: "
                   ++ format_status dep_status ++ ")")%string)
      else check_dependencies project rest
  end.

Definition can_execute_stage (project : ContentProject.t) (stage : string)
    : bool * string :=
  let dependencies := default [] (stage_dependencies !! stage) in
  check_dependencies project dependencies.

End PipelineExecutor.

(** ** backend/core/project_manager.py

    The cache holds the project objects by value, as they were when the
    manager last stored them. *)

Module ProjectManager.

Record t := {
  projects_base_dir : string;
  _project_cache : gmap string ContentProject.t
}.

Definition set_cache (c : gmap string ContentProject.t) (m : t) : t :=
  {| projects_base_dir := projects_base_dir m; _project_cache := c |}.

Definition __init__ (projects_base_dir : string) : ME World t :=
  let? _ := FS.mkdir projects_base_dir in
  ok {| projects_base_dir := projects_base_dir; _project_cache := ∅ |}.

(** [create_project]; [seed_keywords] and [config_overrides] are [None]
    when the caller leaves them out. *)
Definition create_project (E : Env) (name description : string)
    (seed_keywords : option (list string))
    (config_overrides : option (gmap string cfg_value))
    : ME (t * World) ContentProject.t :=
  let? project := lift (on_world (ContentProject.__init__ E name description None)) in
  let project :=
    match seed_keywords with
    | Some (k :: ks) =>
        ContentProject.set_input_data
          (set_seed_keywords (k :: ks) (ContentProject.input_data project)) project
    | _ => project
    end in
  let project :=
    match config_overrides with
    | Some o => if decide (o = ∅) then project
                else ContentProject.set_config (o ∪ ContentProject.config project) project
    | None => project
    end in
  let? self := lift get in
  let '(created, (project, w)) :=
    ContentProject.create_project_structure (projects_base_dir self.1) (project, self.2) in
  let? _ := lift (put (self.1, w)) in
  if created then
    let? _ := lift (put (set_cache (<[ContentProject.project_id project := project]>
                                      (_project_cache self.1)) self.1, w)) in
    ok project
  else raise (Exn Exception "Failed to create project structure").

Definition _project_exists_on_filesystem (self : t) (project : ContentProject.t)
    (w : World) : bool :=
  if negb (FS.exists_ w (projects_base_dir self)) then false
  else
    let expected_dir_name :=
      ("project-" ++ Str.take 8 (ContentProject.project_id project) ++ "-"
         ++ Str.replace " " "-" (Str.lower (ContentProject.name project)))%string in
    let project_dir := Path.join (projects_base_dir self) expected_dir_name in
    if negb (FS.exists_ w project_dir) || negb (FS.is_dir w project_dir) then false
    else FS.exists_ w (Path.join project_dir "config.json").

Definition expected_stages : list string :=
  ["keyword_research"; "content_briefs"; "article_writing"; "social_media";
   "youtube_scripts"].

Definition _validate_project (project : ContentProject.t) : bool :=
  if bool_decide (ContentProject.project_id project = "")
     || bool_decide (ContentProject.name project = "") then false
  else if bool_decide (ContentProject.execution_status project = ∅) then false
  else forallb (λ stage, bool_decide (is_Some (ContentProject.execution_status project !! stage)))
               expected_stages.

(** The [for project_dir in self.projects_base_dir.iterdir()] loop of
    [load_project]; [None] when the loop ends without a [return]. *)
Fixpoint scan (E : Env) (project_id : string) (dirs : list string)
    : M (t * World) (option (option ContentProject.t)) :=
  match dirs with
  | [] => ret None
  | project_dir :: rest =>
      let* self := get in
      if FS.is_dir self.2 project_dir && Str.contains project_id (Path.name project_dir) then
        let* project := on_world (ContentProject.load_from_config E project_dir) in
        match project with
        | Some project =>
            if bool_decide (ContentProject.project_id project = project_id) then
              if _validate_project project then
                let* _ := on_self (λ m, ((), set_cache (<[project_id := project]>
                                                          (_project_cache m)) m)) in
                ret (Some (Some project))
              else ret (Some None)
            else scan E project_id rest
        | None => scan E project_id rest
        end
      else scan E project_id rest
  end.

Definition load_project (E : Env) (project_id : string)
    : M (t * World) (option ContentProject.t) :=
  let* self := get in
  let continue_ : M (t * World) (option ContentProject.t) :=
    try_except
      (let? self := lift get in
       let? dirs := on_worldE (FS.iterdir (projects_base_dir self.1)) in
       let? found := lift (scan E project_id dirs) in
       ok (default None found))
      (λ _, ret None) in
  match _project_cache self.1 !! project_id with
  | Some cached_project =>
      if _project_exists_on_filesystem self.1 cached_project self.2 then
        ret (Some cached_project)
      else
        let* _ := on_self (λ m, ((), set_cache (delete project_id (_project_cache m)) m)) in
        continue_
  | None => continue_
  end.

Definition refresh_project (E : Env) (project_id : string)
    : M (t * World) (option ContentProject.t) :=
  let* _ := on_self (λ m, ((), set_cache (delete project_id (_project_cache m)) m)) in
  load_project E project_id.

(** [delete_project]. The project [load_project] returns is the object the
    cache holds under the id, so the path [get_project_path] may store in
    it is stored in the cached object. *)
Definition delete_project (E : Env) (project_id : string) : M (t * World) bool :=
  try_except
    (let? project := lift (load_project E project_id) in
     match project with
     | None => ok false
     | Some project =>
         let? self := lift get in
         let '(project_path, project) :=
           ContentProject.get_project_path (projects_base_dir self.1) project in
         let? _ := lift (on_self (λ m, ((), set_cache (<[project_id := project]>
                                                         (_project_cache m)) m))) in
         let? _ := if FS.exists_ self.2 project_path
                   then on_worldE (FS.rmtree project_path) else ok () in
         let? _ := lift (on_self (λ m, ((), set_cache (delete project_id (_project_cache m))
                                                      m))) in
         ok true
     end)
    (λ _, ret false).

(** [duplicate_project]. The new project is the object [create_project]
    put in the cache, so the instructions copied into it are copied into
    the cached object. *)
Definition duplicate_project (E : Env) (project_id new_name : string)
    : M (t * World) (option ContentProject.t) :=
  try_except
    (let? original_project := lift (load_project E project_id) in
     match original_project with
     | None => ok None
     | Some original_project =>
         let? new_project :=
           create_project E new_name ("Copy of " ++ ContentProject.name original_project)
             (Some (seed_keywords (ContentProject.input_data original_project)))
             (Some (ContentProject.config original_project)) in
         let instructions := custom_instructions (ContentProject.input_data original_project) in
         if decide (instructions = "") then ok (Some new_project)
         else
           let new_project :=
             ContentProject.set_input_data
               (set_custom_instructions instructions (ContentProject.input_data new_project))
               new_project in
           let? self := lift get in
           let '(_, (new_project, w)) := ContentProject.save_inputs (new_project, self.2) in
           let? _ := lift (put (set_cache (<[ContentProject.project_id new_project :=
                                               new_project]> (_project_cache self.1)) self.1,
                                w)) in
           ok (Some new_project)
     end)
    (λ _, ret None).

(** [f"project-{project_id[:8]}-{project.name.lower().replace(' ', '-')}"] *)
Definition expected_dir_name (project_id : string) (project : ContentProject.t) : string :=
  ("project-" ++ Str.take 8 project_id ++ "-"
     ++ Str.replace " " "-" (Str.lower (ContentProject.name project)))%string.

Definition is_project_dir (w : World) (project_dir : string) : bool :=
  FS.is_dir w project_dir && Str.startswith "project-" (Path.name project_dir).

Definition _cleanup_cache : ME (t * World) unit :=
  let? self := lift get in
  if negb (FS.exists_ self.2 (projects_base_dir self.1)) then
    lift (on_self (λ m, ((), set_cache ∅ m)))
  else
    let? dirs := on_worldE (FS.iterdir (projects_base_dir self.1)) in
    let existing_project_dirs :=
      map Path.name (filter (λ d, is_project_dir self.2 d = true) dirs) in
    lift (on_self (λ m, ((), set_cache
                               (filter (λ kv, expected_dir_name kv.1 kv.2
                                              ∈ existing_project_dirs)
                                       (_project_cache m)) m))).

(** The minimal project [list_projects] returns in place of a loaded one. *)
Definition minimal_project (E : Env) (project : ContentProject.t) : M World ContentProject.t :=
  let* minimal := ContentProject.__init__ E (ContentProject.name project)
                    (ContentProject.description project)
                    (Some (ContentProject.project_id project)) in
  ret (ContentProject.set_execution_status (ContentProject.execution_status project)
         {| ContentProject.project_id := ContentProject.project_id minimal;
            ContentProject.name := ContentProject.name minimal;
            ContentProject.description := ContentProject.description minimal;
            ContentProject.created_at := ContentProject.created_at project;
            ContentProject.updated_at := ContentProject.updated_at project;
            ContentProject.config := ContentProject.config minimal;
            ContentProject.input_data := ContentProject.input_data minimal;
            ContentProject.execution_status := ContentProject.execution_status minimal;
            ContentProject.output_files := ContentProject.output_files minimal;
            ContentProject.project_path := ContentProject.project_path minimal |}).

(** The loop of [list_projects] over the entries of the directory. *)
Fixpoint list_scan (E : Env) (include_details : bool) (dirs : list string)
    (projects : list ContentProject.t) : M (t * World) (list ContentProject.t) :=
  match dirs with
  | [] => ret projects
  | project_dir :: rest =>
      let* self := get in
      if is_project_dir self.2 project_dir then
        let* project := on_world (ContentProject.load_from_config E project_dir) in
        match project with
        | Some project =>
            if _validate_project project then
              let* _ := on_self (λ m, ((), set_cache
                                             (<[ContentProject.project_id project := project]>
                                                (_project_cache m)) m)) in
              if include_details then list_scan E include_details rest (projects ++ [project])
              else
                let* minimal := on_world (minimal_project E project) in
                list_scan E include_details rest (projects ++ [minimal])
            else list_scan E include_details rest projects
        | None => list_scan E include_details rest projects
        end
      else list_scan E include_details rest projects
  end.

(** [projects.sort(key=..., reverse=True)]: stable, greatest key first. *)
Fixpoint insert_by (key : ContentProject.t → string) (x : ContentProject.t)
    (l : list ContentProject.t) : list ContentProject.t :=
  match l with
  | [] => [x]
  | y :: l' => if String.ltb (key y) (key x) then x :: y :: l'
               else y :: insert_by key x l'
  end.

Definition sort_reverse (key : ContentProject.t → string) (l : list ContentProject.t)
    : list ContentProject.t :=
  fold_left (λ acc x, insert_by key x acc) l [].

Definition list_projects (E : Env) (include_details : bool)
    : M (t * World) (list ContentProject.t) :=
  let* projects :=
    try_except
      (let? _ := _cleanup_cache in
       let? self := lift get in
       if negb (FS.exists_ self.2 (projects_base_dir self.1)) then ok []
       else
         let? dirs := on_worldE (FS.iterdir (projects_base_dir self.1)) in
         lift (list_scan E include_details dirs []))
      (λ _, ret []) in
  ret (sort_reverse ContentProject.created_at projects).

Definition search_projects (E : Env) (query : string)
    : M (t * World) (list ContentProject.t) :=
  let* projects := list_projects E false in
  let query := Str.lower query in
  ret (filter (λ project,
                 Str.contains query (Str.lower (ContentProject.name project))
                 || Str.contains query (Str.lower (ContentProject.description project))
                 || existsb (λ keyword, Str.contains query (Str.lower keyword))
                            (seed_keywords (ContentProject.input_data project)) = true)
              projects).

End ProjectManager.

(** * Specification vocabulary *)

(** The fields of a stage's entry in [execution_status]: [None] when the
    stage or the key is absent, [Some None] for Python's [None]. *)
Definition status_of (p : ContentProject.t) (stage : string) : option (option string) :=
  ContentProject.execution_status p !! stage ≫= (λ entry, entry !! "status").
Definition completed_at_of (p : ContentProject.t) (stage : string) : option (option string) :=
  ContentProject.execution_status p !! stage ≫= (λ entry, entry !! "completed_at").
Definition error_of (p : ContentProject.t) (stage : string) : option (option string) :=
  ContentProject.execution_status p !! stage ≫= (λ entry, entry !! "error").

(** The latest update the tracker holds for a project and stage. *)
Definition latest (tr : ProgressTracker.t) (pid stg : string)
    : option ProgressTracker.ProgressUpdate :=
  ProgressTracker._progress_data tr !! pid ≫= (λ stages, stages !! stg).

(** The entry of the manifest [output_files] for a key. *)
Definition manifest (p : ContentProject.t) (key : string) : list string :=
  default [] (ContentProject.output_files p !! key).

(** A computation on a project and the world that leaves the project's
    [execution_status] as it found it, whatever it returns or raises. *)
Definition frame {R : Type} (c : ContentProject.t * World → R * (ContentProject.t * World))
    : Prop :=
  ∀ st, ContentProject.execution_status (c st).2.1 = ContentProject.execution_status st.1.

(** ** What a run of one stage may change in [execution_status]

    [es0] is the map before the run of [stage], [es] the map at some later
    point of it. *)

Definition field (es : gmap string (gmap string (option string))) (stage key : string)
    : option (option string) :=
  es !! stage ≫= (λ entry, entry !! key).

(** Only the entry of [stage] differs, and no key was added or removed. *)
Definition only_stage (stage : string) (es0 es : gmap string (gmap string (option string)))
    : Prop :=
  (∀ s, s ≠ stage → es !! s = es0 !! s)
  ∧ (is_Some (es !! stage) ↔ is_Some (es0 !! stage)).

(** ... and the recorded error of [stage] is the one it had. *)
Definition entered (stage : string) (es0 es : gmap string (gmap string (option string)))
    : Prop :=
  only_stage stage es0 es ∧ field es stage "error" = field es0 stage "error".

Definition completed (stage : string) (es0 es : gmap string (gmap string (option string)))
    : Prop :=
  entered stage es0 es
  ∧ (is_Some (es0 !! stage) → field es stage "status" = Some (Some "completed")).

Definition failed_with (stage : string) (es0 : gmap string (gmap string (option string)))
    (msg : string) (es : gmap string (gmap string (option string))) : Prop :=
  only_stage stage es0 es
  ∧ (is_Some (es0 !! stage) →
     field es stage "status" = Some (Some "failed")
     ∧ field es stage "error" = Some (Some msg)).

(** What the result of [execute_stage] says about the map it leaves. *)
Definition outcome (stage : string) (es0 : gmap string (gmap string (option string)))
    (r : PipelineExecutor.Result) (es : gmap string (gmap string (option string))) : Prop :=
  if PipelineExecutor.success r then completed stage es0 es
  else PipelineExecutor.message r ≠ "" ∧ failed_with stage es0 (PipelineExecutor.message r) es.

(** A computation started with [execution_status] in [I] ends with it in
    [Q a] when it returns [a] and in [R] when it raises. *)
Definition triple {A : Type} (I : gmap string (gmap string (option string)) → Prop)
    (c : ME (ContentProject.t * World) A)
    (Q : A → gmap string (gmap string (option string)) → Prop)
    (R : gmap string (gmap string (option string)) → Prop) : Prop :=
  ∀ st, I (ContentProject.execution_status st.1) →
    match c st with
    | (Ok a, st') => Q a (ContentProject.execution_status st'.1)
    | (Raise _, st') => R (ContentProject.execution_status st'.1)
    end.

(** The state in which [execute_full_pipeline] enters the stage at index
    [i]: the callbacks have been told ["Executing <stage>"]. *)
Definition announced (self : PipelineExecutor.t) (i : nat) (stage : string)
    (st : ContentProject.t * World) : ContentProject.t * World :=
  (on_world (PipelineExecutor._notify_progress self (ContentProject.project_id st.1)
               "pipeline" (inject_Z (Z.of_nat i) / 5 * 100)%Q ("Executing " ++ stage)) st).2.

(** The state in which it returns after a failure. *)
Definition pipeline_failed (self : PipelineExecutor.t) (st : ContentProject.t * World)
    : ContentProject.t * World :=
  (on_world (PipelineExecutor._notify_progress self (ContentProject.project_id st.1)
               "pipeline" 100%Q "Pipeline execution failed") st).2.


(** The directory [get_stage_files] lists for a stage it knows. *)
Definition stage_dir_of (p : ContentProject.t) (stage : string) : option string :=
  Path.join (ContentProject.get_project_path "projects" p).1 <$> ContentProject.stage_map !! stage.

Definition failure (msg : string) : PipelineExecutor.Result :=
  {| PipelineExecutor.success := false; PipelineExecutor.message := msg;
     PipelineExecutor.outputs := None; PipelineExecutor.stdout := None;
     PipelineExecutor.stderr := None |}.

(** ** A concrete installation

    The application runs in [/app] with the scripts in [/opt/scripts]; the
    keyword-research child writes its two CSV files and exits with 0, every
    other script exits with 1 and ["boom"] on its standard error. *)

Module Demo.

Definition project_id : string := "12345678-aaaa-4bbb-8ccc-123456789abc".

Definition stage_01 : string :=
  "/app/projects/project-12345678-demo/stage_01_keyword_research".

Definition E : Env :=
  {| isoformat_now := λ n, ("2025-01-01T00:00:" ++ pretty n)%string;
     uuid4 := λ _, project_id;
     subprocess_run := λ p f,
       match argv p with
       | [_; script] =>
           if Str.contains "keyword_research_temp.py" script then
             Completed 0 "" ""
               (<[Path.join stage_01 "keyword_clusters.csv" := File (Text "Keyword,Search Volume")]>
                  (<[Path.join stage_01 "cluster_summary.csv" := File (Text "Cluster,Size")]> f))
           else Completed 1 "" "boom" f
       | _ => NotStarted (Exn OSError "no command")
       end |}.

Definition world : World :=
  {| fs := <["/opt/scripts/KeywordResearcher.py" := File (Text "SEED_KEYWORDS = []")]>
             (<["/opt/scripts/ArticleWriter_Claude.py" := File (Text "")]>
                (<["/opt/scripts" := Dir]> (<["/opt" := Dir]> {[ "/app" := Dir ]})));
     cwd := "/app"; clock := 0; calls := []; processes := [] |}.

Definition executor : PipelineExecutor.t :=
  {| PipelineExecutor.scripts_dir := "/opt/scripts";
     PipelineExecutor.script_executor := {| ScriptExecutor.scripts_dir := "/opt/scripts" |};
     PipelineExecutor.progress_callbacks := [0] |}.

(** [ProjectManager("projects")] *)
Definition manager : ProjectManager.t * World :=
  ({| ProjectManager.projects_base_dir := "projects"; ProjectManager._project_cache := ∅ |},
   (FS.mkdir "projects" world).2).

(** [manager.create_project(name, "", ["a", "b"])] *)
Definition create (name : string)
    : pyres ContentProject.t * (ProjectManager.t * World) :=
  ProjectManager.create_project E name "" (Some ["a"; "b"]) None manager.

(** The project it returns (a blank one, had it raised). *)
Definition created (name : string) : ContentProject.t :=
  match create name with
  | (Ok p, _) => p
  | (Raise _, (_, w)) => (ContentProject.__init__ E name "" None w).1
  end.

(** The project named "Demo" just after its creation, with the world. *)
Definition fresh : ContentProject.t * World := (created "Demo", (create "Demo").2.2).

(** ... and after [execute_stage(project, "keyword_research")]. *)
Definition researched : ContentProject.t * World :=
  (PipelineExecutor.execute_stage E executor "keyword_research" false fresh).2.

(** The three stage runs of a pipeline started on the new project. *)
Definition the_result (r : pyres PipelineExecutor.Result) : PipelineExecutor.Result :=
  match r with
  | Ok r => r
  | Raise e => failure (str_of e)
  end.
Definition run1 : pyres PipelineExecutor.Result * (ContentProject.t * World) :=
  PipelineExecutor.execute_stage E executor "keyword_research" false
    (announced executor 0 "keyword_research" fresh).
Definition run2 : pyres PipelineExecutor.Result * (ContentProject.t * World) :=
  PipelineExecutor.execute_stage E executor "content_briefs" false
    (announced executor 1 "content_briefs" run1.2).
Definition run3 : pyres PipelineExecutor.Result * (ContentProject.t * World) :=
  PipelineExecutor.execute_stage E executor "article_writing" false
    (announced executor 2 "article_writing" run2.2).

(** A manager constructed anew over the same directory. *)
Definition restarted (st : ProjectManager.t * World) : ProjectManager.t * World :=
  (ProjectManager.set_cache ∅ st.1, st.2).

(** The project after a failed keyword research, before a forced re-run. *)
Definition failed_once : ContentProject.t * World :=
  (ContentProject.update_stage_status E "keyword_research" "failed"
     (Some "Error executing stage: Keyword research execution failed") fresh).2.

(** A tracker holding one update, completed two days before [now]. *)
Definition now : Z := 1000000000000.
Definition stale : ProgressTracker.t :=
  ProgressTracker.update_progress (now - ProgressTracker.timedelta_hours 48)
    "p1" "keyword_research" 100 "done" ProgressTracker.__init__.

End Demo.

(** A project object just constructed, not yet written anywhere; and the
    same with the first three stages marked completed. *)
Definition unsaved : ContentProject.t * World :=
  ((ContentProject.__init__ Demo.E "Demo" "" None Demo.world).1, Demo.world).

Definition completed_entry : gmap string (option string) :=
  <["status" := Some "completed"]> ContentProject.pending_entry.

Definition half_done : ContentProject.t :=
  ContentProject.set_execution_status
    (<["keyword_research" := completed_entry]>
       (<["content_briefs" := completed_entry]>
          (<["article_writing" := completed_entry]>
             (ContentProject.execution_status unsaved.1))))
    unsaved.1.

(** The installation of [Demo] with scripts that all exit with 0 and write
    nothing. *)
Definition quiet : Env :=
  {| isoformat_now := isoformat_now Demo.E; uuid4 := uuid4 Demo.E;
     subprocess_run := λ _ f, Completed 0 "" "" f |}.

(** The demo project with article_writing marked completed and a draft in
    its stage directory. *)
Definition drafted : ContentProject.t * World :=
  let st := (ContentProject.update_stage_status Demo.E "article_writing" "completed" None
               Demo.fresh).2 in
  (st.1, (FS.write "projects/project-12345678-demo/stage_03_articles/article_draft.md"
            (Text "# Draft") st.2).2).

(** * The progress tracker *)

Lemma Qltb_lt (x y : Q) : ProgressTracker.Qltb x y = true ↔ (x < y)%Q.
Proof.
  unfold ProgressTracker.Qltb. rewrite negb_true_iff.
  split.
  - intros H. apply Qnot_le_lt. intros Hle. apply Qle_bool_iff in Hle. congruence.
  - intros H. destruct (Qle_bool y x) eqn:Hb; [|done].
    apply Qle_bool_iff in Hb. exfalso. eapply Qlt_not_le; eauto.
Qed.

Lemma Qltb_ge (x y : Q) : ProgressTracker.Qltb x y = false ↔ (y <= x)%Q.
Proof.
  unfold ProgressTracker.Qltb. rewrite negb_false_iff. apply Qle_bool_iff.
Qed.

(** What [max(0, min(100, p))] is. *)
Lemma clamp_spec (p : Q) :
  let c := ProgressTracker.py_max 0 (ProgressTracker.py_min 100 p) in
  (0 <= c ∧ c <= 100)%Q
  ∧ ((p <= 0)%Q → c = 0%Q)
  ∧ ((0 < p ∧ p < 100)%Q → c = p)
  ∧ ((100 <= p)%Q → c = 100%Q).
Proof.
  assert (Habs : ∀ x y : Q, (x < y)%Q → (y <= x)%Q → False)
    by (intros x y Hlt Hle; eapply Qlt_not_le; eauto).
  unfold ProgressTracker.py_max, ProgressTracker.py_min.
  destruct (ProgressTracker.Qltb p 100) eqn:H100;
    [apply Qltb_lt in H100 | apply Qltb_ge in H100].
  - destruct (ProgressTracker.Qltb 0 p) eqn:H0;
      [apply Qltb_lt in H0 | apply Qltb_ge in H0].
    + split_and!; [by apply Qlt_le_weak | by apply Qlt_le_weak | | done | ].
      * intros Hp. by destruct (Habs _ _ H0 Hp).
      * intros Hp. by destruct (Habs _ _ H100 Hp).
    + split_and!; [done | done | done | | ].
      * intros [Hp _]. by destruct (Habs _ _ Hp H0).
      * intros Hp. by destruct (Habs _ _ H100 Hp).
  - replace (ProgressTracker.Qltb 0 100) with true by reflexivity.
    split_and!; [done | done | | | done].
    + intros Hp. assert (100 <= 0)%Q by (eapply Qle_trans; eauto). done.
    + intros [_ Hp]. by destruct (Habs _ _ Hp H100).
Qed.

Lemma latest_update_progress now pid stg p msg tr :
  latest (ProgressTracker.update_progress now pid stg p msg tr) pid stg
  = Some {| ProgressTracker.project_id := pid; ProgressTracker.stage := stg;
            ProgressTracker.progress :=
              ProgressTracker.py_max 0 (ProgressTracker.py_min 100 p);
            ProgressTracker.message := msg; ProgressTracker.timestamp := now |}.
Proof.
  unfold latest, ProgressTracker.update_progress. simpl.
  rewrite lookup_insert_eq. simpl. by rewrite lookup_insert_eq.
Qed.

(** C4. Publishing the error sentinel -1 stores a latest update whose
    progress is 0: [update_progress] clamps every value, -1 included, with
    [max(0, min(100, progress))]. *)
Theorem update_progress_clamps_the_error_sentinel now pid stg msg tr :
  latest (ProgressTracker.update_progress now pid stg (-1) msg tr) pid stg
  = Some {| ProgressTracker.project_id := pid; ProgressTracker.stage := stg;
            ProgressTracker.progress := 0;
            ProgressTracker.message := msg; ProgressTracker.timestamp := now |}.
Proof. by rewrite latest_update_progress. Qed.

(** The loop of [cleanup_completed] keeps exactly the updates that are not
    both complete and older than the cutoff. *)
Lemma cleanup_sweep_lookup cutoff (data : gmap string (gmap string ProgressTracker.ProgressUpdate))
    pid stg :
  ProgressTracker.cleanup_sweep cutoff data !! pid ≫= (λ stages, stages !! stg)
  = (data !! pid ≫= (λ stages, stages !! stg))
      ≫= (λ u, if ProgressTracker.to_remove cutoff u then None else Some u).
Proof.
  unfold ProgressTracker.cleanup_sweep. rewrite lookup_omap.
  destruct (data !! pid) as [stages|] eqn:Hpid; simpl; [|done].
  case_decide as Hempty; simpl.
  - destruct (stages !! stg) as [u|] eqn:Hu; simpl; [|done].
    destruct (ProgressTracker.to_remove cutoff u) eqn:Hr; [done|].
    exfalso.
    assert (filter (λ kv : string * ProgressTracker.ProgressUpdate,
                      ProgressTracker.to_remove cutoff kv.2 = false) stages !! stg = Some u)
      as Hin by (apply map_lookup_filter_Some; done).
    rewrite Hempty in Hin. by rewrite lookup_empty in Hin.
  - rewrite map_lookup_filter.
    destruct (stages !! stg) as [u|] eqn:Hu; simpl; [|done].
    by destruct (ProgressTracker.to_remove cutoff u) eqn:Hr.
Qed.

(** ... and drops the projects left without an update. *)
Lemma cleanup_sweep_drops_empty cutoff
    (data : gmap string (gmap string ProgressTracker.ProgressUpdate)) pid :
  ProgressTracker.cleanup_sweep cutoff data !! pid ≠ Some ∅.
Proof.
  unfold ProgressTracker.cleanup_sweep. rewrite lookup_omap.
  destruct (data !! pid) as [stages|]; simpl; [|done].
  case_decide; simpl; congruence.
Qed.

(** C5. [cleanup_completed] evicts nothing: its first statement looks up
    [timedelta] in the module [time], which has no such attribute, so every
    call raises [AttributeError] before the tracker is touched. *)
Theorem cleanup_completed_raises now max_age_hours tr :
  ProgressTracker.cleanup_completed now max_age_hours tr
  = Raise (Exn AttributeError "module 'time' has no attribute 'timedelta'").
Proof. reflexivity. Qed.

(** * Frame: what leaves [execution_status] alone *)

Section frame.
Local Abbreviation S := (ContentProject.t * World)%type.

Lemma frame_ret {A} (a : A) : frame (ret (S:=S) a).
Proof. by intros st. Qed.

Lemma frame_ok {A} (a : A) : frame (ok (S:=S) a).
Proof. by intros st. Qed.

Lemma frame_raise {A} (e : exn) : frame (raise (S:=S) (A:=A) e).
Proof. by intros st. Qed.

Lemma frame_get : frame (get (S:=S)).
Proof. by intros st. Qed.

Lemma frame_bind {A B} (c : M S A) (k : A → M S B) :
  frame c → (∀ a, frame (k a)) → frame (bind c k).
Proof.
  intros Hc Hk st. unfold bind. specialize (Hc st).
  destruct (c st) as [a st']. rewrite Hk. done.
Qed.

Lemma frame_bindE {A B} (c : ME S A) (k : A → ME S B) :
  frame c → (∀ a, frame (k a)) → frame (bindE c k).
Proof.
  intros Hc Hk st. unfold bindE. specialize (Hc st).
  destruct (c st) as [[a|e] st']; [rewrite Hk|]; done.
Qed.

Lemma frame_lift {A} (c : M S A) : frame c → frame (lift c).
Proof.
  intros Hc st. unfold lift. specialize (Hc st). by destruct (c st).
Qed.

Lemma frame_try_except {A} (body : ME S A) (handler : exn → M S A) :
  frame body → (∀ e, frame (handler e)) → frame (try_except body handler).
Proof.
  intros Hb Hh st. unfold try_except. specialize (Hb st).
  destruct (body st) as [[a|e] st']; [|rewrite Hh]; done.
Qed.

Lemma frame_try_finally {A} (body : ME S A) (fin : ME S unit) :
  frame body → frame fin → frame (try_finally body fin).
Proof.
  intros Hb Hf st. unfold try_finally. specialize (Hb st).
  destruct (body st) as [r st']. specialize (Hf st').
  destruct (fin st') as [[?|?] st'']; simpl in *; congruence.
Qed.

Lemma frame_on_world {A} (c : M World A) : frame (on_world (O:=ContentProject.t) c).
Proof. intros st. unfold on_world. by destruct (c st.2). Qed.

Lemma frame_on_worldE {A} (c : ME World A) : frame (on_worldE (O:=ContentProject.t) c).
Proof. intros st. unfold on_worldE. by destruct (c st.2). Qed.

Lemma frame_on_self {A} (c : M ContentProject.t A) :
  (∀ p, ContentProject.execution_status (c p).2 = ContentProject.execution_status p) →
  frame (on_self (W:=World) c).
Proof.
  intros Hc st. unfold on_self. specialize (Hc st.1). by destruct (c st.1).
Qed.

Lemma get_project_path_status base p :
  ContentProject.execution_status (ContentProject.get_project_path base p).2
  = ContentProject.execution_status p.
Proof. unfold ContentProject.get_project_path. by destruct (ContentProject.project_path p). Qed.
End frame.

Create HintDb frame discriminated.
#[export] Hint Resolve frame_ret frame_ok frame_raise frame_get frame_lift frame_on_world
  frame_on_worldE get_project_path_status : frame.

(** Walks a computation built from the combinators, splitting on its
    branches. *)
Ltac frame_walk :=
  repeat match goal with
    | |- ∀ _, _ => intros
    | |- frame (let _ := _ in _) => cbv zeta
    | |- frame (bind _ _) => apply frame_bind
    | |- frame (bindE _ _) => apply frame_bindE
    | |- frame (try_except _ _) => apply frame_try_except
    | |- frame (try_finally _ _) => apply frame_try_finally
    | |- frame (lift _) => apply frame_lift
    | |- frame (on_self _) => apply frame_on_self; intros; simpl
    | |- frame (match ?x with _ => _ end) => destruct x
    | |- _ => solve [eauto with frame]
    end.

Lemma frame_save_config : frame ContentProject.save_config.
Proof. unfold ContentProject.save_config. frame_walk. Qed.

Lemma frame_save_inputs : frame ContentProject.save_inputs.
Proof. unfold ContentProject.save_inputs. frame_walk. Qed.

Lemma frame_add_output_file E stage file_path :
  frame (ContentProject.add_output_file E stage file_path).
Proof.
  unfold ContentProject.add_output_file. frame_walk; apply frame_save_config.
Qed.

Lemma frame_get_stage_files stage : frame (ContentProject.get_stage_files stage).
Proof. unfold ContentProject.get_stage_files. frame_walk. Qed.

#[export] Hint Resolve frame_save_config frame_save_inputs frame_add_output_file
  frame_get_stage_files : frame.

Lemma frame_execute_keyword_research E self cb :
  frame (ScriptExecutor.execute_keyword_research E self cb).
Proof. unfold ScriptExecutor.execute_keyword_research. frame_walk. Qed.

Lemma frame_execute_article_brief E self cb :
  frame (ScriptExecutor.execute_article_brief E self cb).
Proof. unfold ScriptExecutor.execute_article_brief. frame_walk. Qed.

Lemma frame_move_expected E project_path stage_dir stage l :
  frame (PipelineExecutor.move_expected E project_path stage_dir stage l).
Proof. induction l; simpl; frame_walk. Qed.

Lemma frame_move_matches E stage_dir stage l :
  frame (PipelineExecutor.move_matches E stage_dir stage l).
Proof. induction l; simpl; frame_walk. Qed.

#[export] Hint Resolve frame_move_expected frame_move_matches : frame.

Lemma frame_move_patterns E project_path stage_dir stage l :
  frame (PipelineExecutor.move_patterns E project_path stage_dir stage l).
Proof. induction l; simpl; frame_walk. Qed.

#[export] Hint Resolve frame_execute_keyword_research frame_execute_article_brief
  frame_move_patterns : frame.

Lemma frame_organize_stage_outputs E self stage :
  frame (PipelineExecutor._organize_stage_outputs E self stage).
Proof. unfold PipelineExecutor._organize_stage_outputs. frame_walk. Qed.

Lemma frame_setup_project_environment :
  ∀ p, ContentProject.execution_status (PipelineExecutor._setup_project_environment p).2
       = ContentProject.execution_status p.
Proof.
  intros p. unfold PipelineExecutor._setup_project_environment, bind, get, ret.
  pose proof (get_project_path_status "projects" p) as H.
  by destruct (ContentProject.get_project_path "projects" p).
Qed.

#[export] Hint Resolve frame_organize_stage_outputs frame_setup_project_environment : frame.

(** * [update_stage_status] and [add_output_file] *)

Lemma update_stage_status_spec E stage status error st :
  let r := ContentProject.update_stage_status E stage status error st in
  match ContentProject.execution_status st.1 !! stage with
  | None => r = (false, st)
  | Some entry =>
      r.1 = true ∧
      ∃ entry',
        ContentProject.execution_status r.2.1
          = <[stage := entry']> (ContentProject.execution_status st.1)
        ∧ entry' !! "status" = Some (Some status)
        ∧ entry' !! "error"
            = (if ContentProject.truthy error then Some error else entry !! "error")
        ∧ entry' !! "completed_at"
            = (if decide (status = "completed")
               then Some (Some (isoformat_now E (clock st.2)))
               else entry !! "completed_at")
  end.
Proof.
  destruct st as [p w]. unfold ContentProject.update_stage_status, bind, get. simpl.
  destruct (ContentProject.execution_status p !! stage) as [entry|] eqn:Hentry; [|done].
  set (entry' :=
         (if ContentProject.truthy error
          then <["error" := error]>
          else id)
           ((if decide (status = "completed")
             then <["completed_at" := Some (isoformat_now E (clock w))]>
             else id) (<["status" := Some status]> entry))).
  assert (∀ st', (let '(_, s') := ContentProject.save_config st' in (true, s')).1 = true)
    as Hfst by (intros st'; by destruct (ContentProject.save_config st')).
  assert (∀ st', ContentProject.execution_status
                   (let '(_, s') := ContentProject.save_config st' in (true, s')).2.1
                 = ContentProject.execution_status st'.1) as Hsnd.
  { intros st'. pose proof (frame_save_config st') as H.
    by destruct (ContentProject.save_config st'). }
  case_decide as Hc; simpl;
    (split; [apply Hfst|]); exists entry'; rewrite Hsnd; simpl;
    unfold entry'; destruct (ContentProject.truthy error); simpl;
    split_and!; try done; by simplify_map_eq.
Qed.

Lemma update_stage_status_other E stage status error st s :
  s ≠ stage →
  ContentProject.execution_status
    (ContentProject.update_stage_status E stage status error st).2.1 !! s
  = ContentProject.execution_status st.1 !! s.
Proof.
  intros Hs. pose proof (update_stage_status_spec E stage status error st) as H.
  simpl in H. destruct (ContentProject.execution_status st.1 !! stage).
  - destruct H as (_ & entry' & -> & _). by rewrite lookup_insert_ne.
  - by rewrite H.
Qed.

Lemma update_stage_status_present E stage status error st :
  is_Some (ContentProject.execution_status
             (ContentProject.update_stage_status E stage status error st).2.1 !! stage)
  ↔ is_Some (ContentProject.execution_status st.1 !! stage).
Proof.
  pose proof (update_stage_status_spec E stage status error st) as H.
  simpl in H. destruct (ContentProject.execution_status st.1 !! stage) eqn:Hst.
  - destruct H as (_ & entry' & -> & _). rewrite lookup_insert_eq. split; eauto.
  - rewrite H. simpl. by rewrite Hst.
Qed.

Lemma update_stage_status_status E stage status error st :
  field (ContentProject.execution_status
           (ContentProject.update_stage_status E stage status error st).2.1) stage "status"
  = match ContentProject.execution_status st.1 !! stage with
    | None => None
    | Some _ => Some (Some status)
    end.
Proof.
  pose proof (update_stage_status_spec E stage status error st) as H.
  simpl in H. unfold field.
  destruct (ContentProject.execution_status st.1 !! stage) eqn:Hst.
  - destruct H as (_ & entry' & -> & Hs & He & Hc). by rewrite lookup_insert_eq.
  - rewrite H. simpl. by rewrite Hst.
Qed.

Lemma update_stage_status_error E stage status error st :
  field (ContentProject.execution_status
           (ContentProject.update_stage_status E stage status error st).2.1) stage "error"
  = match ContentProject.execution_status st.1 !! stage with
    | None => None
    | Some entry => if ContentProject.truthy error then Some error else entry !! "error"
    end.
Proof.
  pose proof (update_stage_status_spec E stage status error st) as H.
  simpl in H. unfold field.
  destruct (ContentProject.execution_status st.1 !! stage) eqn:Hst.
  - destruct H as (_ & entry' & -> & Hs & He & Hc). by rewrite lookup_insert_eq.
  - rewrite H. simpl. by rewrite Hst.
Qed.

Lemma update_stage_status_completed_at E stage status error st :
  field (ContentProject.execution_status
           (ContentProject.update_stage_status E stage status error st).2.1)
        stage "completed_at"
  = match ContentProject.execution_status st.1 !! stage with
    | None => None
    | Some entry =>
        if decide (status = "completed")
        then Some (Some (isoformat_now E (clock st.2)))
        else entry !! "completed_at"
    end.
Proof.
  pose proof (update_stage_status_spec E stage status error st) as H.
  simpl in H. unfold field.
  destruct (ContentProject.execution_status st.1 !! stage) eqn:Hst.
  - destruct H as (_ & entry' & -> & Hs & He & Hc). by rewrite lookup_insert_eq.
  - rewrite H. simpl. by rewrite Hst.
Qed.

(** * One stage *)

Section triples.
Context (stage : string) (es0 : gmap string (gmap string (option string))).

Lemma entered_only es : entered stage es0 es → only_stage stage es0 es.
Proof. by intros [? _]. Qed.

Lemma completed_only es : completed stage es0 es → only_stage stage es0 es.
Proof. by intros [[? _] _]. Qed.

Lemma failed_only msg es : failed_with stage es0 msg es → only_stage stage es0 es.
Proof. by intros [? _]. Qed.

Lemma only_only es : only_stage stage es0 es → only_stage stage es0 es.
Proof. done. Qed.

Lemma outcome_only r es : outcome stage es0 r es → only_stage stage es0 es.
Proof.
  unfold outcome. destruct (PipelineExecutor.success r).
  - apply completed_only.
  - intros [_ ?]. by eapply failed_only.
Qed.

Lemma triple_ok {A} I (a : A) (Q : A → _ → Prop) R :
  (∀ es, I es → Q a es) → triple I (ok a) Q R.
Proof. intros H st HI. simpl. by apply H. Qed.

Lemma triple_raise {A} I e (Q : A → _ → Prop) (R : _ → Prop) :
  (∀ es, I es → R es) → triple I (raise e) Q R.
Proof. intros H st HI. simpl. by apply H. Qed.

Lemma triple_frame_bind {A B} I (c : ME _ A) (k : A → ME _ B) Q (R : _ → Prop) :
  frame c → (∀ es, I es → R es) → (∀ a, triple I (k a) Q R) →
  triple I (bindE c k) Q R.
Proof.
  intros Hc HR Hk st HI. unfold bindE. specialize (Hc st).
  destruct (c st) as [[a|e] st']; simpl in Hc.
  - apply Hk. by rewrite Hc.
  - apply HR. by rewrite Hc.
Qed.

Lemma triple_try_finally {A} I (body : ME _ A) fin (Q : A → _ → Prop) (R : _ → Prop) :
  triple I body Q R → frame fin → (∀ a es, Q a es → R es) →
  triple I (try_finally body fin) Q R.
Proof.
  intros Hb Hf HQ st HI. unfold try_finally. specialize (Hb st HI).
  destruct (body st) as [r st']. specialize (Hf st').
  destruct (fin st') as [[[]|e] st'']; simpl in Hf; rewrite Hf.
  - done.
  - destruct r; eauto.
Qed.

Lemma triple_update_completed {B} E (k : bool → ME _ B) Q R :
  (∀ b, triple (completed stage es0) (k b) Q R) →
  triple (entered stage es0)
         (bindE (lift (ContentProject.update_stage_status E stage "completed" None)) k) Q R.
Proof.
  intros Hk st [[Hother Hpres] Herr]. unfold bindE, lift.
  destruct (ContentProject.update_stage_status E stage "completed" None st) as [b st'] eqn:Hu.
  apply Hk.
  assert (st' = (ContentProject.update_stage_status E stage "completed" None st).2) as ->
    by by rewrite Hu.
  unfold completed, entered, only_stage. split_and!.
  - intros s Hs. rewrite update_stage_status_other by done. by apply Hother.
  - rewrite update_stage_status_present. done.
  - rewrite update_stage_status_error, <- Herr. unfold field. simpl.
    by destruct (ContentProject.execution_status st.1 !! stage).
  - intros Hin. rewrite update_stage_status_status.
    apply Hpres in Hin as [entry ->]. done.
Qed.

Lemma triple_update_failed {B} E msg (k : bool → ME _ B) Q R :
  msg ≠ "" →
  (∀ b, triple (failed_with stage es0 msg) (k b) Q R) →
  triple (only_stage stage es0)
         (bindE (lift (ContentProject.update_stage_status E stage "failed" (Some msg))) k) Q R.
Proof.
  intros Hmsg Hk st [Hother Hpres]. unfold bindE, lift.
  destruct (ContentProject.update_stage_status E stage "failed" (Some msg) st)
    as [b st'] eqn:Hu.
  apply Hk.
  assert (st' = (ContentProject.update_stage_status E stage "failed" (Some msg) st).2) as ->
    by by rewrite Hu.
  unfold failed_with, only_stage. split_and!.
  - intros s Hs. rewrite update_stage_status_other by done. by apply Hother.
  - rewrite update_stage_status_present. done.
  - intros Hin. rewrite update_stage_status_status, update_stage_status_error.
    apply Hpres in Hin as [entry ->]. simpl.
    rewrite bool_decide_eq_false_2 by done. done.
Qed.

Lemma triple_weaken {A} (I I' : _ → Prop) (c : ME _ A) Q R :
  (∀ es, I es → I' es) → triple I' c Q R → triple I c Q R.
Proof. intros HI Hc st H. apply Hc. by apply HI. Qed.

End triples.

#[export] Hint Resolve entered_only completed_only failed_only only_only outcome_only : frame.

Lemma nonempty_append (a b : string) : a ≠ "" → (a ++ b)%string ≠ "".
Proof.
  intros Ha. destruct a as [|c a]; [by destruct Ha|]. simpl. discriminate.
Qed.

Ltac triple_walk :=
  repeat match goal with
    | |- ∀ _, _ => intros
    | |- triple _ (let _ := _ in _) _ _ => cbv zeta
    | |- triple _ (bindE (lift (ContentProject.update_stage_status _ _ "completed" None)) _) _ _ =>
        apply triple_update_completed
    | |- triple _ (bindE (lift (ContentProject.update_stage_status _ _ "failed" (Some _))) _) _ _ =>
        eapply triple_weaken;
        [ | apply triple_update_failed; [by apply nonempty_append|] ];
        [ solve [eauto with frame] | ]
    | |- triple _ (bindE _ _) _ _ =>
        apply triple_frame_bind; [ solve [frame_walk] | solve [eauto with frame] | ]
    | |- triple _ (try_finally _ _) _ _ =>
        apply triple_try_finally; [ | solve [frame_walk] | solve [eauto with frame] ]
    | |- triple _ (raise _) _ _ => apply triple_raise; solve [eauto with frame]
    | |- triple _ (match ?x with _ => _ end) _ _ => destruct x
    end.

Lemma run_stage_body_triple E self stage es0 :
  triple (entered stage es0) (PipelineExecutor.run_stage_body E self stage)
         (outcome stage es0) (only_stage stage es0).
Proof.
  unfold PipelineExecutor.run_stage_body. triple_walk.
  all: apply triple_ok; intros es Hes; unfold outcome; simpl; try done.
Qed.

Lemma failed_triple E stage es0 msg :
  msg ≠ "" →
  ∀ st, only_stage stage es0 (ContentProject.execution_status st.1) →
    let r := PipelineExecutor.failed E stage msg st in
    outcome stage es0 r.1 (ContentProject.execution_status r.2.1).
Proof.
  intros Hmsg st Hst. unfold PipelineExecutor.failed, bind, ret.
  pose proof (update_stage_status_other E stage "failed" (Some msg) st) as Hother.
  pose proof (update_stage_status_present E stage "failed" (Some msg) st) as Hpres.
  pose proof (update_stage_status_status E stage "failed" (Some msg) st) as Hstatus.
  pose proof (update_stage_status_error E stage "failed" (Some msg) st) as Herror.
  destruct (ContentProject.update_stage_status E stage "failed" (Some msg) st) as [b st'].
  simpl in *. unfold outcome. simpl. split; [done|].
  destruct Hst as [Hst1 Hst2]. unfold failed_with, only_stage. split_and!.
  - intros s Hs. rewrite Hother by done. by apply Hst1.
  - by rewrite Hpres.
  - intros Hin. rewrite Hstatus, Herror. apply Hst2 in Hin as [entry ->]. simpl.
    by rewrite bool_decide_eq_false_2.
Qed.

(** What [execute_stage] does to [execution_status], whatever the executors
    do: it raises only on the short-circuit path (when listing the stage's
    directory fails) and then, as whenever the stage was already completed
    and is not forced, nothing but [project_path] has changed. Otherwise it
    returns a result that agrees with the status it leaves. *)
Lemma execute_stage_spec E self stage force st :
  match PipelineExecutor.execute_stage E self stage force st with
  | (Ok r, st') =>
      outcome stage (ContentProject.execution_status st.1) r
              (ContentProject.execution_status st'.1)
  | (Raise _, st') =>
      ContentProject.execution_status st'.1 = ContentProject.execution_status st.1
      ∧ status_of st.1 stage = Some (Some "completed") ∧ force = false
  end.
Proof.
  unfold PipelineExecutor.execute_stage, bindE at 1, lift at 1, get. simpl.
  set (es0 := ContentProject.execution_status st.1).
  destruct (bool_decide (default ∅ (es0 !! stage) !! "status" = Some (Some "completed"))
            && negb force) eqn:Hshort.
  - apply andb_true_iff in Hshort as [Hst Hforce].
    apply bool_decide_eq_true in Hst. apply negb_true_iff in Hforce.
    assert (status_of st.1 stage = Some (Some "completed")) as Hstatus.
    { unfold status_of. fold es0. destruct (es0 !! stage); simpl in *; [done|].
      by rewrite lookup_empty in Hst. }
    unfold bindE. pose proof (frame_get_stage_files stage st) as Hframe.
    destruct (ContentProject.get_stage_files stage st) as [[files|e] st']; simpl in *.
    + unfold outcome. simpl. fold es0 in Hframe. rewrite Hframe.
      unfold completed, entered, only_stage. split_and!; try done.
      all: intros _; unfold status_of in Hstatus; by fold es0 in Hstatus.
    + done.
  - clear Hshort. unfold bindE at 1, lift at 1.
    pose proof (update_stage_status_other E stage "running" None st) as Hother.
    pose proof (update_stage_status_present E stage "running" None st) as Hpres.
    pose proof (update_stage_status_error E stage "running" None st) as Hfield.
    destruct (ContentProject.update_stage_status E stage "running" None st) as [b st1].
    simpl in *.
    assert (entered stage es0 (ContentProject.execution_status st1.1)) as Hentered.
    { unfold entered, only_stage. split_and!; try done.
      all: rewrite Hfield; unfold field; fold es0; by destruct (es0 !! stage). }
    unfold bindE, lift at 1, on_world, PipelineExecutor._notify_progress. simpl.
    unfold lift, try_except.
    match goal with |- context [PipelineExecutor.run_stage_body E self stage ?s] =>
      set (st2 := s) end.
    pose proof (run_stage_body_triple E self stage es0 st2 Hentered) as Hbody.
    destruct (PipelineExecutor.run_stage_body E self stage st2) as [[r|e] st3].
    + done.
    + destruct (PipelineExecutor.is_timeout e).
      * pose proof (failed_triple E stage es0 "Script execution timed out" ltac:(done)
                      st3 Hbody) as H.
        by destruct (PipelineExecutor.failed E stage "Script execution timed out" st3).
      * pose proof (failed_triple E stage es0 ("Error executing stage: " ++ str_of e)
                      ltac:(done) st3 Hbody) as H.
        by destruct (PipelineExecutor.failed E stage ("Error executing stage: " ++ str_of e) st3).
Qed.

(** * The claims about single operations *)

Lemma dep_status_completed p d :
  PipelineExecutor.dep_status_of p d = Some "completed"
  ↔ status_of p d = Some (Some "completed").
Proof.
  unfold PipelineExecutor.dep_status_of, status_of.
  destruct (ContentProject.execution_status p !! d) as [entry|]; simpl.
  - destruct (entry !! "status") as [[s|]|]; simpl; split; congruence.
  - rewrite lookup_empty. simpl. split; congruence.
Qed.

Lemma check_dependencies_spec p deps :
  let r := PipelineExecutor.check_dependencies p deps in
  (r.1 = true ↔ Forall (λ d, status_of p d = Some (Some "completed")) deps)
  ∧ (r.1 = false →
     ∃ pre d post,
       deps = pre ++ d :: post
       ∧ Forall (λ d, status_of p d = Some (Some "completed")) pre
       ∧ status_of p d ≠ Some (Some "completed")
       ∧ r.2 = ("Dependency " ++ d ++ " not completed (status: "
                  ++ PipelineExecutor.format_status (PipelineExecutor.dep_status_of p d)
                  ++ ")")%string).
Proof.
  induction deps as [|d deps [IH1 IH2]]; simpl.
  - split; [done|]. intros; discriminate.
  - case_decide as Hd; simpl.
    + rewrite dep_status_completed in Hd. split.
      * split; [done|]. intros H. by apply Forall_cons in H as [? _].
      * intros _. exists [], d, deps. done.
    + rewrite dep_status_completed in Hd. split.
      * rewrite IH1. split; [by constructor|]. intros H. by apply Forall_cons in H as [_ ?].
      * intros Hr. destruct (IH2 Hr) as (pre & d' & post & -> & Hpre & Hd' & Hmsg).
        exists (d :: pre), d', post. split_and!; try done. by constructor.
Qed.

(** C2. [can_execute_stage] answers true exactly when every dependency of
    the stage in the table has status "completed"; when it answers false the
    reason names the first dependency, in the table's order, that has not;
    and the table gives youtube_scripts the three dependencies
    keyword_research, content_briefs and article_writing, without
    social_media. *)
Theorem can_execute_stage_iff_dependencies_completed p stage :
  let deps := default [] (PipelineExecutor.stage_dependencies !! stage) in
  let r := PipelineExecutor.can_execute_stage p stage in
  (r.1 = true ↔ Forall (λ d, status_of p d = Some (Some "completed")) deps)
  ∧ (r.1 = false →
     ∃ pre d post,
       deps = pre ++ d :: post
       ∧ Forall (λ d, status_of p d = Some (Some "completed")) pre
       ∧ status_of p d ≠ Some (Some "completed")
       ∧ r.2 = ("Dependency " ++ d ++ " not completed (status: "
                  ++ PipelineExecutor.format_status (PipelineExecutor.dep_status_of p d)
                  ++ ")")%string)
  ∧ PipelineExecutor.stage_dependencies !! "keyword_research" = Some []
  ∧ PipelineExecutor.stage_dependencies !! "content_briefs" = Some ["keyword_research"]
  ∧ PipelineExecutor.stage_dependencies !! "article_writing"
    = Some ["keyword_research"; "content_briefs"]
  ∧ PipelineExecutor.stage_dependencies !! "social_media"
    = Some ["keyword_research"; "content_briefs"; "article_writing"]
  ∧ PipelineExecutor.stage_dependencies !! "youtube_scripts"
    = Some ["keyword_research"; "content_briefs"; "article_writing"].
Proof.
  intros deps r.
  destruct (check_dependencies_spec p deps) as [H1 H2].
  split_and!; try done; by vm_compute.
Qed.

Example can_execute_stage_fresh :
  PipelineExecutor.can_execute_stage Demo.fresh.1 "youtube_scripts"
  = (false, "Dependency keyword_research not completed (status: pending)")
  ∧ PipelineExecutor.can_execute_stage Demo.fresh.1 "keyword_research"
    = (true, "Dependencies satisfied")
  ∧ PipelineExecutor.can_execute_stage Demo.researched.1 "content_briefs"
    = (true, "Dependencies satisfied").
Proof. split_and!; by vm_compute. Qed.

(** The manifest keys a new project has. *)
Lemma init_output_files E name description pid w :
  ContentProject.output_files (ContentProject.__init__ E name description pid w).1
  = list_to_map [("keyword_research", []); ("content_briefs", []); ("articles", []);
                 ("social_media", []); ("youtube", [])].
Proof.
  unfold ContentProject.__init__, bind, ret.
  destruct pid as [i|]; [destruct (decide (i = ""))|]; done.
Qed.

(** Under a key the manifest has, [add_output_file] appends a path that is
    not listed yet, keeps the list when it is, and returns [True]. *)
Lemma add_output_file_known_key E stage file_path p w files :
  ContentProject.output_files p !! stage = Some files →
  let r := ContentProject.add_output_file E stage file_path (p, w) in
  r.1 = true
  ∧ ContentProject.output_files r.2.1 !! stage
    = Some (if bool_decide (file_path ∈ files) then files else files ++ [file_path]).
Proof.
  intros Hfiles. unfold ContentProject.add_output_file, bind, get. simpl.
  rewrite Hfiles. destruct (bool_decide (file_path ∈ files)); simpl; [done|].
  unfold ContentProject.save_config, try_except, bindE, lift, on_self, on_worldE, get, ok.
  simpl. unfold ContentProject.get_project_path. simpl.
  destruct (ContentProject.project_path p); simpl;
    match goal with |- context [FS.write ?f ?c ?w'] => destruct (FS.write f c w') as [[?|?] ?] end;
    simpl; by rewrite lookup_insert_eq.
Qed.

(** C6. On a new project [add_output_file] returns [False] and records
    nothing for the stages article_writing and youtube_scripts: the
    manifest of [__init__] has the keys "articles" and "youtube" instead of
    these two stage names. *)
Theorem add_output_file_unknown_stage_names E name description pid w0 file_path w :
  let p := (ContentProject.__init__ E name description pid w0).1 in
  ContentProject.add_output_file E "article_writing" file_path (p, w) = (false, (p, w))
  ∧ ContentProject.add_output_file E "youtube_scripts" file_path (p, w) = (false, (p, w))
  ∧ manifest p "article_writing" = [] ∧ manifest p "youtube_scripts" = [].
Proof.
  intros p. unfold ContentProject.add_output_file, bind, get, manifest. simpl.
  unfold p. rewrite init_output_files. done.
Qed.

Example add_output_file_fresh :
  (ContentProject.add_output_file Demo.E "article_writing" "article_draft.md" Demo.fresh).1
  = false
  ∧ (ContentProject.add_output_file Demo.E "social_media" "social_posts.md" Demo.fresh).1
    = true
  ∧ manifest (ContentProject.add_output_file Demo.E "social_media" "social_posts.md"
                Demo.fresh).2.1 "social_media" = ["social_posts.md"].
Proof. split_and!; by vm_compute. Qed.

Lemma error_of_field p stage :
  error_of p stage = field (ContentProject.execution_status p) stage "error".
Proof. done. Qed.

Lemma status_of_field p stage :
  status_of p stage = field (ContentProject.execution_status p) stage "status".
Proof. done. Qed.

Lemma update_stage_status_keeps_error E stage status error st s :
  ContentProject.truthy error = false →
  error_of (ContentProject.update_stage_status E stage status error st).2.1 s
  = error_of st.1 s.
Proof.
  intros Herr. destruct (decide (s = stage)) as [->|Hs].
  - rewrite !error_of_field, update_stage_status_error, Herr. unfold field.
    by destruct (ContentProject.execution_status st.1 !! stage).
  - unfold error_of. by rewrite update_stage_status_other.
Qed.

(** C10. [update_stage_status] never clears an error: called without an
    error (or with an empty one) it leaves the recorded error of every stage
    as it was, whatever the new status; so a stage that carries an error and
    is forced through [execute_stage] to success ends "completed" with the
    old error still recorded. *)
Theorem update_stage_status_never_clears_error :
  (∀ E stage status error st s,
     ContentProject.truthy error = false →
     error_of (ContentProject.update_stage_status E stage status error st).2.1 s
     = error_of st.1 s)
  ∧ (∀ E self stage e st r st',
       error_of st.1 stage = Some (Some e) →
       PipelineExecutor.execute_stage E self stage true st = (Ok r, st') →
       PipelineExecutor.success r = true →
       status_of st'.1 stage = Some (Some "completed")
       ∧ error_of st'.1 stage = Some (Some e)).
Proof.
  split; [apply update_stage_status_keeps_error|].
  intros E self stage e st r st' He Hrun Hok.
  pose proof (execute_stage_spec E self stage true st) as H.
  rewrite Hrun in H. unfold outcome in H. rewrite Hok in H.
  destruct H as [[_ Herr] Hstatus]. split.
  - apply Hstatus. unfold error_of in He.
    by destruct (ContentProject.execution_status st.1 !! stage).
  - by rewrite error_of_field, Herr, <- error_of_field.
Qed.

Lemma update_stage_status_never_clears_error_witness :
  error_of Demo.failed_once.1 "keyword_research"
  = Some (Some "Error executing stage: Keyword research execution failed")
  ∧ status_of (PipelineExecutor.execute_stage Demo.E Demo.executor "keyword_research" true
                 Demo.failed_once).2.1 "keyword_research" = Some (Some "completed")
  ∧ error_of (PipelineExecutor.execute_stage Demo.E Demo.executor "keyword_research" true
                Demo.failed_once).2.1 "keyword_research"
    = Some (Some "Error executing stage: Keyword research execution failed").
Proof.
  split; [vm_compute; reflexivity|].
  destruct update_stage_status_never_clears_error as [_ H].
  apply (H Demo.E Demo.executor "keyword_research" _ Demo.failed_once
           {| PipelineExecutor.success := true;
              PipelineExecutor.message := "Stage keyword_research completed successfully";
              PipelineExecutor.outputs :=
                Some ["stage_01_keyword_research/keyword_clusters.csv";
                      "stage_01_keyword_research/cluster_summary.csv"];
              PipelineExecutor.stdout := None; PipelineExecutor.stderr := None |}).
  - vm_compute. reflexivity.
  - vm_compute. reflexivity.
  - reflexivity.
Defined.

(** What [get_stage_files] touches: the world not at all, the project at
    most in [project_path], which it fills in when it was not set. *)
Lemma get_stage_files_effect stage p w :
  let r := ContentProject.get_stage_files stage (p, w) in
  r.2.2 = w ∧ (r.2.1 = p ∨ r.2.1 = (ContentProject.get_project_path "projects" p).2).
Proof.
  unfold ContentProject.get_stage_files.
  destruct (ContentProject.stage_map !! stage) as [d|]; [|by split; [|left]].
  unfold bindE, lift, on_self, get, on_worldE, ok. simpl.
  destruct (ContentProject.get_project_path "projects" p) as [path p'] eqn:Hpath. simpl.
  destruct (FS.exists_ w (Path.join path d)); simpl; [|by split; [|right]].
  unfold FS.iterdir. destruct (FS.node_at w (Path.join path d)) as [[|c]|]; simpl;
    by split; [|right].
Qed.

(** ... and when it returns rather than raises. *)
Lemma get_stage_files_returns stage p w :
  (∀ d, stage_dir_of p stage = Some d → FS.is_file w d = false) →
  ∃ files, (ContentProject.get_stage_files stage (p, w)).1 = Ok files.
Proof.
  unfold stage_dir_of, ContentProject.get_stage_files. intros Hdir.
  destruct (ContentProject.stage_map !! stage) as [d|]; [|by eexists].
  unfold bindE, lift, on_self, get, on_worldE, ok. simpl.
  destruct (ContentProject.get_project_path "projects" p) as [path p'] eqn:Hpath.
  simpl in *. specialize (Hdir _ eq_refl).
  destruct (FS.exists_ w (Path.join path d)) eqn:Hex; simpl; [|by eexists].
  unfold FS.iterdir. unfold FS.is_file in Hdir. unfold FS.exists_ in Hex.
  destruct (FS.node_at w (Path.join path d)) as [[|c]|]; simpl;
    first [ done | apply bool_decide_eq_true in Hex; by destruct Hex | by eexists ].
Qed.

(** C1. When the stage is already "completed" and the run is not forced,
    [execute_stage] starts no executor and changes nothing in the world, in
    [execution_status] (so [completed_at] stays) or in the manifest. But the
    outputs of the success it returns are not the manifest [output_files]:
    for a stage [get_stage_files] has a directory for, they are the files
    found in that directory at that moment, with the directory's path in
    front (and the call raises if that path is a regular file); for the
    other stages, article_writing and youtube_scripts among them, whose
    directories [get_stage_files] knows under the names articles and
    youtube, they are the empty list, whatever the directory and the
    manifest hold. *)
Theorem execute_stage_completed_short_circuit E self stage p w :
  status_of p stage = Some (Some "completed") →
  let run := PipelineExecutor.execute_stage E self stage false (p, w) in
  let result files :=
    Ok {| PipelineExecutor.success := true;
          PipelineExecutor.message := "Stage " ++ stage ++ " already completed";
          PipelineExecutor.outputs := Some files;
          PipelineExecutor.stdout := None; PipelineExecutor.stderr := None |} in
  run.2.2 = w
  ∧ ContentProject.execution_status run.2.1 = ContentProject.execution_status p
  ∧ completed_at_of run.2.1 stage = completed_at_of p stage
  ∧ ContentProject.output_files run.2.1 = ContentProject.output_files p
  ∧ match stage_dir_of p stage with
    | Some d =>
        run.2.1 = (ContentProject.get_project_path "projects" p).2
        ∧ run.1 = match FS.node_at w d with
                  | Some Dir =>
                      result (filter (λ f, FS.is_file w f = true)
                                (map (Path.join d) (FS.names_in w (FS.resolve w d))))
                  | Some (File _) => Raise (FS.ENOTDIR d)
                  | None => result []
                  end
    | None => run.2.1 = p ∧ run.1 = result []
    end
  ∧ stage_dir_of p "keyword_research"
    = Some (Path.join (ContentProject.get_project_path "projects" p).1
              "stage_01_keyword_research")
  ∧ stage_dir_of p "article_writing" = None
  ∧ stage_dir_of p "youtube_scripts" = None.
Proof.
  intros Hstatus run result.
  assert (run = (let? files := ContentProject.get_stage_files stage in
                 ok {| PipelineExecutor.success := true;
                       PipelineExecutor.message := "Stage " ++ stage ++ " already completed";
                       PipelineExecutor.outputs := Some files;
                       PipelineExecutor.stdout := None;
                       PipelineExecutor.stderr := None |}) (p, w)) as Hrun.
  { unfold run, PipelineExecutor.execute_stage, bindE at 1, lift at 1, get. simpl.
    unfold status_of in Hstatus.
    destruct (ContentProject.execution_status p !! stage) as [entry|]; [|done].
    simpl in *. rewrite Hstatus. by rewrite bool_decide_eq_true_2. }
  assert (match stage_dir_of p stage with
          | Some d =>
              run.2 = ((ContentProject.get_project_path "projects" p).2, w)
              ∧ run.1 = match FS.node_at w d with
                        | Some Dir =>
                            result (filter (λ f, FS.is_file w f = true)
                                      (map (Path.join d) (FS.names_in w (FS.resolve w d))))
                        | Some (File _) => Raise (FS.ENOTDIR d)
                        | None => result []
                        end
          | None => run.2 = (p, w) ∧ run.1 = result []
          end) as Hcase.
  { rewrite Hrun. unfold stage_dir_of, ContentProject.get_stage_files.
    destruct (ContentProject.stage_map !! stage) as [sd|]; simpl; [|done].
    unfold bindE, lift, on_self, get, on_worldE, ok. simpl.
    destruct (ContentProject.get_project_path "projects" p) as [path p'] eqn:Hpath. simpl.
    unfold FS.exists_, FS.iterdir.
    destruct (FS.node_at w (Path.join path sd)) as [[|c]|] eqn:Hnode; simpl;
      by rewrite ?Hnode. }
  assert (run.2.2 = w ∧ (run.2.1 = p ∨ run.2.1 = (ContentProject.get_project_path "projects" p).2))
    as [Hw Hp].
  { destruct (stage_dir_of p stage); destruct Hcase as [-> _]; simpl; auto. }
  split_and!; try done.
  - destruct Hp as [->| ->]; [done|]. apply get_project_path_status.
  - unfold completed_at_of.
    destruct Hp as [->| ->]; [done|]. by rewrite get_project_path_status.
  - destruct Hp as [->| ->]; [done|]. unfold ContentProject.get_project_path.
    by destruct (ContentProject.project_path p).
  - destruct (stage_dir_of p stage); destruct Hcase as [Hst Hres]; by rewrite Hst.
Qed.

Lemma execute_stage_completed_short_circuit_witness :
  let run := PipelineExecutor.execute_stage Demo.E Demo.executor "keyword_research" false
               (Demo.researched.1, Demo.researched.2) in
  run.2.2 = Demo.researched.2
  ∧ completed_at_of run.2.1 "keyword_research"
    = completed_at_of Demo.researched.1 "keyword_research"
  ∧ ContentProject.output_files run.2.1 = ContentProject.output_files Demo.researched.1.
Proof.
  intros run.
  pose proof (execute_stage_completed_short_circuit Demo.E Demo.executor "keyword_research"
                Demo.researched.1 Demo.researched.2 ltac:(vm_compute; reflexivity)) as H.
  cbv zeta in H. fold run in H. destruct H as (Hw & _ & Hc & Ho & _).
  split_and!; [exact Hw | exact Hc | exact Ho].
Defined.

(** The claim as stated fails twice. After a keyword research the manifest
    lists the two CSV files relative to the project, as the run that made
    them returned them, but the short-circuit returns the paths found in the
    stage directory. And for a completed article_writing stage with a draft
    in stage_03_articles the short-circuit returns no outputs at all. *)
Example short_circuit_outputs_demo :
  status_of Demo.researched.1 "keyword_research" = Some (Some "completed")
  ∧ PipelineExecutor.outputs
      (Demo.the_result
         (PipelineExecutor.execute_stage Demo.E Demo.executor "keyword_research" false
            Demo.fresh).1)
    = Some (manifest Demo.researched.1 "keyword_research")
  ∧ manifest Demo.researched.1 "keyword_research"
    = ["stage_01_keyword_research/keyword_clusters.csv";
       "stage_01_keyword_research/cluster_summary.csv"]
  ∧ PipelineExecutor.outputs
      (Demo.the_result
         (PipelineExecutor.execute_stage Demo.E Demo.executor "keyword_research" false
            Demo.researched).1)
    = Some ["projects/project-12345678-demo/stage_01_keyword_research/keyword_clusters.csv";
            "projects/project-12345678-demo/stage_01_keyword_research/cluster_summary.csv"]
  ∧ status_of drafted.1 "article_writing" = Some (Some "completed")
  ∧ FS.is_file drafted.2 "projects/project-12345678-demo/stage_03_articles/article_draft.md"
    = true
  ∧ (PipelineExecutor.execute_stage Demo.E Demo.executor "article_writing" false drafted).1
    = Ok {| PipelineExecutor.success := true;
            PipelineExecutor.message := "Stage article_writing already completed";
            PipelineExecutor.outputs := Some [];
            PipelineExecutor.stdout := None; PipelineExecutor.stderr := None |}.
Proof. split_and!; vm_compute; reflexivity. Qed.

Example cleanup_completed_stale :
  ProgressTracker.to_remove (Demo.now - ProgressTracker.timedelta_hours 24)
    <$> latest Demo.stale "p1" "keyword_research" = Some true
  ∧ ProgressTracker.cleanup_completed Demo.now 24 Demo.stale
    = Raise (Exn AttributeError "module 'time' has no attribute 'timedelta'")
  ∧ ProgressTracker.cleanup_sweep (Demo.now - ProgressTracker.timedelta_hours 24)
      (ProgressTracker._progress_data Demo.stale) = ∅.
Proof. split_and!; vm_compute; reflexivity. Qed.

(** * The project store *)

Lemma scan_no_match E project_id dirs st :
  Forall (λ d, Str.contains project_id (Path.name d) = false) dirs →
  ProjectManager.scan E project_id dirs st = (None, st).
Proof.
  induction 1 as [|d dirs Hd _ IH]; simpl; [done|].
  unfold bind, get. simpl. rewrite Hd, andb_false_r. apply IH.
Qed.

(** A cached project that passes the existence check is returned as it is. *)
Lemma load_project_cached E project_id m w p :
  ProjectManager._project_cache m !! project_id = Some p →
  ProjectManager._project_exists_on_filesystem m p w = true →
  ProjectManager.load_project E project_id (m, w) = (Some p, (m, w)).
Proof.
  intros Hcache Hexists. unfold ProjectManager.load_project, bind, get. simpl.
  by rewrite Hcache, Hexists.
Qed.

(** Without a cache entry, a directory whose folders do not carry the whole
    id in their names yields not-found. *)
Lemma load_project_no_folder_with_id E project_id m w dirs :
  ProjectManager._project_cache m !! project_id = None →
  FS.iterdir (ProjectManager.projects_base_dir m) w = (Ok dirs, w) →
  Forall (λ d, Str.contains project_id (Path.name d) = false) dirs →
  ProjectManager.load_project E project_id (m, w) = (None, (m, w)).
Proof.
  intros Hcache Hdirs Hnone. unfold ProjectManager.load_project, bind, get. simpl.
  rewrite Hcache. unfold try_except, bindE, lift, get, on_worldE. simpl.
  rewrite Hdirs. simpl. by rewrite scan_no_match.
Qed.

(** C8. A manager constructed anew does not find the project "Demo",
    although its folder [project-12345678-demo] and a valid snapshot are on
    disk: the scan keeps only the folders whose name contains the whole
    36-character id, and the folder name carries its first eight. *)
Theorem load_project_from_new_manager_not_found :
  let st := Demo.restarted (Demo.create "Demo").2 in
  FS.is_dir st.2 "projects/project-12345678-demo" = true
  ∧ (λ p, (ContentProject.project_id p, ProjectManager._validate_project p))
      <$> (ContentProject.load_from_config Demo.E "projects/project-12345678-demo" st.2).1
    = Some (Demo.project_id, true)
  ∧ ProjectManager._project_cache st.1 !! Demo.project_id = None
  ∧ Str.contains Demo.project_id "project-12345678-demo" = false
  ∧ (ProjectManager.load_project Demo.E Demo.project_id st).1 = None.
Proof. split_and!; vm_compute; reflexivity. Qed.

(** C9. Loading by the id of the project that [create_project] has just
    returned yields not-found when the name contains an underscore: the
    folder is named with the slug [my-project], the cache check expects
    [my_project], evicts the cached project, and the scan then misses the
    folder as in C8. *)
Theorem load_after_create_not_found_for_underscore_name :
  let p := Demo.created "my_project" in
  let st := (Demo.create "my_project").2 in
  (Demo.create "my_project").1 = Ok p
  ∧ ContentProject.name p = "my_project"
  ∧ ProjectManager._project_cache st.1 !! ContentProject.project_id p = Some p
  ∧ FS.is_dir st.2 "projects/project-12345678-my-project" = true
  ∧ ProjectManager._project_exists_on_filesystem st.1 p st.2 = false
  ∧ (ProjectManager.load_project Demo.E (ContentProject.project_id p) st).1 = None.
Proof. split_and!; vm_compute; reflexivity. Qed.

(** With a name that has no underscore the same two calls give back the
    created project. *)
Example load_after_create_demo :
  (Demo.create "Demo").1 = Ok (Demo.created "Demo")
  ∧ (ProjectManager.load_project Demo.E (ContentProject.project_id (Demo.created "Demo"))
       (Demo.create "Demo").2).1 = Some (Demo.created "Demo").
Proof. split; vm_compute; reflexivity. Qed.

(** * The pipeline *)

Lemma pipeline_loop_cons E self force i stage rest results st :
  PipelineExecutor.pipeline_loop E self force i (stage :: rest) results st
  = match PipelineExecutor.execute_stage E self stage force (announced self i stage st) with
    | (Ok result, st') =>
        if negb (PipelineExecutor.success result)
        then (Ok (false, <[stage := result]> results), st')
        else PipelineExecutor.pipeline_loop E self force (S i) rest
               (<[stage := result]> results) st'
    | (Raise e, st') => (Raise e, st')
    end.
Proof.
  simpl. unfold bindE at 1, lift at 1, get. simpl.
  unfold bindE at 1, lift at 1, on_world at 1. simpl.
  unfold bindE at 1. unfold announced, on_world, PipelineExecutor._notify_progress. simpl.
  destruct (PipelineExecutor.execute_stage E self stage force _) as [[result|e] st']; [|done].
  by destruct (negb (PipelineExecutor.success result)).
Qed.

Lemma announced_project self i stage st : (announced self i stage st).1 = st.1.
Proof. done. Qed.

(** C3. When the runs of the first two stages succeed and the run of the
    third fails, [execute_full_pipeline] started from the first stage stops
    there: it returns failure with the results of these three stages and
    none for the fourth and fifth; the first two stages are "completed", the
    third is "failed" with the message of its result recorded as its error;
    the entries of the fourth and fifth stage are as they were (pending if
    they were pending), and the run ends in the state the third stage left,
    but for the closing progress notification: nothing was executed for
    them. *)
Theorem execute_full_pipeline_fail_fast E self force st0 r1 st1 r2 st2 r3 st3 :
  (∀ s, s ∈ PipelineExecutor.stages → is_Some (ContentProject.execution_status st0.1 !! s)) →
  PipelineExecutor.execute_stage E self "keyword_research" force
    (announced self 0 "keyword_research" st0) = (Ok r1, st1) →
  PipelineExecutor.success r1 = true →
  PipelineExecutor.execute_stage E self "content_briefs" force
    (announced self 1 "content_briefs" st1) = (Ok r2, st2) →
  PipelineExecutor.success r2 = true →
  PipelineExecutor.execute_stage E self "article_writing" force
    (announced self 2 "article_writing" st2) = (Ok r3, st3) →
  PipelineExecutor.success r3 = false →
  let run := PipelineExecutor.execute_full_pipeline E self None force st0 in
  run = (Ok {| PipelineExecutor.pipeline_success := false;
               PipelineExecutor.results :=
                 <["article_writing" := r3]>
                   (<["content_briefs" := r2]> (<["keyword_research" := r1]> ∅));
               PipelineExecutor.pipeline_project_id := ContentProject.project_id st3.1 |},
         pipeline_failed self st3)
  ∧ (<["article_writing" := r3]>
       (<["content_briefs" := r2]> (<["keyword_research" := r1]> ∅)) : gmap string _)
      !! "social_media" = None
  ∧ (<["article_writing" := r3]>
       (<["content_briefs" := r2]> (<["keyword_research" := r1]> ∅)) : gmap string _)
      !! "youtube_scripts" = None
  ∧ status_of run.2.1 "keyword_research" = Some (Some "completed")
  ∧ status_of run.2.1 "content_briefs" = Some (Some "completed")
  ∧ status_of run.2.1 "article_writing" = Some (Some "failed")
  ∧ error_of run.2.1 "article_writing" = Some (Some (PipelineExecutor.message r3))
  ∧ PipelineExecutor.message r3 ≠ ""
  ∧ ContentProject.execution_status run.2.1 !! "social_media"
    = ContentProject.execution_status st0.1 !! "social_media"
  ∧ ContentProject.execution_status run.2.1 !! "youtube_scripts"
    = ContentProject.execution_status st0.1 !! "youtube_scripts"
  ∧ (status_of st0.1 "social_media" = Some (Some "pending") →
     status_of run.2.1 "social_media" = Some (Some "pending"))
  ∧ (status_of st0.1 "youtube_scripts" = Some (Some "pending") →
     status_of run.2.1 "youtube_scripts" = Some (Some "pending"))
  ∧ run.2.1 = st3.1
  ∧ fs run.2.2 = fs st3.2
  ∧ processes run.2.2 = processes st3.2.
Proof.
  intros Hkeys H1 Hok1 H2 Hok2 H3 Hok3 run.
  assert (run = (Ok {| PipelineExecutor.pipeline_success := false;
                       PipelineExecutor.results :=
                         <["article_writing" := r3]>
                           (<["content_briefs" := r2]> (<["keyword_research" := r1]> ∅));
                       PipelineExecutor.pipeline_project_id :=
                         ContentProject.project_id st3.1 |},
                 pipeline_failed self st3)) as Hrun.
  { unfold run, PipelineExecutor.execute_full_pipeline. unfold bindE at 1.
    replace (drop 0 PipelineExecutor.stages) with PipelineExecutor.stages by done.
    unfold PipelineExecutor.stages.
    rewrite pipeline_loop_cons, H1, Hok1. simpl negb. cbv iota.
    rewrite pipeline_loop_cons, H2, Hok2. simpl negb. cbv iota.
    rewrite pipeline_loop_cons, H3, Hok3. simpl negb. cbv iota.
    unfold ok, bindE, lift, get, pipeline_failed, on_world,
      PipelineExecutor._notify_progress. simpl. done. }
  pose proof (execute_stage_spec E self "keyword_research" force
                (announced self 0 "keyword_research" st0)) as S1.
  pose proof (execute_stage_spec E self "content_briefs" force
                (announced self 1 "content_briefs" st1)) as S2.
  pose proof (execute_stage_spec E self "article_writing" force
                (announced self 2 "article_writing" st2)) as S3.
  rewrite H1 in S1. rewrite H2 in S2. rewrite H3 in S3.
  unfold outcome in S1, S2, S3. rewrite Hok1 in S1. rewrite Hok2 in S2. rewrite Hok3 in S3.
  rewrite announced_project in S1, S2, S3.
  destruct S1 as [[[O1 P1] _] C1]. destruct S2 as [[[O2 P2] _] C2].
  destruct S3 as [Hmsg [[O3 P3] F3]].
  assert (is_Some (ContentProject.execution_status st0.1 !! "keyword_research")) as K1
    by (apply Hkeys; unfold PipelineExecutor.stages; repeat constructor).
  assert (is_Some (ContentProject.execution_status st0.1 !! "content_briefs")) as K2
    by (apply Hkeys; unfold PipelineExecutor.stages; repeat constructor).
  assert (is_Some (ContentProject.execution_status st0.1 !! "article_writing")) as K3
    by (apply Hkeys; unfold PipelineExecutor.stages; repeat constructor).
  assert (is_Some (ContentProject.execution_status st1.1 !! "content_briefs")) as K2'
    by (by rewrite O1).
  assert (is_Some (ContentProject.execution_status st2.1 !! "article_writing")) as K3'
    by (by rewrite O2, O1).
  specialize (C1 K1). specialize (C2 K2'). destruct (F3 K3') as [F3s F3e].
  assert (ContentProject.execution_status st3.1 !! "social_media"
          = ContentProject.execution_status st0.1 !! "social_media") as Hsm
    by (by rewrite O3, O2, O1).
  assert (ContentProject.execution_status st3.1 !! "youtube_scripts"
          = ContentProject.execution_status st0.1 !! "youtube_scripts") as Hyt
    by (by rewrite O3, O2, O1).
  rewrite Hrun. simpl. split_and!; try done.
  - unfold status_of. rewrite O3, O2 by done. exact C1.
  - unfold status_of. rewrite O3 by done. exact C2.
  - unfold status_of. by rewrite Hsm.
  - unfold status_of. by rewrite Hyt.
Qed.

Lemma execute_full_pipeline_fail_fast_witness :
  let run := PipelineExecutor.execute_full_pipeline Demo.E Demo.executor None false
               Demo.fresh in
  PipelineExecutor.message (Demo.the_result Demo.run3.1) = "Script execution failed: boom"
  ∧ status_of run.2.1 "keyword_research" = Some (Some "completed")
  ∧ status_of run.2.1 "content_briefs" = Some (Some "completed")
  ∧ status_of run.2.1 "article_writing" = Some (Some "failed")
  ∧ error_of run.2.1 "article_writing"
    = Some (Some (PipelineExecutor.message (Demo.the_result Demo.run3.1)))
  ∧ status_of run.2.1 "social_media" = Some (Some "pending")
  ∧ status_of run.2.1 "youtube_scripts" = Some (Some "pending")
  ∧ processes run.2.2 = processes Demo.run3.2.2.
Proof.
  intros run. split; [vm_compute; reflexivity|].
  assert (∀ s, s ∈ PipelineExecutor.stages →
               is_Some (ContentProject.execution_status Demo.fresh.1 !! s)) as Hkeys.
  { intros s Hs. unfold PipelineExecutor.stages in Hs.
    repeat (apply elem_of_cons in Hs as [->|Hs]); [..|by apply elem_of_nil in Hs];
      vm_compute; eexists; reflexivity. }
  pose proof (execute_full_pipeline_fail_fast Demo.E Demo.executor false Demo.fresh
                (Demo.the_result Demo.run1.1) Demo.run1.2
                (Demo.the_result Demo.run2.1) Demo.run2.2
                (Demo.the_result Demo.run3.1) Demo.run3.2
                Hkeys
                ltac:(vm_compute; reflexivity) ltac:(vm_compute; reflexivity)
                ltac:(vm_compute; reflexivity) ltac:(vm_compute; reflexivity)
                ltac:(vm_compute; reflexivity) ltac:(vm_compute; reflexivity)) as H.
  cbv zeta in H. fold run in H.
  destruct H as (_ & _ & _ & Hkw & Hcb & Haw & Herr & _ & _ & _ & Hsm & Hyt & _ & _ & Hproc).
  split_and!;
    [ exact Hkw | exact Hcb | exact Haw | exact Herr
    | apply Hsm; vm_compute; reflexivity
    | apply Hyt; vm_compute; reflexivity
    | exact Hproc ].
Defined.


(** * Running content_briefs before keyword research *)

Lemma append_assoc (a b c : string) : ((a ++ b) ++ c = a ++ (b ++ c))%string.
Proof.
  induction a as [|x a IH]; [done|].
  change (String x ((a ++ b) ++ c) = String x (a ++ (b ++ c)))%string. by rewrite IH.
Qed.

Lemma resolve_prefix w d :
  ∃ pre, ∀ y, Str.startswith "/" y = true → FS.resolve w (d ++ y) = (pre ++ (d ++ y))%string.
Proof.
  unfold FS.resolve, Path.is_absolute, Path.join.
  destruct d as [|c d].
  - exists "". intros y Hy. change ("" ++ y)%string with y. by rewrite Hy.
  - destruct (decide (c = "/"%char)) as [->|Hc].
    + exists "". intros y _.
      by change (String "/" d ++ y)%string with (String "/" (d ++ y)%string).
    + exists (cwd w ++ "/")%string. intros y _.
      change (String c d ++ y)%string with (String c (d ++ y)%string).
      simpl. rewrite bool_decide_eq_false_2 by congruence. simpl.
      by rewrite append_assoc.
Qed.


Lemma save_config_files p w :
  let st' := (ContentProject.save_config (p, w)).2 in
  cwd st'.2 = cwd w
  ∧ (∀ q, FS.resolve w q
          ≠ FS.resolve w (Path.join (ContentProject.get_project_path "projects" p).1
                                    "config.json") →
          FS.node_at st'.2 q = FS.node_at w q)
  ∧ ContentProject.project_path st'.1
    = Some (ContentProject.get_project_path "projects" p).1.
Proof.
  unfold ContentProject.save_config, try_except, bindE, lift, on_self, on_worldE, get, ok, ret.
  simpl.
  assert (ContentProject.project_path (ContentProject.get_project_path "projects" p).2
          = Some (ContentProject.get_project_path "projects" p).1) as Hpath.
  { unfold ContentProject.get_project_path.
    by destruct (ContentProject.project_path p) eqn:Hp. }
  destruct (ContentProject.get_project_path "projects" p) as [path p'] eqn:Hget. simpl in *.
  unfold FS.write.
  destruct (FS.node_at w (Path.join path "config.json")) as [[|c]|]; simpl;
    [ | | destruct (FS.parent_error w (Path.join path "config.json")); simpl ];
    split_and!; try done;
    intros q Hq; unfold FS.node_at, FS.resolve in *; simpl;
    case_decide; try done; by rewrite lookup_insert_ne.
Qed.


(** Without the keyword file [execute_article_brief] returns [False]. *)
Lemma execute_article_brief_without_keyword_file E se self pid stage st :
  (∀ d, ContentProject.project_path st.1 = Some d →
        FS.exists_ st.2 (Path.join (Path.join d "stage_01_keyword_research")
                                   "keyword_clusters.csv") = false) →
  (ScriptExecutor.execute_article_brief E se
     (Some (PipelineExecutor._notify_progress self pid stage)) st).1 = false.
Proof.
  intros Hfile. destruct st as [p w].
  unfold ScriptExecutor.execute_article_brief, try_except, bindE, lift, bind, on_world, get,
    ok, ret, raise, PipelineExecutor._notify_progress. simpl in *.
  destruct (ContentProject.project_path p) as [d|]; simpl; [|done].
  specialize (Hfile d eq_refl).
  replace (FS.exists_ (add_calls _ w) _) with false; done.
Qed.









(** * More about the progress tracker *)

Lemma latest_update_progress_other now pid stg p msg tr pid' stg' :
  (pid', stg') ≠ (pid, stg) →
  latest (ProgressTracker.update_progress now pid stg p msg tr) pid' stg' = latest tr pid' stg'.
Proof.
  intros Hne. unfold latest, ProgressTracker.update_progress. simpl.
  destruct (decide (pid' = pid)) as [->|Hpid].
  - rewrite lookup_insert_eq. simpl.
    assert (stg' ≠ stg) as Hstg by congruence.
    rewrite lookup_insert_ne by done.
    destruct (ProgressTracker._progress_data tr !! pid); simpl; [done|].
    by rewrite lookup_empty.
  - by rewrite lookup_insert_ne.
Qed.

(** Publishing twice for the same project and stage leaves the second
    update as the stored one: the tracker holds it, clamped, with its own
    message and time, and holds the same data as if the first had never been
    published; no update touches the latest value of another project or
    stage. *)
Theorem update_progress_last_write_wins now1 now2 pid stg p1 p2 msg1 msg2 tr :
  latest (ProgressTracker.update_progress now2 pid stg p2 msg2
            (ProgressTracker.update_progress now1 pid stg p1 msg1 tr)) pid stg
  = Some {| ProgressTracker.project_id := pid; ProgressTracker.stage := stg;
            ProgressTracker.progress :=
              ProgressTracker.py_max 0 (ProgressTracker.py_min 100 p2);
            ProgressTracker.message := msg2; ProgressTracker.timestamp := now2 |}
  ∧ latest (ProgressTracker.update_progress now2 pid stg p2 msg2
              (ProgressTracker.update_progress now1 pid stg p1 msg1 tr)) pid stg
    = latest (ProgressTracker.update_progress now2 pid stg p2 msg2 tr) pid stg
  ∧ ProgressTracker._progress_data
      (ProgressTracker.update_progress now2 pid stg p2 msg2
         (ProgressTracker.update_progress now1 pid stg p1 msg1 tr))
    = ProgressTracker._progress_data
        (ProgressTracker.update_progress now2 pid stg p2 msg2 tr)
  ∧ ∀ pid' stg', (pid', stg') ≠ (pid, stg) →
      latest (ProgressTracker.update_progress now2 pid stg p2 msg2
                (ProgressTracker.update_progress now1 pid stg p1 msg1 tr)) pid' stg'
      = latest tr pid' stg'.
Proof.
  split_and!.
  - apply latest_update_progress.
  - by rewrite !latest_update_progress.
  - unfold ProgressTracker.update_progress. simpl.
    rewrite lookup_insert_eq. simpl. by rewrite !insert_insert_eq.
  - intros pid' stg' Hne. by rewrite !latest_update_progress_other.
Qed.

(** The progress a published update is stored with lies in [0, 100]: values
    strictly between are kept, everything at or below 0 becomes 0 and
    everything at or above 100 becomes 100; message and time are stored as
    given. *)
Theorem update_progress_stores_clamped now pid stg p msg tr :
  ∃ u, latest (ProgressTracker.update_progress now pid stg p msg tr) pid stg = Some u
       ∧ (0 <= ProgressTracker.progress u ∧ ProgressTracker.progress u <= 100)%Q
       ∧ ((0 < p ∧ p < 100)%Q → ProgressTracker.progress u = p)
       ∧ ((p <= 0)%Q → ProgressTracker.progress u = 0%Q)
       ∧ ((100 <= p)%Q → ProgressTracker.progress u = 100%Q)
       ∧ ProgressTracker.message u = msg
       ∧ ProgressTracker.timestamp u = now.
Proof.
  eexists. split; [apply latest_update_progress|]. simpl.
  destruct (clamp_spec p) as (H1 & H2 & H3 & H4). done.
Qed.

Lemma latest_of_spec best l :
  ProgressTracker.latest_of best l ∈ best :: l
  ∧ ∀ u, u ∈ best :: l →
         (ProgressTracker.timestamp u <= ProgressTracker.timestamp
                                           (ProgressTracker.latest_of best l))%Z.
Proof.
  revert best. induction l as [|x l IH]; intros best; simpl.
  - split; [by left|]. intros u Hu. apply list_elem_of_singleton in Hu as ->. lia.
  - destruct (IH (if (ProgressTracker.timestamp best <? ProgressTracker.timestamp x)%Z
                  then x else best)) as [Hin Hmax].
    split.
    + apply elem_of_cons in Hin as [->|Hin].
      * destruct (_ <? _)%Z; [right; left | left]; done.
      * right. by right.
    + intros u Hu.
      destruct (ProgressTracker.timestamp best <? ProgressTracker.timestamp x)%Z eqn:Hlt.
      * apply Z.ltb_lt in Hlt.
        apply elem_of_cons in Hu as [->|Hu].
        -- etrans; [|apply Hmax; by left]. lia.
        -- apply Hmax. apply elem_of_cons in Hu as [->|Hu]; [by left|by right].
      * apply Z.ltb_ge in Hlt.
        apply elem_of_cons in Hu as [->|Hu]; [apply Hmax; by left|].
        apply elem_of_cons in Hu as [->|Hu].
        -- etrans; [|apply Hmax; by left]. lia.
        -- apply Hmax. by right.
Qed.

(** Asked for a project without naming a stage, [get_progress] returns one
    of the project's updates whose time no other update of the project
    exceeds; it returns [None] exactly when the project has no update (it is
    unknown or all its stages were cleared). *)
Theorem get_progress_most_recent pid tr :
  match ProgressTracker.get_progress pid None tr with
  | Some u =>
      (∃ stg, latest tr pid stg = Some u)
      ∧ ∀ stg u', latest tr pid stg = Some u' →
                  (ProgressTracker.timestamp u' <= ProgressTracker.timestamp u)%Z
  | None => ∀ stg, latest tr pid stg = None
  end.
Proof.
  unfold ProgressTracker.get_progress, latest.
  destruct (ProgressTracker._progress_data tr !! pid) as [stages|]; simpl; [|done].
  destruct ((map_to_list stages).*2) as [|u l] eqn:Hl.
  - intros stg. destruct (stages !! stg) as [u|] eqn:Hu; [|done].
    apply elem_of_map_to_list in Hu.
    apply (list_elem_of_fmap_2 snd) in Hu. rewrite Hl in Hu. by apply elem_of_nil in Hu.
  - destruct (latest_of_spec u l) as [Hin Hmax]. rewrite <- Hl in Hin, Hmax. split.
    + apply list_elem_of_fmap in Hin as ([stg u0] & -> & Hin).
      apply elem_of_map_to_list in Hin. by exists stg.
    + intros stg u' Hu'. apply Hmax.
      apply elem_of_map_to_list in Hu'. by apply (list_elem_of_fmap_2 snd) in Hu'.
Qed.

Lemma get_active_operations_lookup tr pid stg :
  (ProgressTracker.get_active_operations tr !! pid ≫= (λ stages, stages !! stg))
  = (latest tr pid stg
       ≫= (λ u, if ProgressTracker.Qltb (ProgressTracker.progress u) 100
                then Some u else None)).
Proof.
  unfold ProgressTracker.get_active_operations, latest. rewrite lookup_fmap.
  destruct (ProgressTracker._progress_data tr !! pid) as [stages|]; simpl; [|done].
  rewrite map_lookup_filter.
  destruct (stages !! stg) as [u|]; simpl; [|done].
  destruct (ProgressTracker.Qltb (ProgressTracker.progress u) 100) eqn:H;
    by case_guard.
Qed.

(** [get_active_operations] keeps, stage by stage, exactly the updates whose
    stored progress is below 100, and keeps every tracked project as a key,
    also one that has no such update left. *)
Theorem get_active_operations_spec tr pid stg :
  (ProgressTracker.get_active_operations tr !! pid ≫= (λ stages, stages !! stg))
  = (latest tr pid stg
       ≫= (λ u, if ProgressTracker.Qltb (ProgressTracker.progress u) 100
                then Some u else None))
  ∧ (is_Some (ProgressTracker.get_active_operations tr !! pid)
     ↔ is_Some (ProgressTracker._progress_data tr !! pid)).
Proof.
  split; [apply get_active_operations_lookup|].
  unfold ProgressTracker.get_active_operations. rewrite lookup_fmap.
  destruct (ProgressTracker._progress_data tr !! pid) as [stages|]; simpl; [|done].
  split; eauto.
Qed.

(** [clear_progress] with a stage forgets that stage's update and nothing
    else; without a stage (or with the empty name) it forgets every update
    of the project and nothing of another project. *)
Theorem clear_progress_spec tr pid stg :
  (stg ≠ "" →
   ∀ pid' stg',
     latest (ProgressTracker.clear_progress pid (Some stg) tr) pid' stg'
     = if decide ((pid', stg') = (pid, stg)) then None else latest tr pid' stg')
  ∧ (∀ pid' stg',
       latest (ProgressTracker.clear_progress pid None tr) pid' stg'
       = if decide (pid' = pid) then None else latest tr pid' stg')
  ∧ ProgressTracker.clear_progress pid (Some "") tr
    = ProgressTracker.clear_progress pid None tr.
Proof.
  split_and!.
  - intros Hstg pid' stg'. unfold latest, ProgressTracker.clear_progress. simpl.
    destruct (decide (stg = "")) as [|_]; [done|].
    destruct (ProgressTracker._progress_data tr !! pid) as [stages|] eqn:Hpid; simpl.
    + destruct (decide (pid' = pid)) as [->|Hne].
      * rewrite lookup_insert_eq. simpl. rewrite Hpid. simpl.
        destruct (decide (stg' = stg)) as [->|Hs].
        -- rewrite decide_True by done. apply lookup_delete_eq.
        -- rewrite decide_False by congruence. by apply lookup_delete_ne.
      * rewrite lookup_insert_ne by done. rewrite decide_False by congruence. done.
    + case_decide as Heq; [|done]. injection Heq as -> ->. by rewrite Hpid.
  - intros pid' stg'. unfold latest, ProgressTracker.clear_progress. simpl.
    destruct (ProgressTracker._progress_data tr !! pid) as [stages|] eqn:Hpid; simpl.
    + case_decide as Heq; [subst; by rewrite lookup_delete_eq|].
      by rewrite lookup_delete_ne.
    + case_decide as Heq; [subst; by rewrite Hpid|done].
  - done.
Qed.

Lemma filter_remove_first cb cb' l :
  length (filter (λ x, x = cb') (ProgressTracker.list_remove_first cb l))
  = length (filter (λ x, x = cb') l)
    - (if decide (cb' = cb) then (if decide (cb ∈ l) then 1 else 0) else 0).
Proof.
  induction l as [|x l IH]; simpl.
  - by repeat case_decide.
  - destruct (decide (x = cb)) as [->|Hx].
    + rewrite (decide_True (P := cb ∈ cb :: l)) by left.
      destruct (decide (cb' = cb)) as [->|Hne].
      * rewrite filter_cons_True by done. simpl. lia.
      * rewrite filter_cons_False by done. lia.
    + destruct (decide (x = cb')) as [->|Hx'].
      * rewrite !filter_cons_True by done. simpl. rewrite IH.
        rewrite !(decide_False (P := cb' = cb)) by done. lia.
      * rewrite !filter_cons_False by done. rewrite IH.
        destruct (decide (cb' = cb)) as [->|]; [|done].
        destruct (decide (cb ∈ l)) as [Hin|Hnin].
        -- rewrite decide_True by (by right). done.
        -- rewrite decide_False; [done|]. intros [?|?]%elem_of_cons; done.
Qed.

(** A callback is called once per registration: an update is delivered, in
    registration order, to every registered callable, [add_callback] adds one
    registration and [remove_callback] takes away one (the earliest) and none
    of another callable. *)
Theorem callbacks_called_once_per_registration now pid stg p msg tr cb cb' :
  (∃ u, latest (ProgressTracker.update_progress now pid stg p msg tr) pid stg = Some u
        ∧ ProgressTracker.delivered (ProgressTracker.update_progress now pid stg p msg tr)
          = ProgressTracker.delivered tr
              ++ map (λ c, (c, u)) (ProgressTracker._callbacks tr))
  ∧ ProgressTracker._callbacks (ProgressTracker.add_callback cb tr)
    = ProgressTracker._callbacks tr ++ [cb]
  ∧ length (filter (λ x, x = cb')
              (ProgressTracker._callbacks (ProgressTracker.remove_callback cb tr)))
    = length (filter (λ x, x = cb') (ProgressTracker._callbacks tr))
      - (if decide (cb' = cb)
         then (if decide (cb ∈ ProgressTracker._callbacks tr) then 1 else 0) else 0)
  ∧ ProgressTracker._progress_data (ProgressTracker.remove_callback cb tr)
    = ProgressTracker._progress_data tr.
Proof.
  split_and!; try done.
  - eexists. split; [apply latest_update_progress|done].
  - apply filter_remove_first.
Qed.

(** * The session copy and the operation context *)

Lemma streamlit_get_progress_update now iso pid stg p msg self :
  stg ≠ "" →
  StreamlitProgressTracker.get_progress pid (Some stg)
    (StreamlitProgressTracker.update_progress now iso pid stg p msg self)
  = Some {| StreamlitProgressTracker.progress := p;
            StreamlitProgressTracker.message := msg;
            StreamlitProgressTracker.timestamp := iso |}.
Proof.
  intros Hstg. unfold StreamlitProgressTracker.get_progress,
    StreamlitProgressTracker.update_progress. simpl.
  rewrite lookup_insert_eq. rewrite decide_False by done. by rewrite lookup_insert_eq.
Qed.

(** The session copy keeps the published number as it is while the wrapped
    tracker stores it clamped, and [is_stage_running] holds after an update
    exactly when the number lies strictly between 0 and 100: a stage
    published at 0 or at the error value -1 does not count as running. *)
Theorem streamlit_update_then_is_stage_running now iso pid stg p msg self :
  stg ≠ "" →
  let self' := StreamlitProgressTracker.update_progress now iso pid stg p msg self in
  StreamlitProgressTracker.progress
    <$> StreamlitProgressTracker.get_progress pid (Some stg) self' = Some p
  ∧ ProgressTracker.progress <$> latest (StreamlitProgressTracker.tracker self') pid stg
    = Some (ProgressTracker.py_max 0 (ProgressTracker.py_min 100 p))
  ∧ (StreamlitProgressTracker.is_stage_running pid stg self' = true ↔ (0 < p ∧ p < 100)%Q).
Proof.
  intros Hstg self'. unfold self'. split_and!.
  - by rewrite streamlit_get_progress_update.
  - simpl. by rewrite latest_update_progress.
  - unfold StreamlitProgressTracker.is_stage_running.
    rewrite streamlit_get_progress_update by done. simpl.
    rewrite andb_true_iff, !Qltb_lt. done.
Qed.

Lemma streamlit_update_then_is_stage_running_witness :
  StreamlitProgressTracker.is_stage_running "p1" "keyword_research"
    (StreamlitProgressTracker.update_progress 5 "2025-01-01T00:00:05" "p1" "keyword_research"
       40 "Executing" (StreamlitProgressTracker.__init__ None None)) = true.
Proof.
  apply (streamlit_update_then_is_stage_running 5 "2025-01-01T00:00:05" "p1"
           "keyword_research" 40 "Executing" (StreamlitProgressTracker.__init__ None None)).
  - discriminate.
  - split; reflexivity.
Defined.

(** [clear_completed] drops, for the one project, the session entries at or
    above 100 and keeps the others; entries of other projects and the
    wrapped tracker stay as they are. *)
Theorem streamlit_clear_completed_spec pid self pid' stg :
  stg ≠ "" →
  StreamlitProgressTracker.get_progress pid' (Some stg)
    (StreamlitProgressTracker.clear_completed pid self)
  = (StreamlitProgressTracker.get_progress pid' (Some stg) self
       ≫= (λ o, if decide (pid' = pid)
                then (if Qle_bool 100 (StreamlitProgressTracker.progress o)
                      then None else Some o)
                else Some o))
  ∧ StreamlitProgressTracker.tracker (StreamlitProgressTracker.clear_completed pid self)
    = StreamlitProgressTracker.tracker self.
Proof.
  intros Hstg. unfold StreamlitProgressTracker.clear_completed,
    StreamlitProgressTracker.get_progress.
  destruct self as [tr [ops|]]; simpl.
  - destruct (ops !! pid) as [stages|] eqn:Hpid; simpl.
    + split; [|done]. destruct (decide (pid' = pid)) as [->|Hne].
      * rewrite lookup_insert_eq, Hpid. rewrite !decide_False by done.
        rewrite map_lookup_filter.
        destruct (stages !! stg) as [o|]; simpl; [|done].
        destruct (Qle_bool 100 (StreamlitProgressTracker.progress o)) eqn:H; by case_guard.
      * rewrite lookup_insert_ne by done.
        destruct (ops !! pid') as [stages'|]; simpl; [|done].
        rewrite !decide_False by done. by destruct (stages' !! stg).
    + split; [|done].
      destruct (ops !! pid') as [stages'|] eqn:Hpid'; simpl; [|done].
      rewrite !decide_False by done.
      destruct (stages' !! stg); simpl; [|done].
      case_decide; [congruence|done].
  - split; [|done]. by rewrite lookup_empty.
Qed.

Lemma streamlit_clear_completed_spec_witness :
  StreamlitProgressTracker.get_progress "p1" (Some "keyword_research")
    (StreamlitProgressTracker.clear_completed "p1"
       (StreamlitProgressTracker.update_progress 5 "2025-01-01T00:00:05" "p1"
          "keyword_research" 100 "done" (StreamlitProgressTracker.__init__ None None)))
  = None.
Proof.
  rewrite (proj1 (streamlit_clear_completed_spec "p1"
             (StreamlitProgressTracker.update_progress 5 "2025-01-01T00:00:05" "p1"
                "keyword_research" 100 "done" (StreamlitProgressTracker.__init__ None None))
             "p1" "keyword_research" ltac:(discriminate))).
  reflexivity.
Defined.

(** An operation that ends with an exception stays listed as in flight: its
    context publishes -1, which the tracker stores as 0, below 100; one that
    ends normally is stored at 100 and is no longer listed. *)
Theorem operation_context_exit now1 now2 op tracker exc :
  let entered := OperationContext.__enter__ now1 op tracker in
  let failed := OperationContext.__exit__ now2 (Some exc) op entered in
  let finished := OperationContext.__exit__ now2 None op entered in
  let pid := OperationContext.project_id op in
  let stg := OperationContext.stage op in
  (ProgressTracker.get_active_operations failed !! pid ≫= (λ stages, stages !! stg))
  = Some {| ProgressTracker.project_id := pid; ProgressTracker.stage := stg;
            ProgressTracker.progress := 0;
            ProgressTracker.message := "Operation failed: " ++ exc;
            ProgressTracker.timestamp := now2 |}
  ∧ (ProgressTracker.get_active_operations finished !! pid ≫= (λ stages, stages !! stg))
    = None
  ∧ ProgressTracker.progress <$> latest finished pid stg = Some 100%Q.
Proof.
  intros entered failed finished pid stg.
  split_and!.
  - rewrite get_active_operations_lookup.
    unfold failed, OperationContext.__exit__. rewrite latest_update_progress. done.
  - rewrite get_active_operations_lookup.
    unfold finished, OperationContext.__exit__. rewrite latest_update_progress. done.
  - unfold finished, OperationContext.__exit__. rewrite latest_update_progress. done.
Qed.

(** * More about one stage *)

(** Whatever the scripts do, a run of a stage the project knows leaves the
    stage either "completed" or "failed", never "running"; it changes the
    entry of no other stage; and the result it returns agrees with the
    record: success exactly when the stage is "completed", and on failure
    the recorded error is the message of the result. *)
Theorem execute_stage_settles_the_stage E self stage force st :
  is_Some (ContentProject.execution_status st.1 !! stage) →
  let run := PipelineExecutor.execute_stage E self stage force st in
  (status_of run.2.1 stage = Some (Some "completed")
   ∨ status_of run.2.1 stage = Some (Some "failed"))
  ∧ (∀ s, s ≠ stage →
       ContentProject.execution_status run.2.1 !! s
       = ContentProject.execution_status st.1 !! s)
  ∧ match run.1 with
    | Ok r =>
        (PipelineExecutor.success r = true
         ↔ status_of run.2.1 stage = Some (Some "completed"))
        ∧ (PipelineExecutor.success r = false →
           error_of run.2.1 stage = Some (Some (PipelineExecutor.message r)))
    | Raise _ => force = false ∧ status_of st.1 stage = Some (Some "completed")
    end.
Proof.
  intros Hin run. unfold run.
  pose proof (execute_stage_spec E self stage force st) as H.
  destruct (PipelineExecutor.execute_stage E self stage force st) as [[r|e] st']; simpl.
  - unfold outcome in H. destruct (PipelineExecutor.success r) eqn:Hr.
    + destruct H as [[[Ho Hp] He] Hc]. specialize (Hc Hin).
      split_and!; [by left|done| |done]. split; done.
    + destruct H as [Hmsg [[Ho Hp] Hf]]. destruct (Hf Hin) as [Hs Herr].
      split_and!; [by right|done| |done]. unfold status_of. unfold field in Hs.
      split; [done|]. rewrite Hs. done.
  - destruct H as (Hes & Hst & Hforce). split_and!; try done.
    + left. unfold status_of in *. by rewrite Hes.
    + intros s _. by rewrite Hes.
Qed.

Lemma execute_stage_settles_the_stage_witness :
  let run := PipelineExecutor.execute_stage Demo.E Demo.executor "social_media" false unsaved in
  status_of run.2.1 "social_media" = Some (Some "completed")
  ∨ status_of run.2.1 "social_media" = Some (Some "failed").
Proof.
  apply (execute_stage_settles_the_stage Demo.E Demo.executor "social_media" false unsaved).
  vm_compute. eexists. reflexivity.
Defined.

(** ** What starts no process *)

Lemma write_processes p c w : processes (FS.write p c w).2 = processes w.
Proof.
  unfold FS.write. destruct (FS.node_at w p) as [[|?]|]; try done.
  by destruct (FS.parent_error w p).
Qed.

Lemma save_config_processes st :
  processes (ContentProject.save_config st).2.2 = processes st.2.
Proof.
  destruct st as [p w].
  unfold ContentProject.save_config, try_except, bindE, lift, on_self, on_worldE, get, ok, ret.
  simpl. destruct (ContentProject.get_project_path "projects" p) as [path p'] eqn:Hp. simpl.
  pose proof (write_processes (Path.join path "config.json")
                (ConfigJson (ContentProject.config_data p')) w) as H.
  by destruct (FS.write _ _ w) as [[[]|e] w'].
Qed.

Lemma update_stage_status_processes E stage status error st :
  processes (ContentProject.update_stage_status E stage status error st).2.2
  = processes st.2.
Proof.
  destruct st as [p w]. unfold ContentProject.update_stage_status, bind, get. simpl.
  destruct (ContentProject.execution_status p !! stage) as [entry|]; [|done].
  case_decide; simpl;
    match goal with |- context [ContentProject.save_config ?s] =>
      pose proof (save_config_processes s) as Hsc;
      by destruct (ContentProject.save_config s) end.
Qed.

Lemma failed_processes E stage msg st :
  processes (PipelineExecutor.failed E stage msg st).2.2 = processes st.2.
Proof.
  unfold PipelineExecutor.failed, bind, ret.
  pose proof (update_stage_status_processes E stage "failed" (Some msg) st) as H.
  by destruct (ContentProject.update_stage_status E stage "failed" (Some msg) st).
Qed.

(** A stage name the executor has no script for fails: the result is the
    failure "Error executing stage: Script not found for stage <name>" and
    no process is started on the way; if the project has no entry for the
    name either, the project object and the files are left as they were. *)
Theorem execute_stage_unknown_stage E self stage force st :
  PipelineExecutor.stage_scripts !! stage = None →
  status_of st.1 stage ≠ Some (Some "completed") ∨ force = true →
  let run := PipelineExecutor.execute_stage E self stage force st in
  run.1 = Ok (failure ("Error executing stage: Script not found for stage " ++ stage))
  ∧ processes run.2.2 = processes st.2
  ∧ (ContentProject.execution_status st.1 !! stage = None →
     run.2.1 = st.1 ∧ fs run.2.2 = fs st.2).
Proof.
  intros Hunknown Hrun run.
  assert (stage ≠ "keyword_research") as Hkr by (by intros ->).
  assert (stage ≠ "content_briefs") as Hcb by (by intros ->).
  assert (∃ st', run = (Ok (failure ("Error executing stage: Script not found for stage "
                                      ++ stage)), st')
                 ∧ processes st'.2 = processes st.2
                 ∧ (ContentProject.execution_status st.1 !! stage = None →
                    st'.1 = st.1 ∧ fs st'.2 = fs st.2)) as (st' & -> & Hp & Hn); [|done].
  unfold run, PipelineExecutor.execute_stage, bindE at 1, lift at 1, get. simpl.
  assert (bool_decide (default ∅ (ContentProject.execution_status st.1 !! stage) !! "status"
                       = Some (Some "completed")) && negb force = false) as ->.
  { apply andb_false_iff. destruct Hrun as [Hst| ->]; [left|by right].
    apply bool_decide_eq_false. intros H. apply Hst. unfold status_of.
    destruct (ContentProject.execution_status st.1 !! stage); simpl in *; [done|].
    by rewrite lookup_empty in H. }
  unfold bindE at 1, lift at 1.
  pose proof (update_stage_status_processes E stage "running" None st) as Hproc.
  pose proof (update_stage_status_spec E stage "running" None st) as Hspec.
  destruct (ContentProject.update_stage_status E stage "running" None st) as [b st1].
  simpl in Hproc, Hspec.
  unfold bindE at 1, lift at 1, on_world at 1, PipelineExecutor._notify_progress. simpl.
  unfold lift, try_except, PipelineExecutor.run_stage_body, bindE at 1, lift at 1, get.
  simpl. rewrite !decide_False by done.
  unfold PipelineExecutor._get_script_path. rewrite Hunknown. unfold raise. simpl.
  match goal with |- context [PipelineExecutor.failed E stage ?m ?s] =>
    pose proof (failed_processes E stage m s) as Hf;
    pose proof (update_stage_status_spec E stage "failed" (Some m) s) as Hspec2 end.
  unfold PipelineExecutor.failed, bind, ret in *. simpl in *.
  destruct (ContentProject.update_stage_status E stage "failed" _ _) as [b' st2] eqn:Hst2.
  simpl in *.
  change "Error executing stage: Script not found for stage "
    with ("Error executing stage: " ++ "Script not found for stage ")%string.
  rewrite append_assoc.
  eexists. split_and!; [done|simpl; congruence|].
  intros Hnone. rewrite Hnone in Hspec. injection Hspec as -> ->.
  rewrite Hnone in Hspec2. injection Hspec2 as _ ->. done.
Qed.

Lemma execute_stage_unknown_stage_witness :
  (PipelineExecutor.execute_stage Demo.E Demo.executor "deploy" false unsaved).1
  = Ok (failure "Error executing stage: Script not found for stage deploy").
Proof.
  apply (execute_stage_unknown_stage Demo.E Demo.executor "deploy" false unsaved).
  - vm_compute. reflexivity.
  - left. vm_compute. discriminate.
Defined.

Lemma mkdir_processes p w : processes (FS.mkdir p w).2 = processes w.
Proof.
  unfold FS.mkdir. destruct (FS.node_at w p) as [[|?]|]; try done.
  by destruct (FS.parent_error w p).
Qed.

Lemma save_config_input_data st :
  ContentProject.input_data (ContentProject.save_config st).2.1
  = ContentProject.input_data st.1.
Proof.
  destruct st as [p w].
  unfold ContentProject.save_config, try_except, bindE, lift, on_self, on_worldE, get, ok, ret.
  simpl. unfold ContentProject.get_project_path.
  destruct (ContentProject.project_path p); simpl;
    by destruct (FS.write _ _ w) as [[[]|e] w'].
Qed.

Lemma update_stage_status_input_data E stage status error st :
  ContentProject.input_data (ContentProject.update_stage_status E stage status error st).2.1
  = ContentProject.input_data st.1.
Proof.
  destruct st as [p w]. unfold ContentProject.update_stage_status, bind, get. simpl.
  destruct (ContentProject.execution_status p !! stage) as [entry|]; [|done].
  case_decide; simpl;
    match goal with |- context [ContentProject.save_config ?s] =>
      pose proof (save_config_input_data s) as Hsc;
      by destruct (ContentProject.save_config s) end.
Qed.

Lemma execute_keyword_research_no_seeds E self executor pid stage st :
  seed_keywords (ContentProject.input_data st.1) = [] →
  let r := ScriptExecutor.execute_keyword_research E self
             (Some (PipelineExecutor._notify_progress executor pid stage)) st in
  r.1 = false ∧ processes r.2.2 = processes st.2.
Proof.
  destruct st as [p w]. simpl. intros Hseeds.
  unfold ScriptExecutor.execute_keyword_research, try_except, bindE, lift, on_world,
    on_worldE, get, raise, ok, ret, bind, PipelineExecutor._notify_progress. simpl.
  destruct (ContentProject.project_path p) as [d|]; simpl; [|done].
  pose proof (mkdir_processes (Path.join d "stage_01_keyword_research")
                (add_calls
                   (map (λ cb, {| pc_callback := cb; pc_project_id := pid; pc_stage := stage;
                                  pc_progress := 10; pc_message := "Setting up keyword research..." |})
                      (PipelineExecutor.progress_callbacks executor)) w)) as Hm.
  destruct (FS.mkdir _ _) as [[[]|e] w']; simpl in *; [|done].
  rewrite Hseeds. done.
Qed.

(** Keyword research on a project without seed keywords fails before any
    script is started: the result is the failure "Error executing stage:
    Keyword research execution failed", which does not say why. *)
Theorem keyword_research_without_seed_keywords E self force st :
  seed_keywords (ContentProject.input_data st.1) = [] →
  status_of st.1 "keyword_research" ≠ Some (Some "completed") ∨ force = true →
  let run := PipelineExecutor.execute_stage E self "keyword_research" force st in
  run.1 = Ok (failure "Error executing stage: Keyword research execution failed")
  ∧ processes run.2.2 = processes st.2.
Proof.
  intros Hseeds Hrun run.
  assert (∃ st', run = (Ok (failure "Error executing stage: Keyword research execution failed"),
                        st')
                 ∧ processes st'.2 = processes st.2) as (st' & -> & Hp); [|done].
  unfold run, PipelineExecutor.execute_stage, bindE at 1, lift at 1, get. simpl.
  assert (bool_decide (default ∅ (ContentProject.execution_status st.1 !! "keyword_research")
                         !! "status" = Some (Some "completed")) && negb force = false) as ->.
  { apply andb_false_iff. destruct Hrun as [Hst| ->]; [left|by right].
    apply bool_decide_eq_false. intros H. apply Hst. unfold status_of.
    destruct (ContentProject.execution_status st.1 !! "keyword_research"); simpl in *; [done|].
    by rewrite lookup_empty in H. }
  unfold bindE at 1, lift at 1.
  pose proof (update_stage_status_processes E "keyword_research" "running" None st) as Hproc.
  pose proof (update_stage_status_input_data E "keyword_research" "running" None st) as Hin.
  destruct (ContentProject.update_stage_status E "keyword_research" "running" None st)
    as [b st1].
  simpl in Hproc, Hin.
  unfold bindE at 1, lift at 1, on_world at 1, PipelineExecutor._notify_progress at 1. simpl.
  unfold lift, try_except, PipelineExecutor.run_stage_body, bindE at 1, lift at 1, get.
  simpl. unfold bindE at 1, lift at 1.
  match goal with |- context [ScriptExecutor.execute_keyword_research E ?s (Some ?cb) ?x] =>
    pose proof (execute_keyword_research_no_seeds E s self
                  (ContentProject.project_id st1.1) "keyword_research" x) as Hk end.
  simpl in Hk. rewrite Hin, Hseeds in Hk. specialize (Hk eq_refl).
  destruct (ScriptExecutor.execute_keyword_research _ _ _ _) as [ok_ st2].
  simpl in Hk. destruct Hk as [-> Hk]. simpl. unfold raise. simpl.
  match goal with |- context [PipelineExecutor.failed E ?g ?m ?s] =>
    pose proof (failed_processes E g m s) as Hf end.
  unfold PipelineExecutor.failed, bind, ret in *. simpl in *.
  destruct (ContentProject.update_stage_status E "keyword_research" "failed" _ _)
    as [b' st3] eqn:Hst3.
  simpl in *. eexists. split; [done|]. simpl. congruence.
Qed.

Lemma keyword_research_without_seed_keywords_witness :
  (PipelineExecutor.execute_stage Demo.E Demo.executor "keyword_research" true unsaved).1
  = Ok (failure "Error executing stage: Keyword research execution failed").
Proof.
  apply (keyword_research_without_seed_keywords Demo.E Demo.executor true unsaved).
  - vm_compute. reflexivity.
  - by right.
Defined.

(** * More about the pipeline *)

Lemma pipeline_loop_results E self force todo :
  ∀ i results st,
    NoDup todo → (∀ s, s ∈ todo → results !! s = None) →
    match PipelineExecutor.pipeline_loop E self force i todo results st with
    | (Ok (b, res), _) =>
        (∀ s, s ∉ todo → res !! s = results !! s)
        ∧ if b then ∀ s, s ∈ todo →
                    ∃ r, res !! s = Some r ∧ PipelineExecutor.success r = true
          else ∃ pre f post r,
                 todo = pre ++ f :: post
                 ∧ res !! f = Some r ∧ PipelineExecutor.success r = false
                 ∧ (∀ s, s ∈ pre → ∃ r', res !! s = Some r' ∧ PipelineExecutor.success r' = true)
                 ∧ (∀ s, s ∈ post → res !! s = None)
    | (Raise _, _) => force = false
    end.
Proof.
  induction todo as [|stage rest IH]; intros i results st Hnd Hfree.
  - simpl. split; [done|]. intros s Hs. by apply elem_of_nil in Hs.
  - rewrite pipeline_loop_cons.
    pose proof (execute_stage_spec E self stage force (announced self i stage st)) as Hspec.
    destruct (PipelineExecutor.execute_stage E self stage force _) as [[r|e] st'];
      [|by destruct Hspec as (_ & _ & ?)].
    clear Hspec. apply NoDup_cons in Hnd as [Hnotin Hnd].
    destruct (PipelineExecutor.success r) eqn:Hr; simpl.
    + specialize (IH (S i) (<[stage := r]> results) st' Hnd).
      destruct (PipelineExecutor.pipeline_loop E self force (S i) rest _ st')
        as [[[b res]|e] st'']; [|apply IH].
      * destruct IH as [Hout Hb].
        { intros s Hs. rewrite lookup_insert_ne by (intros ->; done).
          apply Hfree. by right. }
        assert (res !! stage = Some r) as Hstage
          by (rewrite Hout by done; apply lookup_insert_eq).
        split.
        { intros s Hs. apply not_elem_of_cons in Hs as [Hne Hs].
          rewrite Hout by done. by rewrite lookup_insert_ne. }
        destruct b.
        -- intros s Hs. apply elem_of_cons in Hs as [->|Hs]; [by exists r|by apply Hb].
        -- destruct Hb as (pre & f & post & r' & -> & Hf & Hr' & Hpre & Hpost).
           exists (stage :: pre), f, post, r'. split_and!; try done.
           intros s Hs. apply elem_of_cons in Hs as [->|Hs]; [by exists r|by apply Hpre].
      * intros s Hs. rewrite lookup_insert_ne by (intros ->; done).
        apply Hfree. by right.
    + split.
      { intros s Hs. apply not_elem_of_cons in Hs as [Hne Hs]. by rewrite lookup_insert_ne. }
      exists [], stage, rest, r. split_and!; try done.
      * apply lookup_insert_eq.
      * intros s Hs. by apply elem_of_nil in Hs.
      * intros s Hs. rewrite lookup_insert_ne by (intros ->; done). apply Hfree. by right.
Qed.

(** Decides that a literal is none of the literals of a list. *)
Ltac not_in_literals :=
  let H := fresh in
  intros H; repeat (apply elem_of_cons in H as [H|H]; [discriminate H|]);
  by apply elem_of_nil in H.

Lemma stages_drop_NoDup k : NoDup (drop k PipelineExecutor.stages).
Proof.
  apply (sublist_NoDup _ PipelineExecutor.stages); [|apply sublist_drop].
  unfold PipelineExecutor.stages. repeat (apply NoDup_cons; split; [not_in_literals|]).
  apply NoDup_nil_2.
Qed.

(** The pipeline runs the stages from the start stage on, in order, and
    stops at the first that fails: it reports success exactly when each of
    them has a successful result; on failure the results hold the successful
    stages, then the failed one, and nothing for the stages after it. No
    stage before the start stage gets a result. It raises only when stages
    are not forced (a completed stage whose directory cannot be listed). *)
Theorem execute_full_pipeline_results E self start force st :
  let todo :=
    drop (default 0 (start ≫= PipelineExecutor.index PipelineExecutor.stages))
         PipelineExecutor.stages in
  match PipelineExecutor.execute_full_pipeline E self start force st with
  | (Ok pr, _) =>
      (∀ s, s ∉ todo → PipelineExecutor.results pr !! s = None)
      ∧ if PipelineExecutor.pipeline_success pr
        then ∀ s, s ∈ todo →
               ∃ r, PipelineExecutor.results pr !! s = Some r
                    ∧ PipelineExecutor.success r = true
        else ∃ pre f post r,
               todo = pre ++ f :: post
               ∧ PipelineExecutor.results pr !! f = Some r
               ∧ PipelineExecutor.success r = false
               ∧ (∀ s, s ∈ pre → ∃ r', PipelineExecutor.results pr !! s = Some r'
                                        ∧ PipelineExecutor.success r' = true)
               ∧ (∀ s, s ∈ post → PipelineExecutor.results pr !! s = None)
  | (Raise _, _) => force = false
  end.
Proof.
  intros todo. unfold PipelineExecutor.execute_full_pipeline.
  assert ((match start with
           | Some s => if decide (s = "") then 0
                       else default 0 (PipelineExecutor.index PipelineExecutor.stages s)
           | None => 0
           end) = default 0 (start ≫= PipelineExecutor.index PipelineExecutor.stages)) as ->.
  { destruct start as [s|]; [|done]. simpl. by case_decide; subst. }
  fold todo. unfold bindE at 1.
  pose proof (pipeline_loop_results E self force todo
                (default 0 (start ≫= PipelineExecutor.index PipelineExecutor.stages)) ∅ st) as H.
  destruct (PipelineExecutor.pipeline_loop E self force _ todo ∅ st) as [[[b res]|e] st'].
  - simpl. destruct H as [Hout Hb].
    + apply stages_drop_NoDup.
    + intros s _. apply lookup_empty.
    + split; [|done]. intros s Hs. rewrite Hout by done. apply lookup_empty.
  - apply H.
    + apply stages_drop_NoDup.
    + intros s _. apply lookup_empty.
Qed.

Lemma index_not_in l x : x ∉ l → PipelineExecutor.index l x = None.
Proof.
  induction l as [|y l IH]; [done|]. intros Hx. apply not_elem_of_cons in Hx as [Hne Hx].
  simpl. rewrite decide_False by done. by rewrite IH.
Qed.

(** What a run of the whole pipeline returns. *)
Lemma whole_pipeline_results E self force st :
  match PipelineExecutor.execute_full_pipeline E self None force st with
  | (Ok pr, _) =>
      is_Some (PipelineExecutor.results pr !! "keyword_research")
      ∧ if PipelineExecutor.pipeline_success pr
        then ∀ s, s ∈ PipelineExecutor.stages →
               ∃ r, PipelineExecutor.results pr !! s = Some r
                    ∧ PipelineExecutor.success r = true
        else ∃ pre f post r,
               PipelineExecutor.stages = pre ++ f :: post
               ∧ PipelineExecutor.results pr !! f = Some r
               ∧ PipelineExecutor.success r = false
               ∧ (∀ s, s ∈ pre → ∃ r', PipelineExecutor.results pr !! s = Some r'
                                        ∧ PipelineExecutor.success r' = true)
               ∧ (∀ s, s ∈ post → PipelineExecutor.results pr !! s = None)
  | (Raise _, _) => force = false
  end.
Proof.
  unfold PipelineExecutor.execute_full_pipeline.
  change (drop 0 PipelineExecutor.stages) with PipelineExecutor.stages.
  unfold bindE at 1.
  pose proof (pipeline_loop_results E self force PipelineExecutor.stages 0 ∅ st
                (stages_drop_NoDup 0) (λ s _, lookup_empty s)) as H.
  destruct (PipelineExecutor.pipeline_loop E self force 0 PipelineExecutor.stages ∅ st)
    as [[[b res]|e] st']; [|exact H].
  simpl. destruct H as [_ Hb]. split; [|exact Hb].
  destruct b.
  - destruct (Hb "keyword_research") as (r & Hr & _); [by left|by eexists].
  - destruct Hb as (pre & f & post & r & Hsplit & Hf & _ & Hpre & _).
    destruct pre as [|x pre]; simpl in Hsplit; injection Hsplit as <- _.
    + by eexists.
    + destruct (Hpre "keyword_research") as (r' & Hr' & _); [by left|by eexists].
Qed.

(** A start stage the pipeline does not know is not an error: the call does
    what a call without start stage does, and that is to run the whole
    pipeline from keyword_research on. When it returns, keyword_research has
    a result; it reports success exactly when each of the five stages has a
    successful result, and otherwise the results hold the successful stages,
    then the failed one, and nothing for the stages after it. *)
Theorem execute_full_pipeline_unknown_start E self s force st :
  s ∉ PipelineExecutor.stages →
  PipelineExecutor.execute_full_pipeline E self (Some s) force st
  = PipelineExecutor.execute_full_pipeline E self None force st
  ∧ match PipelineExecutor.execute_full_pipeline E self (Some s) force st with
    | (Ok pr, _) =>
        is_Some (PipelineExecutor.results pr !! "keyword_research")
        ∧ if PipelineExecutor.pipeline_success pr
          then ∀ s', s' ∈ PipelineExecutor.stages →
                 ∃ r, PipelineExecutor.results pr !! s' = Some r
                      ∧ PipelineExecutor.success r = true
          else ∃ pre f post r,
                 PipelineExecutor.stages = pre ++ f :: post
                 ∧ PipelineExecutor.results pr !! f = Some r
                 ∧ PipelineExecutor.success r = false
                 ∧ (∀ s', s' ∈ pre → ∃ r', PipelineExecutor.results pr !! s' = Some r'
                                           ∧ PipelineExecutor.success r' = true)
                 ∧ (∀ s', s' ∈ post → PipelineExecutor.results pr !! s' = None)
    | (Raise _, _) => force = false
    end.
Proof.
  intros Hs.
  assert (PipelineExecutor.execute_full_pipeline E self (Some s) force st
          = PipelineExecutor.execute_full_pipeline E self None force st) as Heq.
  { unfold PipelineExecutor.execute_full_pipeline.
    rewrite index_not_in by done. simpl. by case_decide. }
  split; [exact Heq|]. rewrite Heq. apply whole_pipeline_results.
Qed.

Lemma execute_full_pipeline_unknown_start_witness :
  PipelineExecutor.execute_full_pipeline Demo.E Demo.executor (Some "publish") false unsaved
  = PipelineExecutor.execute_full_pipeline Demo.E Demo.executor None false unsaved.
Proof.
  refine (proj1 (execute_full_pipeline_unknown_start Demo.E Demo.executor "publish" false
                   unsaved _)).
  unfold PipelineExecutor.stages. not_in_literals.
Defined.

Lemma pipeline_loop_records E self force todo :
  ∀ i results st,
    NoDup todo → (∀ s, s ∈ todo → results !! s = None) →
    (∀ s, s ∈ todo → is_Some (ContentProject.execution_status st.1 !! s)) →
    match PipelineExecutor.pipeline_loop E self force i todo results st with
    | (Ok (b, res), st') =>
        (∀ s, s ∉ todo →
           ContentProject.execution_status st'.1 !! s
           = ContentProject.execution_status st.1 !! s)
        ∧ ∀ s, s ∈ todo →
            match res !! s with
            | Some r =>
                if PipelineExecutor.success r
                then status_of st'.1 s = Some (Some "completed")
                else status_of st'.1 s = Some (Some "failed")
                     ∧ error_of st'.1 s = Some (Some (PipelineExecutor.message r))
            | None =>
                ContentProject.execution_status st'.1 !! s
                = ContentProject.execution_status st.1 !! s
            end
    | (Raise _, _) => True
    end.
Proof.
  induction todo as [|stage rest IH]; intros i results st Hnd Hfree Hkeys.
  - simpl. split; [done|]. intros s Hs. by apply elem_of_nil in Hs.
  - rewrite pipeline_loop_cons.
    pose proof (execute_stage_spec E self stage force (announced self i stage st)) as Hspec.
    rewrite announced_project in Hspec.
    destruct (PipelineExecutor.execute_stage E self stage force _) as [[r|e] st1]; [|done].
    apply NoDup_cons in Hnd as [Hnotin Hnd].
    assert (is_Some (ContentProject.execution_status st.1 !! stage)) as Hstage
      by (apply Hkeys; by left).
    unfold outcome in Hspec.
    destruct (PipelineExecutor.success r) eqn:Hr; simpl.
    + destruct Hspec as [[[Hother Hpres] Herr] Hcompleted]. specialize (Hcompleted Hstage).
      pose proof (pipeline_loop_results E self force rest (S i) (<[stage := r]> results) st1
                    Hnd) as Hres.
      specialize (IH (S i) (<[stage := r]> results) st1 Hnd).
      destruct (PipelineExecutor.pipeline_loop E self force (S i) rest _ st1)
        as [[[b res]|e] st']; [|done].
      assert (∀ s, s ∈ rest → (<[stage := r]> results : gmap string _) !! s = None) as Hfree'.
      { intros s Hs. rewrite lookup_insert_ne by (intros ->; done). apply Hfree. by right. }
      destruct (Hres Hfree') as [Hout _].
      destruct (IH Hfree') as [IHout IHin].
      { intros s Hs. rewrite Hother by (intros ->; done). apply Hkeys. by right. }
      split.
      * intros s Hs. apply not_elem_of_cons in Hs as [Hne Hs].
        rewrite IHout by done. by apply Hother.
      * intros s Hs. apply elem_of_cons in Hs as [->|Hs].
        -- rewrite Hout by done. rewrite lookup_insert_eq, Hr.
           unfold status_of. rewrite IHout by done. exact Hcompleted.
        -- specialize (IHin s Hs). destruct (res !! s); [done|].
           rewrite IHin. apply Hother. by intros ->.
    + destruct Hspec as [Hmsg [[Hother Hpres] Hfailed]]. specialize (Hfailed Hstage).
      split.
      * intros s Hs. apply not_elem_of_cons in Hs as [Hne Hs]. by apply Hother.
      * intros s Hs. apply elem_of_cons in Hs as [->|Hs].
        -- rewrite lookup_insert_eq, Hr. exact Hfailed.
        -- rewrite lookup_insert_ne by (intros ->; done).
           rewrite Hfree by (by right). apply Hother. by intros ->.
Qed.

(** After a pipeline run the project's record agrees with the results,
    stage by stage: a stage with a successful result is "completed", a stage
    with a failed result is "failed" with the result's message as its error,
    and a stage without a result (before the start stage, or after the one
    that failed) has its entry exactly as before the run. *)
Theorem execute_full_pipeline_records E self start force st :
  (∀ s, s ∈ PipelineExecutor.stages →
        is_Some (ContentProject.execution_status st.1 !! s)) →
  match PipelineExecutor.execute_full_pipeline E self start force st with
  | (Ok pr, st') =>
      ∀ s, match PipelineExecutor.results pr !! s with
           | Some r =>
               if PipelineExecutor.success r
               then status_of st'.1 s = Some (Some "completed")
               else status_of st'.1 s = Some (Some "failed")
                    ∧ error_of st'.1 s = Some (Some (PipelineExecutor.message r))
           | None =>
               ContentProject.execution_status st'.1 !! s
               = ContentProject.execution_status st.1 !! s
           end
  | (Raise _, _) => force = false
  end.
Proof.
  intros Hkeys. unfold PipelineExecutor.execute_full_pipeline.
  set (k := match start with
            | Some s => if decide (s = "") then 0
                        else default 0 (PipelineExecutor.index PipelineExecutor.stages s)
            | None => 0
            end).
  unfold bindE at 1.
  assert (∀ s, s ∈ drop k PipelineExecutor.stages →
               (∅ : gmap string PipelineExecutor.Result) !! s = None) as Hfree
    by (intros s _; apply lookup_empty).
  assert (∀ s, s ∈ drop k PipelineExecutor.stages →
               is_Some (ContentProject.execution_status st.1 !! s)) as Hkeys'.
  { intros s Hs. apply Hkeys. by apply (subseteq_drop k). }
  pose proof (pipeline_loop_results E self force _ k ∅ st (stages_drop_NoDup k) Hfree) as Hres.
  pose proof (pipeline_loop_records E self force _ k ∅ st (stages_drop_NoDup k) Hfree Hkeys')
    as Hrec.
  destruct (PipelineExecutor.pipeline_loop E self force k _ ∅ st) as [[[b res]|e] st'];
    [|exact Hres].
  simpl. destruct Hres as [Hout _]. destruct Hrec as [Hes Hin].
  intros s. destruct (decide (s ∈ drop k PipelineExecutor.stages)) as [Hs|Hs].
  - apply Hin, Hs.
  - rewrite Hout by done. rewrite lookup_empty. by apply Hes.
Qed.

Lemma execute_full_pipeline_records_witness :
  match PipelineExecutor.execute_full_pipeline Demo.E Demo.executor None false unsaved with
  | (Ok pr, st') =>
      ∀ s, match PipelineExecutor.results pr !! s with
           | Some r =>
               if PipelineExecutor.success r
               then status_of st'.1 s = Some (Some "completed")
               else status_of st'.1 s = Some (Some "failed")
                    ∧ error_of st'.1 s = Some (Some (PipelineExecutor.message r))
           | None =>
               ContentProject.execution_status st'.1 !! s
               = ContentProject.execution_status unsaved.1 !! s
           end
  | (Raise _, _) => false = false
  end.
Proof.
  apply (execute_full_pipeline_records Demo.E Demo.executor None false unsaved).
  intros s Hs. unfold PipelineExecutor.stages in Hs.
  repeat (apply elem_of_cons in Hs as [->|Hs]); [..|by apply elem_of_nil in Hs];
    vm_compute; eexists; reflexivity.
Defined.

(** * Which script a stage runs *)

Lemma stage_config_keys stage stage_config g :
  PipelineExecutor.stage_scripts !! stage = Some stage_config →
  stage ≠ "keyword_research" →
  g ∉ ["openai"; "claude"; "description"; "outputs"] →
  stage_config !! g = None.
Proof.
  intros Hcfg Hkr Hg. unfold PipelineExecutor.stage_scripts in Hcfg.
  apply elem_of_list_to_map_2 in Hcfg.
  repeat (apply elem_of_cons in Hcfg as [Hcfg|Hcfg];
          [injection Hcfg as -> ->;
           first [done
                 | rewrite !lookup_insert_ne by (intros <-; apply Hg; repeat constructor);
                   apply lookup_empty]|]).
  by apply elem_of_nil in Hcfg.
Qed.

(** Keyword research has one script whatever the content generator is; for
    the other stages a generator the table has no script for, be it a
    misspelt name, the empty text or a number, is not an error: the stage
    runs the OpenAI script. *)
Theorem get_script_path_falls_back_to_openai self stage generator :
  PipelineExecutor._get_script_path self "keyword_research" generator
  = Ok (Some (Path.join (PipelineExecutor.scripts_dir self) "KeywordResearcher.py"))
  ∧ (stage ≠ "keyword_research" →
     (∀ g, generator = CfgStr g → g ∉ ["openai"; "claude"; "description"; "outputs"]) →
     PipelineExecutor._get_script_path self stage generator
     = PipelineExecutor._get_script_path self stage (CfgStr "openai")).
Proof.
  split; [done|]. intros Hkr Hg.
  unfold PipelineExecutor._get_script_path.
  destruct (PipelineExecutor.stage_scripts !! stage) as [stage_config|] eqn:Hcfg; [|done].
  rewrite !decide_False by done.
  destruct generator as [g|q]; simpl.
  - rewrite (stage_config_keys stage stage_config g Hcfg Hkr (Hg g eq_refl)). simpl.
    destruct (PipelineExecutor.sval_truthy (stage_config !! "openai")) eqn:Ht;
      by rewrite ?Ht.
  - destruct (PipelineExecutor.sval_truthy (stage_config !! "openai")) eqn:Ht;
      by rewrite ?Ht.
Qed.

Lemma get_script_path_falls_back_to_openai_witness :
  PipelineExecutor._get_script_path Demo.executor "keyword_research" (CfgStr "claude")
  = Ok (Some (Path.join (PipelineExecutor.scripts_dir Demo.executor) "KeywordResearcher.py"))
  ∧ PipelineExecutor._get_script_path Demo.executor "article_writing" (CfgStr "gemini")
    = PipelineExecutor._get_script_path Demo.executor "article_writing" (CfgStr "openai").
Proof.
  split.
  - exact (proj1 (get_script_path_falls_back_to_openai Demo.executor "article_writing"
                    (CfgStr "claude"))).
  - refine (proj2 (get_script_path_falls_back_to_openai Demo.executor "article_writing"
                     (CfgStr "gemini")) _ _).
    + discriminate.
    + intros g [= <-]. not_in_literals.
Defined.

(** * More about the project record *)

(** [update_stage_status] answers whether the project has an entry for the
    stage, not whether the change reached the disk: for a stage without an
    entry it returns [False] and changes nothing, neither the project nor
    the files nor the clock; for a stage with an entry it returns [True],
    also when writing config.json fails. *)
Theorem update_stage_status_returns_known E stage status error st :
  (ContentProject.update_stage_status E stage status error st).1
  = bool_decide (is_Some (ContentProject.execution_status st.1 !! stage))
  ∧ (ContentProject.execution_status st.1 !! stage = None →
     (ContentProject.update_stage_status E stage status error st).2 = st).
Proof.
  pose proof (update_stage_status_spec E stage status error st) as H. simpl in H.
  destruct (ContentProject.execution_status st.1 !! stage) as [entry|] eqn:Hst.
  - destruct H as [-> _]. by split.
  - rewrite H. by split.
Qed.

(** The completion time is written only by an update to "completed" and is
    kept by every later update to another status: a stage that completed and
    then failed or was started again still shows the time of its earlier
    completion. *)
Theorem completed_at_survives_later_updates E stage status error st :
  is_Some (ContentProject.execution_status st.1 !! stage) →
  status ≠ "completed" →
  let st1 := (ContentProject.update_stage_status E stage "completed" None st).2 in
  let st2 := (ContentProject.update_stage_status E stage status error st1).2 in
  status_of st2.1 stage = Some (Some status)
  ∧ completed_at_of st2.1 stage = Some (Some (isoformat_now E (clock st.2))).
Proof.
  intros Hin Hstatus st1 st2.
  assert (is_Some (ContentProject.execution_status st1.1 !! stage)) as [entry1 Hin1]
    by (by apply update_stage_status_present).
  pose proof (update_stage_status_completed_at E stage "completed" None st) as Hc1.
  destruct Hin as [entry Hentry]. rewrite Hentry in Hc1. fold st1 in Hc1.
  rewrite decide_True in Hc1 by done.
  split.
  - rewrite status_of_field. unfold st2. rewrite update_stage_status_status. by rewrite Hin1.
  - change (field (ContentProject.execution_status st2.1) stage "completed_at"
            = Some (Some (isoformat_now E (clock st.2)))).
    unfold st2. rewrite update_stage_status_completed_at. rewrite Hin1.
    rewrite decide_False by done. unfold field in Hc1. rewrite Hin1 in Hc1. exact Hc1.
Qed.

Lemma completed_at_survives_later_updates_witness :
  let st1 := (ContentProject.update_stage_status Demo.E "article_writing" "completed" None
                unsaved).2 in
  let st2 := (ContentProject.update_stage_status Demo.E "article_writing" "failed"
                (Some "boom") st1).2 in
  status_of st2.1 "article_writing" = Some (Some "failed")
  ∧ completed_at_of st2.1 "article_writing"
    = Some (Some (isoformat_now Demo.E (clock unsaved.2))).
Proof.
  apply (completed_at_survives_later_updates Demo.E "article_writing" "failed" (Some "boom")
           unsaved).
  - vm_compute. eexists. reflexivity.
  - discriminate.
Defined.

Lemma write_then_read p c w :
  (FS.write p c w).1 = Ok () →
  FS.exists_ (FS.write p c w).2 p = true ∧ FS.read p (FS.write p c w).2 = (Ok c, (FS.write p c w).2).
Proof.
  unfold FS.write, FS.exists_, FS.read.
  assert (∀ f, FS.node_at w p ≠ Some Dir →
               FS.node_at (set_fs (<[FS.resolve w p := File c]> f) w) p = Some (File c)) as Hnode.
  { intros f Hdir. unfold FS.node_at in *. change (FS.resolve (set_fs _ w) p) with (FS.resolve w p).
    destruct (decide (FS.resolve w p = "")); [done|]. simpl. apply lookup_insert_eq. }
  destruct (FS.node_at w p) as [[|c0]|] eqn:Hn; simpl; [done| |].
  - intros _. rewrite Hnode by done. split; [|done]. apply bool_decide_eq_true_2. eauto.
  - destruct (FS.parent_error w p); [done|]. simpl. intros _.
    rewrite Hnode by done. split; [|done]. apply bool_decide_eq_true_2. eauto.
Qed.

(** What [save_config] wrote, [load_from_config] reads back: when the save
    succeeded and the project has a non-empty id, loading from the project's
    directory gives a project equal to the saved one in every field. *)
Theorem save_config_then_load_from_config E st :
  (ContentProject.save_config st).1 = true →
  ContentProject.project_id st.1 ≠ "" →
  let st' := (ContentProject.save_config st).2 in
  let path := (ContentProject.get_project_path "projects" st.1).1 in
  ContentProject.project_path st'.1 = Some path
  ∧ (ContentProject.load_from_config E path st'.2).1 = Some st'.1.
Proof.
  destruct st as [p w]. simpl. intros Hsaved Hid.
  unfold ContentProject.save_config, try_except, bindE, lift, on_self, on_worldE, get, ok, ret
    in *. simpl in *.
  assert (ContentProject.project_path (ContentProject.get_project_path "projects" p).2
          = Some (ContentProject.get_project_path "projects" p).1
          ∧ ContentProject.project_id (ContentProject.get_project_path "projects" p).2
            = ContentProject.project_id p) as [Hpath Hpid].
  { unfold ContentProject.get_project_path. by destruct (ContentProject.project_path p) eqn:Hp. }
  destruct (ContentProject.get_project_path "projects" p) as [path p'] eqn:Hget. simpl in *.
  pose proof (write_then_read (Path.join path "config.json")
                (ConfigJson (ContentProject.config_data p')) w) as Hrw.
  destruct (FS.write (Path.join path "config.json") _ w) as [[[]|e] w'] eqn:Hw;
    simpl in *; [|done].
  destruct (Hrw eq_refl) as [Hex Hread]. split; [done|].
  unfold ContentProject.load_from_config, try_except, bindE, lift, get, ok, ret. simpl.
  rewrite Hex. simpl. rewrite Hread. simpl.
  unfold ContentProject.__init__, bind, ret, datetime_now. simpl.
  rewrite decide_False by congruence. simpl.
  destruct p'. simpl in *. by rewrite Hpath.
Qed.

Lemma save_config_then_load_from_config_witness :
  (ContentProject.load_from_config Demo.E
     (ContentProject.get_project_path "projects" Demo.fresh.1).1
     (ContentProject.save_config Demo.fresh).2.2).1
  = Some (ContentProject.save_config Demo.fresh).2.1.
Proof.
  apply (save_config_then_load_from_config Demo.E Demo.fresh).
  - vm_compute. reflexivity.
  - vm_compute. discriminate.
Defined.

(** Recording the same output file a second time changes nothing: the
    second call returns what the first returned and leaves the project, the
    files and the clock as the first left them. Under a key the manifest has,
    the path is appended once, at the end, and a list without duplicates
    stays without duplicates. *)
Theorem add_output_file_idempotent E stage file_path st :
  let first := ContentProject.add_output_file E stage file_path st in
  ContentProject.add_output_file E stage file_path first.2 = first
  ∧ (∀ files, ContentProject.output_files st.1 !! stage = Some files →
       manifest first.2.1 stage
       = if bool_decide (file_path ∈ files) then files else files ++ [file_path])
  ∧ (NoDup (manifest st.1 stage) → NoDup (manifest first.2.1 stage)).
Proof.
  destruct st as [p w]. simpl.
  destruct (ContentProject.output_files p !! stage) as [files|] eqn:Hfiles.
  - pose proof (add_output_file_known_key E stage file_path p w files Hfiles) as [Hr Hf].
    destruct (ContentProject.add_output_file E stage file_path (p, w)) as [b [p1 w1]] eqn:H1.
    simpl in *. subst b. split_and!.
    + unfold ContentProject.add_output_file, bind, get, ret. simpl. rewrite Hf.
      destruct (bool_decide (file_path ∈ files)) eqn:Hin.
      * by rewrite Hin.
      * rewrite bool_decide_eq_true_2; [done|]. apply elem_of_app. right. by left.
    + intros files' [= <-]. unfold manifest. by rewrite Hf.
    + unfold manifest. rewrite Hf, Hfiles. simpl. intros Hnd.
      destruct (bool_decide (file_path ∈ files)) eqn:Hin; [done|].
      apply bool_decide_eq_false in Hin. apply NoDup_app. split_and!; [done| |].
      * intros x Hx Hx'. apply list_elem_of_singleton in Hx'. by subst.
      * apply NoDup_singleton.
  - unfold ContentProject.add_output_file, bind, get, ret. simpl. rewrite Hfiles. simpl.
    rewrite Hfiles. split_and!; done.
Qed.

(** ** Directories, once made, stay *)

Lemma mkdir_ok_is_dir p w :
  (FS.mkdir p w).1 = Ok () → FS.is_dir (FS.mkdir p w).2 p = true.
Proof.
  unfold FS.mkdir, FS.is_dir.
  destruct (FS.node_at w p) as [[|c]|] eqn:Hn; simpl; [by rewrite Hn|done|].
  destruct (FS.parent_error w p); [done|]. simpl. intros _.
  unfold FS.node_at. change (FS.resolve (set_fs _ w) p) with (FS.resolve w p).
  destruct (decide (FS.resolve w p = "")); [done|]. simpl. by rewrite lookup_insert_eq.
Qed.

Lemma mkdir_keeps_dir p q w :
  FS.is_dir w q = true → FS.is_dir (FS.mkdir p w).2 q = true.
Proof.
  unfold FS.mkdir. destruct (FS.node_at w p) as [[|c]|] eqn:Hn; simpl; try done.
  destruct (FS.parent_error w p); [done|]. simpl.
  unfold FS.is_dir, FS.node_at. change (FS.resolve (set_fs _ w) q) with (FS.resolve w q).
  destruct (decide (FS.resolve w q = "")); [done|]. simpl.
  destruct (decide (FS.resolve w q = FS.resolve w p)) as [->|Hne].
  - by rewrite lookup_insert_eq.
  - by rewrite lookup_insert_ne.
Qed.

Lemma write_keeps_dir p c q w :
  FS.is_dir w q = true → FS.is_dir (FS.write p c w).2 q = true.
Proof.
  intros Hq.
  assert (FS.node_at w p ≠ Some Dir →
          FS.is_dir (set_fs (<[FS.resolve w p := File c]> (fs w)) w) q = true) as Hins.
  { intros Hp. unfold FS.is_dir, FS.node_at in *.
    change (FS.resolve (set_fs _ w) q) with (FS.resolve w q).
    destruct (decide (FS.resolve w q = "")) as [Hq0|Hq0]; [done|]. simpl.
    destruct (decide (FS.resolve w q = FS.resolve w p)) as [Heq|Hne].
    - rewrite Heq in Hq, Hq0. rewrite decide_False in Hp by done.
      destruct (fs w !! FS.resolve w p) as [[|?]|]; done.
    - by rewrite lookup_insert_ne. }
  unfold FS.write. destruct (FS.node_at w p) as [[|c0]|] eqn:Hn; simpl; [done|by apply Hins|].
  destruct (FS.parent_error w p); [done|]. by apply Hins.
Qed.

Lemma mkdir_each_dirs path l w :
  (ContentProject.mkdir_each path l w).1 = Ok () →
  (∀ d, d ∈ l → FS.is_dir (ContentProject.mkdir_each path l w).2 (Path.join path d) = true)
  ∧ (∀ q, FS.is_dir w q = true → FS.is_dir (ContentProject.mkdir_each path l w).2 q = true).
Proof.
  revert w. induction l as [|x l IH]; intros w; simpl.
  - intros _. split; [|done]. intros d Hd. by apply elem_of_nil in Hd.
  - unfold bindE at 1 2 3.
    pose proof (mkdir_ok_is_dir (Path.join path x) w) as Hx.
    pose proof (λ q, mkdir_keeps_dir (Path.join path x) q w) as Hkeep.
    destruct (FS.mkdir (Path.join path x) w) as [[[]|e] w1]; simpl in *; [|done].
    intros Hrest. destruct (IH w1 Hrest) as [IH1 IH2]. split.
    + intros d Hd. apply elem_of_cons in Hd as [->|Hd]; [|by apply IH1].
      apply IH2. by apply Hx.
    + intros q Hq. by apply IH2, Hkeep.
Qed.

Lemma save_config_keeps_dir st q :
  FS.is_dir st.2 q = true → FS.is_dir (ContentProject.save_config st).2.2 q = true.
Proof.
  destruct st as [p w]. simpl. intros Hq.
  unfold ContentProject.save_config, try_except, bindE, lift, on_self, on_worldE, get, ok, ret.
  simpl. destruct (ContentProject.get_project_path "projects" p) as [path p']. simpl.
  pose proof (write_keeps_dir (Path.join path "config.json")
                (ConfigJson (ContentProject.config_data p')) q w Hq) as H.
  by destruct (FS.write _ _ w) as [[[]|e] w'].
Qed.

Lemma save_inputs_keeps_dir st q :
  FS.is_dir st.2 q = true → FS.is_dir (ContentProject.save_inputs st).2.2 q = true.
Proof.
  destruct st as [p w]. simpl. intros Hq.
  unfold ContentProject.save_inputs, try_except, bindE, lift, on_self, on_worldE, get, ok, ret.
  simpl. destruct (ContentProject.get_project_path "projects" p) as [path p']. simpl.
  assert (∀ f c w0, FS.is_dir w0 q = true →
            FS.is_dir (FS.write f c w0).2 q = true) as Hw
    by (intros; by apply write_keeps_dir).
  repeat match goal with
    | |- context [FS.write ?f ?c ?w0] =>
        let H := fresh in
        pose proof (Hw f c w0) as H;
        destruct (FS.write f c w0) as [[[]|?] ?]; simpl in *
    | |- context [match ?x with [] => _ | _ :: _ => _ end] => destruct x; simpl
    | |- context [decide ?P] => destruct (decide P); simpl
    end; auto.
Qed.

(** When [create_project_structure] returns [True], the seven directories
    of the project exist, as directories, under the project's path, which
    the project object now holds. *)
Theorem create_project_structure_makes_the_directories base st :
  (ContentProject.create_project_structure base st).1 = true →
  let st' := (ContentProject.create_project_structure base st).2 in
  let path := (ContentProject.get_project_path base st.1).1 in
  ContentProject.project_path st'.1 = Some path
  ∧ ∀ d, d ∈ ContentProject.subdirs → FS.is_dir st'.2 (Path.join path d) = true.
Proof.
  destruct st as [p w]. simpl.
  assert (match ContentProject.create_project_structure base (p, w) with
          | (b, st') =>
              b = true →
              ContentProject.project_path st'.1
              = Some (ContentProject.get_project_path base p).1
              ∧ ∀ d, d ∈ ContentProject.subdirs →
                     FS.is_dir st'.2 (Path.join (ContentProject.get_project_path base p).1 d)
                     = true
          end) as H;
    [|by destruct (ContentProject.create_project_structure base (p, w))].
  unfold ContentProject.create_project_structure, try_except.
  remember ContentProject.subdirs as l eqn:Hl.
  unfold bindE at 1, lift at 1, on_self at 1. simpl.
  assert (ContentProject.project_path (ContentProject.get_project_path base p).2
          = Some (ContentProject.get_project_path base p).1) as Hpath.
  { unfold ContentProject.get_project_path. by destruct (ContentProject.project_path p) eqn:Hp. }
  destruct (ContentProject.get_project_path base p) as [path p1]. simpl in *.
  unfold bindE at 1, on_worldE at 1. simpl.
  destruct (FS.mkdir_parents path w) as [[[]|e] w1]; simpl; [|done].
  unfold bindE at 1, on_worldE at 1. simpl.
  pose proof (mkdir_each_dirs path l w1) as Hdirs.
  destruct (ContentProject.mkdir_each path l w1) as [[[]|e] w2];
    simpl in *; [|done].
  destruct (Hdirs eq_refl) as [Hsub _]. clear Hdirs.
  unfold bindE at 1, lift at 1.
  pose proof (λ q, save_config_keeps_dir (p1, w2) q) as Hsc.
  pose proof (save_config_files p1 w2) as (_ & _ & Hpath2).
  assert ((ContentProject.get_project_path "projects" p1).1 = path) as Hsame.
  { unfold ContentProject.get_project_path. by rewrite Hpath. }
  rewrite Hsame in Hpath2.
  destruct (ContentProject.save_config (p1, w2)) as [b [p2 w3]]. simpl in *.
  unfold bindE at 1, lift at 1.
  pose proof (λ q, save_inputs_keeps_dir (p2, w3) q) as Hsi.
  assert (ContentProject.project_path (ContentProject.save_inputs (p2, w3)).2.1 = Some path)
    as Hpath3.
  { unfold ContentProject.save_inputs, try_except, bindE, lift, on_self, on_worldE, get, ok,
      ret. simpl. unfold ContentProject.get_project_path. rewrite Hpath2. simpl.
    repeat match goal with
      | |- context [FS.write ?f ?c ?w0] => destruct (FS.write f c w0) as [[[]|?] ?]; simpl
      | |- context [match ?x with [] => _ | _ :: _ => _ end] => destruct x; simpl
      | |- context [decide ?P] => destruct (decide P); simpl
      end; done. }
  destruct (ContentProject.save_inputs (p2, w3)) as [b' [p3 w4]]. simpl in *.
  intros _. split; [done|]. intros d Hd. apply Hsi, Hsc, Hsub, Hd.
Qed.

Lemma create_project_structure_makes_the_directories_witness :
  FS.is_dir (ContentProject.create_project_structure "/app/projects" unsaved).2.2
    (Path.join (ContentProject.get_project_path "/app/projects" unsaved.1).1 "exports")
  = true.
Proof.
  apply (create_project_structure_makes_the_directories "/app/projects" unsaved).
  - vm_compute. reflexivity.
  - unfold ContentProject.subdirs. repeat constructor.
Defined.

(** * More about the project store *)

Lemma load_from_config_world E dir w :
  let r := ContentProject.load_from_config E dir w in
  fs r.2 = fs w ∧ cwd r.2 = cwd w ∧ processes r.2 = processes w
  ∧ ∀ p, r.1 = Some p → ContentProject.project_path p = Some dir.
Proof.
  unfold ContentProject.load_from_config, try_except, bindE, lift, get, ok, ret, raise. simpl.
  destruct (FS.exists_ w (Path.join dir "config.json")); simpl; [|by split_and!].
  unfold FS.read. destruct (FS.node_at w (Path.join dir "config.json")) as [[|c]|]; simpl;
    try (by split_and!).
  destruct c; simpl; try (by split_and!).
  unfold ContentProject.__init__, bind, ret, datetime_now, new_uuid4. simpl.
  case_decide; simpl; split_and!; try done; by intros p [= <-].
Qed.

Lemma scan_spec E pid dirs :
  ∀ st,
    match ProjectManager.scan E pid dirs st with
    | (found, st') =>
        fs st'.2 = fs st.2 ∧ cwd st'.2 = cwd st.2 ∧ processes st'.2 = processes st.2
        ∧ ProjectManager.projects_base_dir st'.1 = ProjectManager.projects_base_dir st.1
        ∧ match found with
          | Some (Some p) =>
              ProjectManager._project_cache st'.1
              = <[pid := p]> (ProjectManager._project_cache st.1)
              ∧ ContentProject.project_id p = pid
              ∧ ProjectManager._validate_project p = true
              ∧ ∃ d, d ∈ dirs ∧ ContentProject.project_path p = Some d
                   ∧ Str.contains pid (Path.name d) = true
          | _ => ProjectManager._project_cache st'.1 = ProjectManager._project_cache st.1
          end
    end.
Proof.
  induction dirs as [|d dirs IH]; intros [m w]; simpl; [by split_and!|].
  unfold bind at 1, get at 1. simpl.
  assert (∀ st : ProjectManager.t * World,
            fs st.2 = fs w → cwd st.2 = cwd w → processes st.2 = processes w →
            ProjectManager.projects_base_dir st.1 = ProjectManager.projects_base_dir m →
            ProjectManager._project_cache st.1 = ProjectManager._project_cache m →
            match ProjectManager.scan E pid dirs st with
            | (found, st') =>
                fs st'.2 = fs w ∧ cwd st'.2 = cwd w ∧ processes st'.2 = processes w
                ∧ ProjectManager.projects_base_dir st'.1 = ProjectManager.projects_base_dir m
                ∧ match found with
                  | Some (Some p) =>
                      ProjectManager._project_cache st'.1
                      = <[pid := p]> (ProjectManager._project_cache m)
                      ∧ ContentProject.project_id p = pid
                      ∧ ProjectManager._validate_project p = true
                      ∧ ∃ d0, d0 ∈ d :: dirs ∧ ContentProject.project_path p = Some d0
                            ∧ Str.contains pid (Path.name d0) = true
                  | _ => ProjectManager._project_cache st'.1 = ProjectManager._project_cache m
                  end
            end) as Hrest.
  { intros st Hfs Hcwd Hproc Hbase Hcache. specialize (IH st).
    destruct (ProjectManager.scan E pid dirs st) as [found st'].
    destruct IH as (H1 & H2 & H3 & H4 & H5).
    rewrite H1, H2, H3, H4, Hfs, Hcwd, Hproc, Hbase. split_and!; try done.
    destruct found as [[p|]|]; [|congruence..].
    destruct H5 as (Hc & Hid & Hv & d0 & Hd0 & Hp & Hn). rewrite Hc, Hcache.
    split_and!; try done. exists d0. split_and!; try done. by right. }
  destruct (FS.is_dir w d && Str.contains pid (Path.name d)) eqn:Hcond;
    [|by apply (Hrest (m, w))].
  apply andb_true_iff in Hcond as [_ Hname].
  unfold bind at 1, on_world at 1. simpl.
  pose proof (load_from_config_world E d w) as (Hfs & Hcwd & Hproc & Hpath).
  destruct (ContentProject.load_from_config E d w) as [[p|] w1]; simpl in *;
    [|by apply (Hrest (m, w1))].
  destruct (bool_decide (ContentProject.project_id p = pid)) eqn:Hid;
    [|by apply (Hrest (m, w1))].
  apply bool_decide_eq_true in Hid.
  destruct (ProjectManager._validate_project p) eqn:Hv; simpl; [|by split_and!].
  split_and!; try done. exists d. split_and!; [by left|by apply Hpath|done].
Qed.

Lemma load_project_spec E pid m w :
  match ProjectManager.load_project E pid (m, w) with
  | (found, st') =>
      ProjectManager._project_cache st'.1 !! pid = found
      ∧ (∀ k, k ≠ pid →
           ProjectManager._project_cache st'.1 !! k = ProjectManager._project_cache m !! k)
      ∧ fs st'.2 = fs w ∧ processes st'.2 = processes w
      ∧ ∀ p, found = Some p →
          ProjectManager._project_cache m !! pid = Some p
          ∨ (ContentProject.project_id p = pid
             ∧ ProjectManager._validate_project p = true
             ∧ ∃ d, ContentProject.project_path p = Some d
                    ∧ Str.contains pid (Path.name d) = true)
  end.
Proof.
  assert (∀ m0 : ProjectManager.t,
            ProjectManager._project_cache m0 !! pid = None →
            match try_except
                    (let? self := lift get in
                     let? dirs := on_worldE (FS.iterdir (ProjectManager.projects_base_dir self.1)) in
                     let? found := lift (ProjectManager.scan E pid dirs) in
                     ok (default None found))
                    (λ _, ret None) (m0, w) with
            | (found, st') =>
                ProjectManager._project_cache st'.1 !! pid = found
                ∧ (∀ k, k ≠ pid →
                     ProjectManager._project_cache st'.1 !! k
                     = ProjectManager._project_cache m0 !! k)
                ∧ fs st'.2 = fs w ∧ processes st'.2 = processes w
                ∧ ∀ p, found = Some p →
                    ContentProject.project_id p = pid
                    ∧ ProjectManager._validate_project p = true
                    ∧ ∃ d, ContentProject.project_path p = Some d
                           ∧ Str.contains pid (Path.name d) = true
            end) as Hcont.
  { intros m0 Hnone. unfold try_except, bindE, lift, get, on_worldE, ok, ret. simpl.
    unfold FS.iterdir.
    destruct (FS.node_at w (ProjectManager.projects_base_dir m0)) as [[|c]|]; simpl;
      try (by split_and!).
    match goal with |- context [ProjectManager.scan E pid ?dirs ?s] =>
      pose proof (scan_spec E pid dirs s) as Hscan;
      destruct (ProjectManager.scan E pid dirs s) as [[[p|]|] [m1 w1]] end;
      destruct Hscan as (H1 & H2 & H3 & H4 & H5); simpl in *.
    - destruct H5 as (Hc & Hid & Hv & d & Hd & Hp & Hn). rewrite Hc. split_and!; try done.
      + apply lookup_insert_eq.
      + intros k Hk. by rewrite lookup_insert_ne.
      + intros p' [= <-]. split_and!; try done. by exists d.
    - rewrite H5. by split_and!.
    - rewrite H5. by split_and!. }
  unfold ProjectManager.load_project, bind at 1, get at 1. simpl.
  destruct (ProjectManager._project_cache m !! pid) as [cached|] eqn:Hcached.
  - destruct (ProjectManager._project_exists_on_filesystem m cached w); simpl.
    + split_and!; try done. intros p [= <-]. by left.
    + unfold bind at 1, on_self at 1. simpl.
      specialize (Hcont (ProjectManager.set_cache (delete pid (ProjectManager._project_cache m)) m)
                    (lookup_delete_eq _ _)).
      destruct (try_except _ _ _) as [found st'].
      destruct Hcont as (H1 & H2 & H3 & H4 & H5).
      split_and!; try done.
      * intros k Hk. rewrite H2 by done. simpl. by rewrite lookup_delete_ne.
      * intros p Hp. right. by apply H5.
  - specialize (Hcont m Hcached). destruct (try_except _ _ _) as [found st'].
    destruct Hcont as (H1 & H2 & H3 & H4 & H5). split_and!; try done.
    intros p Hp. right. by apply H5.
Qed.

(** After [load_project] the cache holds under the id exactly what the call
    returned: the project when one was returned, no entry when none was;
    the entries of other ids are untouched, and loading changes no file and
    starts no process. A project that was not served from the cache has the
    requested id, passes validation, and records as its path a directory
    whose name contains the id. *)
Theorem load_project_cache_agrees E pid st :
  let r := ProjectManager.load_project E pid st in
  ProjectManager._project_cache r.2.1 !! pid = r.1
  ∧ (∀ k, k ≠ pid →
       ProjectManager._project_cache r.2.1 !! k = ProjectManager._project_cache st.1 !! k)
  ∧ fs r.2.2 = fs st.2 ∧ processes r.2.2 = processes st.2
  ∧ ∀ p, r.1 = Some p →
      ProjectManager._project_cache st.1 !! pid = Some p
      ∨ (ContentProject.project_id p = pid
         ∧ ProjectManager._validate_project p = true
         ∧ ∃ d, ContentProject.project_path p = Some d
                ∧ Str.contains pid (Path.name d) = true).
Proof.
  destruct st as [m w]. pose proof (load_project_spec E pid m w) as H.
  by destruct (ProjectManager.load_project E pid (m, w)).
Qed.


(** ** Deleting a project *)

Lemma rmtree_spec p w :
  match FS.rmtree p w with
  | (Ok _, w') =>
      FS.exists_ w' p = false ∧ cwd w' = cwd w ∧ processes w' = processes w
      ∧ ∀ k, k ≠ FS.resolve w p → Str.startswith (FS.resolve w p ++ "/") k = false →
             fs w' !! k = fs w !! k
  | (Raise _, w') => w' = w
  end.
Proof.
  unfold FS.rmtree. destruct (FS.node_at w p) as [[|c]|] eqn:Hn; [|done..].
  split_and!; try done.
  - unfold FS.exists_, FS.node_at in *.
    change (FS.resolve (set_fs _ w) p) with (FS.resolve w p).
    destruct (decide (FS.resolve w p = "")) as [Heq|Hne]; simpl.
    + exfalso. unfold FS.resolve, Path.is_absolute, Path.join in Heq.
      destruct (Str.startswith "/" p) eqn:Hp.
      * subst p. discriminate.
      * destruct (cwd w); discriminate.
    + apply bool_decide_eq_false_2. intros [x Hx].
      apply map_lookup_filter_Some in Hx as [_ Hx]. simpl in Hx. apply Hx. by left.
  - intros k Hk Hpre. simpl. apply option_eq. intros x. rewrite map_lookup_filter_Some. simpl.
    split; [by intros [? _]|]. intros Hx. split; [done|].
    intros [?|Hs]; [done|]. by rewrite Hpre in Hs.
Qed.

Lemma load_project_env E pid m w :
  match ProjectManager.load_project E pid (m, w) with
  | (_, st') =>
      ProjectManager.projects_base_dir st'.1 = ProjectManager.projects_base_dir m
      ∧ cwd st'.2 = cwd w
  end.
Proof.
  assert (∀ m0 : ProjectManager.t,
            match try_except
                    (let? self := lift get in
                     let? dirs := on_worldE (FS.iterdir (ProjectManager.projects_base_dir self.1)) in
                     let? found := lift (ProjectManager.scan E pid dirs) in
                     ok (default None found))
                    (λ _, ret None) (m0, w) with
            | (_, st') =>
                ProjectManager.projects_base_dir st'.1 = ProjectManager.projects_base_dir m0
                ∧ cwd st'.2 = cwd w
            end) as Hcont.
  { intros m0. unfold try_except, bindE, lift, get, on_worldE, ok, ret. simpl.
    unfold FS.iterdir.
    destruct (FS.node_at w (ProjectManager.projects_base_dir m0)) as [[|c]|]; simpl;
      try done.
    match goal with |- context [ProjectManager.scan E pid ?dirs ?s] =>
      pose proof (scan_spec E pid dirs s) as Hscan;
      destruct (ProjectManager.scan E pid dirs s) as [found st1] end.
    by destruct Hscan as (_ & H2 & _ & H4 & _). }
  unfold ProjectManager.load_project, bind at 1, get at 1. simpl.
  destruct (ProjectManager._project_cache m !! pid) as [cached|].
  - destruct (ProjectManager._project_exists_on_filesystem m cached w); simpl; [done|].
    unfold bind, on_self. simpl.
    specialize (Hcont (ProjectManager.set_cache (delete pid (ProjectManager._project_cache m)) m)).
    by destruct (try_except _ _ _).
  - specialize (Hcont m). by destruct (try_except _ _ _).
Qed.

(** [delete_project] returns [True] only for a project [load_project]
    finds, and then the project is out of the cache, nothing exists any more
    at its path, and every file that is neither the project's directory nor
    below it is as it was. When the project cannot be loaded it returns
    [False] and no file changes. The cache entries of other ids are
    untouched, and no process is started. *)
Theorem delete_project_spec E pid st :
  let loaded := ProjectManager.load_project E pid st in
  let r := ProjectManager.delete_project E pid st in
  (loaded.1 = None → r.1 = false ∧ fs r.2.2 = fs st.2)
  ∧ (∀ k, k ≠ pid →
       ProjectManager._project_cache r.2.1 !! k = ProjectManager._project_cache st.1 !! k)
  ∧ processes r.2.2 = processes st.2
  ∧ (r.1 = true →
     ∃ p, loaded.1 = Some p
          ∧ ProjectManager._project_cache r.2.1 !! pid = None
          ∧ FS.exists_ r.2.2
              (ContentProject.get_project_path (ProjectManager.projects_base_dir st.1) p).1
            = false
          ∧ ∀ k,
              let a := FS.resolve st.2
                         (ContentProject.get_project_path
                            (ProjectManager.projects_base_dir st.1) p).1 in
              k ≠ a → Str.startswith (a ++ "/") k = false →
              fs r.2.2 !! k = fs st.2 !! k).
Proof.
  destruct st as [m w]. intros loaded r.
  pose proof (load_project_spec E pid m w) as Hload. fold loaded in Hload.
  assert (ProjectManager.projects_base_dir loaded.2.1 = ProjectManager.projects_base_dir m
          ∧ cwd loaded.2.2 = cwd w) as [Hbase Hcwd].
  { pose proof (load_project_env E pid m w) as Henv. fold loaded in Henv.
    by destruct loaded. }
  assert (r = match loaded.1 with
              | None => (false, loaded.2)
              | Some p =>
                  let path := (ContentProject.get_project_path
                                 (ProjectManager.projects_base_dir m) p).1 in
                  let p' := (ContentProject.get_project_path
                               (ProjectManager.projects_base_dir m) p).2 in
                  if FS.exists_ loaded.2.2 path then
                    match FS.rmtree path loaded.2.2 with
                    | (Ok _, w2) =>
                        (true, (ProjectManager.set_cache
                                  (delete pid (<[pid := p']>
                                                 (ProjectManager._project_cache loaded.2.1)))
                                  loaded.2.1, w2))
                    | (Raise _, w2) =>
                        (false, (ProjectManager.set_cache
                                   (<[pid := p']> (ProjectManager._project_cache loaded.2.1))
                                   loaded.2.1, w2))
                    end
                  else (true, (ProjectManager.set_cache
                                 (delete pid (<[pid := p']>
                                                (ProjectManager._project_cache loaded.2.1)))
                                 loaded.2.1, loaded.2.2))
              end) as Hr.
  { unfold r, ProjectManager.delete_project, try_except, bindE at 1, lift at 1.
    fold loaded. destruct loaded as [[p|] [m1 w1]]; simpl in *; [|done].
    unfold bindE, lift, get, on_self, on_worldE, ok, ret. simpl. rewrite Hbase.
    destruct (ContentProject.get_project_path (ProjectManager.projects_base_dir m) p)
      as [path p']. simpl.
    destruct (FS.exists_ w1 path); simpl; [|done].
    by destruct (FS.rmtree path w1) as [[[]|e] w2]. }
  rewrite Hr. clear Hr r.
  destruct loaded as [[p|] [m1 w1]]; simpl in *;
    destruct Hload as (Hpid & Hother & Hfs & Hproc & _).
  - set (path := (ContentProject.get_project_path (ProjectManager.projects_base_dir m) p).1).
    destruct (FS.exists_ w1 path) eqn:Hex.
    + pose proof (rmtree_spec path w1) as Hrm.
      destruct (FS.rmtree path w1) as [[[]|e] w2]; simpl.
      * destruct Hrm as (Hgone & Hcwd2 & Hproc2 & Hkeep). split_and!; [done| |congruence|].
        -- intros k Hk. rewrite lookup_delete_ne, lookup_insert_ne by done. by apply Hother.
        -- intros _. exists p. split_and!; [done|apply lookup_delete_eq|done|].
           intros k Hk Hpre.
           assert (FS.resolve w path = FS.resolve w1 path) as Hres
             by (unfold FS.resolve; by rewrite Hcwd).
           fold path in Hk, Hpre. rewrite Hres in Hk, Hpre.
           rewrite Hkeep by done. by rewrite Hfs.
      * subst w2. split_and!; [done| |done|done].
        intros k Hk. rewrite lookup_insert_ne by done. by apply Hother.
    + simpl. split_and!; [done| |done|].
      * intros k Hk. rewrite lookup_delete_ne, lookup_insert_ne by done. by apply Hother.
      * intros _. exists p. split_and!; [done|apply lookup_delete_eq|done|].
        intros k _ _. by rewrite Hfs.
  - split_and!; try done.
Qed.

(** ** Duplicating a project *)

Lemma get_project_path_only_path base p :
  ContentProject.set_project_path
    (ContentProject.project_path (ContentProject.get_project_path base p).2) p
  = (ContentProject.get_project_path base p).2.
Proof.
  unfold ContentProject.get_project_path.
  destruct p as [? ? ? ? ? ? ? ? ? [d|]]; done.
Qed.

Lemma set_project_path_twice x y p :
  ContentProject.set_project_path x (ContentProject.set_project_path y p)
  = ContentProject.set_project_path x p.
Proof. done. Qed.

Lemma save_config_only_path st :
  ContentProject.set_project_path
    (ContentProject.project_path (ContentProject.save_config st).2.1) st.1
  = (ContentProject.save_config st).2.1.
Proof.
  destruct st as [p w].
  unfold ContentProject.save_config, try_except, bindE, lift, on_self, on_worldE, get, ok, ret.
  simpl. pose proof (get_project_path_only_path "projects" p) as H.
  destruct (ContentProject.get_project_path "projects" p) as [path p']. simpl in *.
  by destruct (FS.write _ _ w) as [[[]|e] w'].
Qed.

Lemma save_inputs_only_path st :
  ContentProject.set_project_path
    (ContentProject.project_path (ContentProject.save_inputs st).2.1) st.1
  = (ContentProject.save_inputs st).2.1.
Proof.
  destruct st as [p w].
  unfold ContentProject.save_inputs, try_except, bindE, lift, on_self, on_worldE, get, ok, ret.
  simpl. pose proof (get_project_path_only_path "projects" p) as H.
  destruct (ContentProject.get_project_path "projects" p) as [path p']. simpl in *.
  repeat match goal with
    | |- context [FS.write ?f ?c ?w0] => destruct (FS.write f c w0) as [[[]|?] ?]; simpl
    | |- context [match ?x with [] => _ | _ :: _ => _ end] => destruct x; simpl
    | |- context [decide ?P] => destruct (decide P); simpl
    end; done.
Qed.

Lemma create_project_structure_only_path base st :
  ContentProject.set_project_path
    (ContentProject.project_path (ContentProject.create_project_structure base st).2.1) st.1
  = (ContentProject.create_project_structure base st).2.1.
Proof.
  destruct st as [p w].
  assert (match ContentProject.create_project_structure base (p, w) with
          | (_, st') =>
              ContentProject.set_project_path (ContentProject.project_path st'.1) p = st'.1
          end) as H;
    [|by destruct (ContentProject.create_project_structure base (p, w))].
  unfold ContentProject.create_project_structure, try_except.
  remember ContentProject.subdirs as l eqn:Hl.
  unfold bindE at 1, lift at 1, on_self at 1. simpl.
  pose proof (get_project_path_only_path base p) as H1.
  destruct (ContentProject.get_project_path base p) as [path p1]. simpl in *.
  unfold bindE at 1, on_worldE at 1. simpl.
  destruct (FS.mkdir_parents path w) as [[[]|e] w1]; simpl; [|done].
  unfold bindE at 1, on_worldE at 1. simpl.
  destruct (ContentProject.mkdir_each path l w1) as [[[]|e] w2]; simpl; [|done].
  unfold bindE at 1, lift at 1.
  pose proof (save_config_only_path (p1, w2)) as H2.
  destruct (ContentProject.save_config (p1, w2)) as [b [p2 w3]]. simpl in *.
  unfold bindE at 1, lift at 1.
  pose proof (save_inputs_only_path (p2, w3)) as H3.
  destruct (ContentProject.save_inputs (p2, w3)) as [b' [p3 w4]]. simpl in *.
  rewrite <- H3, <- H2, <- H1. done.
Qed.

(** What [create_project] returns is a new project with the given name and
    description, the given seed keywords and the overrides laid over the
    default configuration; it is the object the cache holds under its id. *)
Lemma create_project_spec E name description seeds overrides m w :
  match ProjectManager.create_project E name description (Some seeds) (Some overrides) (m, w) with
  | (Ok q, st') =>
      let fresh := (ContentProject.__init__ E name description None w).1 in
      ContentProject.set_project_path (ContentProject.project_path q)
        (ContentProject.set_config (overrides ∪ ContentProject.default_config)
           (ContentProject.set_input_data
              (set_seed_keywords seeds (ContentProject.input_data fresh)) fresh))
      = q
      ∧ ProjectManager._project_cache st'.1 !! ContentProject.project_id q = Some q
  | (Raise _, _) => True
  end.
Proof.
  assert (ContentProject.config (ContentProject.__init__ E name description None w).1
          = ContentProject.default_config
          ∧ seed_keywords (ContentProject.input_data
                             (ContentProject.__init__ E name description None w).1) = [])
    as [Hcfg Hseeds] by done.
  unfold ProjectManager.create_project, bindE, lift, on_world, get, put, ok, raise.
  cbn [fst snd].
  destruct (ContentProject.__init__ E name description None w) as [p0 w0].
  cbn [fst snd] in *.
  set (p1 := match seeds with
             | [] => p0
             | k :: ks => ContentProject.set_input_data
                            (set_seed_keywords (k :: ks) (ContentProject.input_data p0)) p0
             end).
  assert (p1 = ContentProject.set_input_data
                 (set_seed_keywords seeds (ContentProject.input_data p0)) p0) as Hp1.
  { unfold p1. destruct seeds; [|done]. destruct p0 as [? ? ? ? ? ? [? ? ?] ? ? ?].
    simpl in *. by subst. }
  set (p2 := if decide (overrides = ∅) then p1
             else ContentProject.set_config (overrides ∪ ContentProject.config p1) p1).
  assert (p2 = ContentProject.set_config (overrides ∪ ContentProject.default_config) p1)
    as Hp2.
  { unfold p2. assert (ContentProject.config p1 = ContentProject.default_config) as Hc1
      by (by rewrite Hp1).
    case_decide as Ho; [|by rewrite Hc1].
    subst overrides. rewrite (left_id_L ∅ (∪)). rewrite <- Hc1. by destruct p1. }
  pose proof (create_project_structure_only_path (ProjectManager.projects_base_dir m) (p2, w0))
    as Honly.
  destruct (ContentProject.create_project_structure (ProjectManager.projects_base_dir m) (p2, w0))
    as [created [q w1]]. cbn [fst snd] in *.
  destruct created; [|done].
  split; [|apply lookup_insert_eq]. by rewrite <- Honly, Hp2, Hp1.
Qed.

Lemma duplicate_project_spec E pid new_name st :
  match ProjectManager.duplicate_project E pid new_name st with
  | (Some q, st') =>
      match (ProjectManager.load_project E pid st).1 with
      | None => False
      | Some o =>
          ContentProject.name q = new_name
          ∧ ContentProject.description q = ("Copy of " ++ ContentProject.name o)%string
          ∧ seed_keywords (ContentProject.input_data q)
            = seed_keywords (ContentProject.input_data o)
          ∧ custom_instructions (ContentProject.input_data q)
            = custom_instructions (ContentProject.input_data o)
          ∧ target_audience (ContentProject.input_data q) = ""
          ∧ ContentProject.config q
            = ContentProject.config o ∪ ContentProject.default_config
          ∧ (∀ s, s ∈ PipelineExecutor.stages → status_of q s = Some (Some "pending"))
          ∧ (∀ k, manifest q k = [])
          ∧ ProjectManager._project_cache st'.1 !! ContentProject.project_id q = Some q
      end
  | (None, _) => True
  end.
Proof.
  unfold ProjectManager.duplicate_project, try_except, bindE at 1, lift at 1.
  destruct (ProjectManager.load_project E pid st) as [[o|] [m1 w1]]; cbn [fst snd]; [|done].
  unfold bindE at 1.
  pose proof (create_project_spec E new_name ("Copy of " ++ ContentProject.name o)
                (seed_keywords (ContentProject.input_data o)) (ContentProject.config o) m1 w1)
    as Hcreate.
  destruct (ProjectManager.create_project E new_name _ _ _ (m1, w1)) as [[q|e] [m2 w2]];
    [|done].
  cbv zeta in Hcreate. destruct Hcreate as [Hq Hcache].
  assert (∀ x q',
            ContentProject.set_project_path x
              (ContentProject.set_input_data
                 (set_custom_instructions
                    (custom_instructions (ContentProject.input_data o))
                    (ContentProject.input_data q)) q) = q' ∨
            (custom_instructions (ContentProject.input_data o) = "" ∧ q' = q) →
            ContentProject.name q' = new_name
            ∧ ContentProject.description q' = ("Copy of " ++ ContentProject.name o)%string
            ∧ seed_keywords (ContentProject.input_data q')
              = seed_keywords (ContentProject.input_data o)
            ∧ custom_instructions (ContentProject.input_data q')
              = custom_instructions (ContentProject.input_data o)
            ∧ target_audience (ContentProject.input_data q') = ""
            ∧ ContentProject.config q'
              = ContentProject.config o ∪ ContentProject.default_config
            ∧ (∀ s, s ∈ PipelineExecutor.stages → status_of q' s = Some (Some "pending"))
            ∧ (∀ k, manifest q' k = [])) as Hfields.
  { intros x q' Hq'.
    assert (ContentProject.name q = new_name
            ∧ ContentProject.description q = ("Copy of " ++ ContentProject.name o)%string
            ∧ seed_keywords (ContentProject.input_data q)
              = seed_keywords (ContentProject.input_data o)
            ∧ custom_instructions (ContentProject.input_data q) = ""
            ∧ target_audience (ContentProject.input_data q) = ""
            ∧ ContentProject.config q
              = ContentProject.config o ∪ ContentProject.default_config
            ∧ (∀ s, s ∈ PipelineExecutor.stages → status_of q s = Some (Some "pending"))
            ∧ (∀ k, manifest q k = [])) as (H1 & H2 & H3 & H4 & H5 & H6 & H7 & H8).
    { rewrite <- Hq. unfold ContentProject.__init__, bind, ret, new_uuid4, datetime_now.
      simpl. split_and!; try done.
      - intros s Hs. unfold PipelineExecutor.stages in Hs.
        repeat (apply elem_of_cons in Hs as [->|Hs]; [done|]). by apply elem_of_nil in Hs.
      - intros k. unfold manifest.
        change (ContentProject.output_files _)
          with (list_to_map [("keyword_research", []); ("content_briefs", []);
                             ("articles", []); ("social_media", []); ("youtube", [])]
                : gmap string (list string)).
        destruct (_ !! k) as [files|] eqn:Hk; [|done].
        apply elem_of_list_to_map_2 in Hk.
        repeat (apply elem_of_cons in Hk as [[= _ ->]|Hk]; [done|]).
        by apply elem_of_nil in Hk. }
    destruct Hq' as [<-|[Hempty ->]]; simpl; [done|]. by rewrite H4, Hempty. }
  case_decide as Hinstr.
  - cbn [fst snd]. split_and!; [apply (Hfields None q); by right ..|done].
  - unfold bindE at 1, lift at 1, get at 1. cbn [fst snd].
    match goal with |- context [ContentProject.save_inputs ?s] =>
      pose proof (save_inputs_only_path s) as Hsave;
      destruct (ContentProject.save_inputs s) as [b [q' w3]] end.
    cbn [fst snd] in *. unfold bindE, lift, put, ok. cbn [fst snd].
    split_and!; [apply (Hfields (ContentProject.project_path q') q'); by left ..|].
    apply lookup_insert_eq.
Qed.

(** The project [duplicate_project] returns carries the new name, the
    description "Copy of <original name>", the original's seed keywords and
    custom instructions and the original's configuration laid over the
    defaults; the target audience is not copied; every stage is pending and
    no output file is recorded; and the cache holds it under its id. *)
Theorem duplicate_project_copies E pid new_name st q :
  (ProjectManager.duplicate_project E pid new_name st).1 = Some q →
  match (ProjectManager.load_project E pid st).1 with
  | None => False
  | Some o =>
      ContentProject.name q = new_name
      ∧ ContentProject.description q = ("Copy of " ++ ContentProject.name o)%string
      ∧ seed_keywords (ContentProject.input_data q)
        = seed_keywords (ContentProject.input_data o)
      ∧ custom_instructions (ContentProject.input_data q)
        = custom_instructions (ContentProject.input_data o)
      ∧ target_audience (ContentProject.input_data q) = ""
      ∧ ContentProject.config q = ContentProject.config o ∪ ContentProject.default_config
      ∧ (∀ s, s ∈ PipelineExecutor.stages → status_of q s = Some (Some "pending"))
      ∧ (∀ k, manifest q k = [])
      ∧ ProjectManager._project_cache
          (ProjectManager.duplicate_project E pid new_name st).2.1
          !! ContentProject.project_id q = Some q
  end.
Proof.
  intros Hq. pose proof (duplicate_project_spec E pid new_name st) as H.
  destruct (ProjectManager.duplicate_project E pid new_name st) as [[q'|] st']; [|done].
  simpl in Hq. injection Hq as ->. exact H.
Qed.

Lemma duplicate_project_copies_witness :
  let st := (Demo.create "Demo").2 in
  let q := default (Demo.created "Demo")
             (ProjectManager.duplicate_project Demo.E Demo.project_id "Copy" st).1 in
  match (ProjectManager.load_project Demo.E Demo.project_id st).1 with
  | None => False
  | Some o =>
      ContentProject.name q = "Copy"
      ∧ ContentProject.description q = ("Copy of " ++ ContentProject.name o)%string
      ∧ seed_keywords (ContentProject.input_data q)
        = seed_keywords (ContentProject.input_data o)
      ∧ custom_instructions (ContentProject.input_data q)
        = custom_instructions (ContentProject.input_data o)
      ∧ target_audience (ContentProject.input_data q) = ""
      ∧ ContentProject.config q = ContentProject.config o ∪ ContentProject.default_config
      ∧ (∀ s, s ∈ PipelineExecutor.stages → status_of q s = Some (Some "pending"))
      ∧ (∀ k, manifest q k = [])
      ∧ ProjectManager._project_cache
          (ProjectManager.duplicate_project Demo.E Demo.project_id "Copy" st).2.1
          !! ContentProject.project_id q = Some q
  end.
Proof.
  intros st q.
  apply (duplicate_project_copies Demo.E Demo.project_id "Copy" st q).
  vm_compute. reflexivity.
Defined.

(** ** What the duplicate's config.json holds *)

Lemma write_other p c q w :
  FS.resolve w q ≠ FS.resolve w p →
  FS.node_at (FS.write p c w).2 q = FS.node_at w q.
Proof.
  intros Hne.
  assert (FS.node_at (set_fs (<[FS.resolve w p := File c]> (fs w)) w) q = FS.node_at w q)
    as Hins.
  { unfold FS.node_at. change (FS.resolve (set_fs _ w) q) with (FS.resolve w q).
    destruct (decide (FS.resolve w q = "")); [done|]. simpl. by rewrite lookup_insert_ne. }
  unfold FS.write. destruct (FS.node_at w p) as [[|c0]|]; simpl; [done|done|].
  by destruct (FS.parent_error w p).
Qed.

Lemma config_is_not_an_input w d x :
  FS.resolve w (Path.join d "config.json")
  ≠ FS.resolve w (Path.join (Path.join d "inputs") x).
Proof.
  unfold Path.join. rewrite (append_assoc d "/inputs").
  destruct (resolve_prefix w d) as [pre Hpre].
  rewrite !Hpre by done. intros H.
  apply (inj (String.append pre)), (inj (String.append d)) in H.
  vm_compute in H. discriminate.
Qed.

Lemma save_inputs_keeps_config d p w :
  ContentProject.project_path p = Some d →
  FS.node_at (ContentProject.save_inputs (p, w)).2.2 (Path.join d "config.json")
  = FS.node_at w (Path.join d "config.json")
  ∧ cwd (ContentProject.save_inputs (p, w)).2.2 = cwd w.
Proof.
  intros Hd.
  unfold ContentProject.save_inputs, try_except, bindE, lift, on_self, on_worldE, get, ok, ret.
  simpl. unfold ContentProject.get_project_path. rewrite Hd. simpl.
  assert (∀ x c w0, cwd w0 = cwd w →
            FS.node_at (FS.write (Path.join (Path.join d "inputs") x) c w0).2
              (Path.join d "config.json") = FS.node_at w0 (Path.join d "config.json")
            ∧ cwd (FS.write (Path.join (Path.join d "inputs") x) c w0).2 = cwd w) as Hw.
  { intros x c w0 Hcwd. split; [apply write_other, config_is_not_an_input|].
    rewrite <- Hcwd. unfold FS.write.
    destruct (FS.node_at w0 _) as [[|?]|]; try done. by destruct (FS.parent_error w0 _). }
  repeat match goal with
    | |- context [FS.write (Path.join (Path.join d "inputs") ?x) ?c ?w0] =>
        let H := fresh in
        let Hc := fresh in
        assert (cwd w0 = cwd w) as Hc by congruence;
        destruct (Hw x c w0 Hc) as [H ?];
        destruct (FS.write (Path.join (Path.join d "inputs") x) c w0) as [[[]|?] ?];
        simpl in *
    | |- context [match ?x with [] => _ | _ :: _ => _ end] => destruct x; simpl
    | |- context [decide ?P] => destruct (decide P); simpl
    end; split; congruence.
Qed.

Lemma save_config_writes d p w :
  ContentProject.project_path p = Some d →
  (∀ c, FS.node_at (ContentProject.save_config (p, w)).2.2 (Path.join d "config.json")
        = Some (File c) → c = ConfigJson (ContentProject.config_data p))
  ∧ cwd (ContentProject.save_config (p, w)).2.2 = cwd w.
Proof.
  intros Hd.
  unfold ContentProject.save_config, try_except, bindE, lift, on_self, on_worldE, get, ok, ret.
  simpl. unfold ContentProject.get_project_path. rewrite Hd. simpl.
  unfold FS.write.
  destruct (FS.node_at w (Path.join d "config.json")) as [[|c0]|] eqn:Hn; simpl.
  - split; [|done]. intros c Hc. congruence.
  - split; [|done]. intros c. unfold FS.node_at in *.
    change (FS.resolve (set_fs _ w) ?q) with (FS.resolve w q).
    destruct (decide (FS.resolve w (Path.join d "config.json") = "")); [done|]. simpl.
    rewrite lookup_insert_eq. congruence.
  - destruct (FS.parent_error w (Path.join d "config.json")); simpl.
    + split; [|done]. intros c Hc. congruence.
    + split; [|done]. intros c. unfold FS.node_at in *.
      change (FS.resolve (set_fs _ w) ?q) with (FS.resolve w q).
      destruct (decide (FS.resolve w (Path.join d "config.json") = "")); [done|]. simpl.
      rewrite lookup_insert_eq. congruence.
Qed.

Lemma save_inputs_path d p w :
  ContentProject.project_path p = Some d →
  ContentProject.project_path (ContentProject.save_inputs (p, w)).2.1 = Some d.
Proof.
  intros Hd. rewrite <- save_inputs_only_path. simpl.
  unfold ContentProject.save_inputs, try_except, bindE, lift, on_self, on_worldE, get, ok, ret.
  simpl. unfold ContentProject.get_project_path. rewrite Hd. simpl.
  repeat match goal with
    | |- context [FS.write ?f ?c ?w0] => destruct (FS.write f c w0) as [[[]|?] ?]; simpl
    | |- context [match ?x with [] => _ | _ :: _ => _ end] => destruct x; simpl
    | |- context [decide ?P] => destruct (decide P); simpl
    end; done.
Qed.

Lemma config_data_set_project_path x p :
  ContentProject.config_data (ContentProject.set_project_path x p)
  = ContentProject.config_data p.
Proof. done. Qed.

Lemma create_project_structure_config base p w :
  match ContentProject.create_project_structure base (p, w) with
  | (true, st') =>
      is_Some (ContentProject.project_path st'.1)
      ∧ ∀ d c, ContentProject.project_path st'.1 = Some d →
               FS.node_at st'.2 (Path.join d "config.json") = Some (File c) →
               c = ConfigJson (ContentProject.config_data st'.1)
  | (false, _) => True
  end.
Proof.
  unfold ContentProject.create_project_structure, try_except.
  remember ContentProject.subdirs as l eqn:Hl.
  unfold bindE at 1, lift at 1, on_self at 1. simpl.
  assert (ContentProject.project_path (ContentProject.get_project_path base p).2
          = Some (ContentProject.get_project_path base p).1) as Hpath.
  { unfold ContentProject.get_project_path. by destruct (ContentProject.project_path p) eqn:Hp. }
  destruct (ContentProject.get_project_path base p) as [path p1]. simpl in *.
  unfold bindE at 1, on_worldE at 1. simpl.
  destruct (FS.mkdir_parents path w) as [[[]|e] w1]; simpl; [|done].
  unfold bindE at 1, on_worldE at 1. simpl.
  destruct (ContentProject.mkdir_each path l w1) as [[[]|e] w2]; simpl; [|done].
  unfold bindE at 1, lift at 1.
  pose proof (save_config_writes path p1 w2 Hpath) as [Hcfg _].
  pose proof (save_config_only_path (p1, w2)) as Honly2.
  pose proof (save_config_files p1 w2) as (_ & _ & Hpath2).
  assert ((ContentProject.get_project_path "projects" p1).1 = path) as Hsame.
  { unfold ContentProject.get_project_path. by rewrite Hpath. }
  rewrite Hsame in Hpath2.
  destruct (ContentProject.save_config (p1, w2)) as [b [p2 w3]]. simpl in *.
  unfold bindE at 1, lift at 1.
  pose proof (save_inputs_keeps_config path p2 w3 Hpath2) as [Hkeep _].
  pose proof (save_inputs_only_path (p2, w3)) as Honly3.
  pose proof (save_inputs_path path p2 w3 Hpath2) as Hpath3.
  destruct (ContentProject.save_inputs (p2, w3)) as [b' [p3 w4]]. simpl in *.
  split; [by eexists|].
  intros d c Hd Hc. rewrite Hpath3 in Hd. injection Hd as <-.
  rewrite Hkeep in Hc. rewrite (Hcfg c Hc).
  by rewrite <- Honly3, <- Honly2, !config_data_set_project_path.
Qed.

Lemma create_project_config E name description seeds overrides m w :
  match ProjectManager.create_project E name description (Some seeds) (Some overrides) (m, w) with
  | (Ok q, st') =>
      custom_instructions (ContentProject.input_data q) = ""
      ∧ is_Some (ContentProject.project_path q)
      ∧ ∀ d c, ContentProject.project_path q = Some d →
               FS.node_at st'.2 (Path.join d "config.json") = Some (File c) →
               c = ConfigJson (ContentProject.config_data q)
  | (Raise _, _) => True
  end.
Proof.
  pose proof (create_project_spec E name description seeds overrides m w) as Hspec.
  assert (custom_instructions
            (ContentProject.input_data (ContentProject.__init__ E name description None w).1)
          = "") as Hci by done.
  unfold ProjectManager.create_project, bindE, lift, on_world, get, put, ok, raise in *.
  cbn [fst snd] in *.
  destruct (ContentProject.__init__ E name description None w) as [p0 w0].
  cbn [fst snd] in *.
  match goal with |- context [ContentProject.create_project_structure ?b (?p, ?w')] =>
    pose proof (create_project_structure_config b p w') as Hcfg;
    destruct (ContentProject.create_project_structure b (p, w')) as [created [q w1]] end.
  cbn [fst snd] in *. destruct created; [|done].
  destruct Hspec as [Hq _]. split; [by rewrite <- Hq|]. exact Hcfg.
Qed.

Lemma duplicate_project_config E pid new_name st :
  match ProjectManager.duplicate_project E pid new_name st with
  | (Some q, st') =>
      ∀ d c, ContentProject.project_path q = Some d →
             FS.node_at st'.2 (Path.join d "config.json") = Some (File c) →
             c = ConfigJson
                   (ContentProject.config_data
                      (ContentProject.set_input_data
                         (set_custom_instructions "" (ContentProject.input_data q)) q))
  | (None, _) => True
  end.
Proof.
  unfold ProjectManager.duplicate_project, try_except, bindE at 1, lift at 1.
  destruct (ProjectManager.load_project E pid st) as [[o|] [m1 w1]]; cbn [fst snd]; [|done].
  unfold bindE at 1.
  pose proof (create_project_config E new_name ("Copy of " ++ ContentProject.name o)
                (seed_keywords (ContentProject.input_data o)) (ContentProject.config o) m1 w1)
    as Hcreate.
  destruct (ProjectManager.create_project E new_name _ _ _ (m1, w1)) as [[q|e] [m2 w2]];
    [|done].
  destruct Hcreate as (Hci & Hsome & Hcfg). cbn [fst snd] in *.
  assert (∀ x i,
            ContentProject.config_data
              (ContentProject.set_input_data
                 (set_custom_instructions ""
                    (ContentProject.input_data
                       (ContentProject.set_project_path x
                          (ContentProject.set_input_data
                             (set_custom_instructions i (ContentProject.input_data q)) q))))
                 (ContentProject.set_project_path x
                    (ContentProject.set_input_data
                       (set_custom_instructions i (ContentProject.input_data q)) q)))
            = ContentProject.config_data q) as Hsnap.
  { intros x i. destruct q as [? ? ? ? ? ? [? ? ?] ? ? ?]. simpl in *. by subst. }
  case_decide as Hinstr.
  - cbn [fst snd]. intros d c Hd Hc. rewrite (Hcfg d c Hd Hc).
    destruct q as [? ? ? ? ? ? [? ? ?] ? ? ?]. simpl in *. by subst.
  - unfold bindE at 1, lift at 1, get at 1. cbn [fst snd].
    set (q2 := ContentProject.set_input_data
                 (set_custom_instructions (custom_instructions (ContentProject.input_data o))
                    (ContentProject.input_data q)) q).
    pose proof (save_inputs_only_path (q2, w2)) as Honly.
    pose proof (λ d, save_inputs_keeps_config d q2 w2) as Hkeep.
    pose proof (λ d, save_inputs_path d q2 w2) as Hpath.
    destruct (ContentProject.save_inputs (q2, w2)) as [b [q' w3]].
    cbn [fst snd] in *. unfold bindE, lift, put, ok. cbn [fst snd].
    intros d c Hd Hc.
    assert (ContentProject.project_path q = Some d) as Hdq.
    { destruct Hsome as [d0 Hd0]. specialize (Hpath d0 Hd0). congruence. }
    destruct (Hkeep d Hdq) as [Hnode _]. rewrite Hnode in Hc.
    rewrite (Hcfg d c Hdq Hc). rewrite <- Honly. unfold q2. by rewrite Hsnap.
Qed.

(** The custom instructions copied into a duplicate do not reach its
    config.json: the file, when there is one, holds the duplicate's snapshot
    with empty custom instructions, so loading the duplicate from its
    directory gives a project without them. *)
Theorem duplicate_project_config_lacks_instructions E pid new_name st q d :
  (ProjectManager.duplicate_project E pid new_name st).1 = Some q →
  ContentProject.project_path q = Some d →
  let w := (ProjectManager.duplicate_project E pid new_name st).2.2 in
  (∀ c, FS.node_at w (Path.join d "config.json") = Some (File c) →
        c = ConfigJson
              (ContentProject.config_data
                 (ContentProject.set_input_data
                    (set_custom_instructions "" (ContentProject.input_data q)) q)))
  ∧ ∀ q0, (ContentProject.load_from_config E d w).1 = Some q0 →
          custom_instructions (ContentProject.input_data q0) = "".
Proof.
  intros Hq Hd w.
  assert (∀ c, FS.node_at w (Path.join d "config.json") = Some (File c) →
               c = ConfigJson
                     (ContentProject.config_data
                        (ContentProject.set_input_data
                           (set_custom_instructions "" (ContentProject.input_data q)) q)))
    as Hfile.
  { unfold w. pose proof (duplicate_project_config E pid new_name st) as H.
    destruct (ProjectManager.duplicate_project E pid new_name st) as [[q'|] st']; [|done].
    simpl in *. injection Hq as ->. intros c. by apply H. }
  split; [exact Hfile|]. intros q0.
  unfold ContentProject.load_from_config, try_except, bindE, lift, get, ok, ret, raise. simpl.
  destruct (FS.exists_ w (Path.join d "config.json")); simpl; [|done].
  unfold FS.read. destruct (FS.node_at w (Path.join d "config.json")) as [[|c]|]; simpl;
    try done.
  rewrite (Hfile c eq_refl). simpl.
  unfold ContentProject.__init__, bind, ret, datetime_now, new_uuid4. simpl.
  case_decide; simpl; by intros [= <-].
Qed.

Lemma duplicate_project_config_lacks_instructions_witness :
  let original :=
    ContentProject.set_input_data
      (set_custom_instructions "Be brief" (ContentProject.input_data (Demo.created "Demo")))
      (Demo.created "Demo") in
  let st := (ProjectManager.set_cache {[ Demo.project_id := original ]} (Demo.create "Demo").2.1,
             (Demo.create "Demo").2.2) in
  let q := default original
             (ProjectManager.duplicate_project Demo.E Demo.project_id "Copy" st).1 in
  let d := default "" (ContentProject.project_path q) in
  let w := (ProjectManager.duplicate_project Demo.E Demo.project_id "Copy" st).2.2 in
  let c := match FS.node_at w (Path.join d "config.json") with
           | Some (File c) => c
           | _ => Text ""
           end in
  c = ConfigJson
        (ContentProject.config_data
           (ContentProject.set_input_data
              (set_custom_instructions "" (ContentProject.input_data q)) q)).
Proof.
  intros original st q d w c.
  apply (proj1 (duplicate_project_config_lacks_instructions Demo.E Demo.project_id "Copy"
                  st q d ltac:(vm_compute; reflexivity) ltac:(vm_compute; reflexivity))).
  vm_compute. reflexivity.
Defined.

(** The duplicate of the demo project, made from an original that carries
    instructions: it holds them, and its directory yields a project that
    does not. *)
Example duplicate_project_demo :
  let original :=
    ContentProject.set_input_data
      (set_custom_instructions "Be brief" (ContentProject.input_data (Demo.created "Demo")))
      (Demo.created "Demo") in
  let st := (ProjectManager.set_cache {[ Demo.project_id := original ]} (Demo.create "Demo").2.1,
             (Demo.create "Demo").2.2) in
  let r := ProjectManager.duplicate_project Demo.E Demo.project_id "Copy" st in
  (custom_instructions ∘ ContentProject.input_data) <$> r.1 = Some "Be brief"
  ∧ ContentProject.project_path <$> r.1 = Some (Some "projects/project-12345678-copy")
  ∧ (custom_instructions ∘ ContentProject.input_data)
      <$> (ContentProject.load_from_config Demo.E "projects/project-12345678-copy" r.2.2).1
    = Some "".
Proof. split_and!; vm_compute; reflexivity. Qed.

(** Deleting the demo project: the call succeeds, the project's directory
    is gone and the store no longer finds the project. *)
Example delete_project_demo :
  let r := ProjectManager.delete_project Demo.E Demo.project_id (Demo.create "Demo").2 in
  r.1 = true
  ∧ FS.exists_ r.2.2 "projects/project-12345678-demo" = false
  ∧ FS.exists_ (Demo.create "Demo").2.2 "projects/project-12345678-demo" = true
  ∧ (ProjectManager.load_project Demo.E Demo.project_id r.2).1 = None.
Proof. split_and!; vm_compute; reflexivity. Qed.

(** * Organising the outputs of a stage *)

Lemma split_on_app_sep x n :
  Str.split_on "/" (x ++ String "/" n) = Str.split_on "/" x ++ Str.split_on "/" n.
Proof.
  induction x as [|c x IH].
  - change ("" ++ String "/" n)%string with (String "/" n). done.
  - change (String c x ++ String "/" n)%string with (String c (x ++ String "/" n)).
    simpl. rewrite IH. destruct (decide (c = "/"%char)); [done|].
    destruct (Str.split_on "/" x) as [|y ys] eqn:Hx; [|done].
    by destruct x; simpl in Hx; [|destruct (decide _); [|destruct (Str.split_on _ _)]].
Qed.

Lemma split_on_nonempty s : Str.split_on "/" s ≠ [].
Proof.
  destruct s as [|c s]; [done|]. simpl.
  destruct (decide (c = "/"%char)); [done|]. by destruct (Str.split_on "/" s).
Qed.

Lemma join_split_on s : Str.join "/" (Str.split_on "/" s) = s.
Proof.
  induction s as [|c s IH]; [done|]. simpl.
  pose proof (split_on_nonempty s) as Hne.
  destruct (decide (c = "/"%char)) as [->|Hc].
  - unfold Str.join in *. simpl. destruct (Str.split_on "/" s) as [|y ys]; [done|].
    by rewrite IH.
  - unfold Str.join in *. destruct (Str.split_on "/" s) as [|y ys]; [done|].
    simpl in *. destruct ys; simpl in *; by rewrite <- IH.
Qed.

Lemma removelast_app_singleton {A} (l : list A) x : List.removelast (l ++ [x]) = l.
Proof.
  induction l as [|y l IH]; [done|]. simpl. rewrite IH. by destruct l.
Qed.

(** [(Path(x) / n).parent == Path(x)] for a one-component [n]. *)
Lemma parent_join x n :
  Str.split_on "/" n = [n] → Path.parent (Path.join x n) = x.
Proof.
  intros Hn. unfold Path.parent, Path.join.
  change ("/" ++ n)%string with (String "/" n).
  rewrite split_on_app_sep, Hn, removelast_app_singleton. apply join_split_on.
Qed.

(** With a relative project path, [_organize_stage_outputs] looks for the
    stage directory below the working directory. Where that path names
    nothing, as in the project's own directory, into which [execute_stage]
    changes before it calls, creating the stage directory fails with "No
    such file or directory" and nothing is moved or recorded. *)
Theorem organize_stage_outputs_relative_project_path E self stage sd p w d :
  ContentProject.project_path p = Some d →
  Path.is_absolute d = false → d ≠ "" →
  Path.is_absolute (cwd w) = true →
  PipelineExecutor.stage_mapping !! stage = Some sd →
  FS.node_at w d = None →
  FS.node_at w (Path.join d sd) = None →
  PipelineExecutor._organize_stage_outputs E self stage (p, w)
  = (Raise (FS.ENOENT (Path.join d sd)), (p, w)).
Proof.
  intros Hd Hrel Hne Hcwd Hsd Hnode Hstage.
  assert (Str.split_on "/" sd = [sd]) as Hflat.
  { unfold PipelineExecutor.stage_mapping in Hsd. apply elem_of_list_to_map_2 in Hsd.
    repeat (apply elem_of_cons in Hsd as [[= _ ->]|Hsd]; [done|]).
    by apply elem_of_nil in Hsd. }
  unfold PipelineExecutor._organize_stage_outputs.
  unfold bindE at 1, lift at 1, on_self at 1. simpl.
  unfold ContentProject.get_project_path. rewrite Hd. simpl. rewrite Hsd. simpl.
  unfold bindE at 1, on_worldE at 1. simpl.
  unfold FS.mkdir. rewrite Hstage.
  assert (FS.parent_error w (Path.join d sd) = Some (FS.ENOENT (Path.join d sd))) as ->;
    [|done].
  unfold FS.parent_error.
  assert (Path.is_absolute (Path.join d sd) = false) as Hrel'.
  { destruct d as [|c d]; [done|]. unfold Path.join, Path.is_absolute in *.
    change (String c d ++ "/" ++ sd)%string with (String c (d ++ "/" ++ sd)). done. }
  assert (FS.resolve w (Path.join d sd) = Path.join (Path.join (cwd w) d) sd) as ->.
  { unfold FS.resolve. rewrite Hrel'. unfold Path.join. by rewrite !append_assoc. }
  rewrite parent_join by done.
  assert (FS.node_at w (Path.join (cwd w) d) = FS.node_at w d) as ->; [|by rewrite Hnode].
  unfold FS.node_at, FS.resolve. rewrite Hrel.
  assert (Path.is_absolute (Path.join (cwd w) d) = true) as ->; [|done].
  unfold Path.is_absolute, Path.join in *. destruct (cwd w) as [|c s]; [done|].
  change (String c s ++ "/" ++ d)%string with (String c (s ++ "/" ++ d)). done.
Qed.

Lemma organize_stage_outputs_relative_project_path_witness :
  let w := set_cwd "/app/projects/project-12345678-demo" Demo.fresh.2 in
  PipelineExecutor._organize_stage_outputs Demo.E Demo.executor "article_writing"
    (Demo.fresh.1, w)
  = (Raise (FS.ENOENT (Path.join "projects/project-12345678-demo" "stage_03_articles")),
     (Demo.fresh.1, w)).
Proof.
  intros w.
  apply (organize_stage_outputs_relative_project_path Demo.E Demo.executor "article_writing"
           "stage_03_articles" Demo.fresh.1 w "projects/project-12345678-demo").
  all: first [ discriminate | vm_compute; reflexivity ].
Defined.

(** So a later stage of a project kept under the relative directory
    "projects" fails although its script exits with 0. *)
Example execute_stage_article_writing_demo :
  let st := Demo.fresh in
  ContentProject.project_path st.1 = Some "projects/project-12345678-demo"
  ∧ (PipelineExecutor.execute_stage quiet Demo.executor "article_writing" false st).1
    = Ok (failure ("Error executing stage: [Errno 2] No such file or directory: "
                     ++ "'projects/project-12345678-demo/stage_03_articles'"))
  ∧ length (processes
              (PipelineExecutor.execute_stage quiet Demo.executor "article_writing" false
                 st).2.2) = 1.
Proof. split_and!; vm_compute; reflexivity. Qed.

(** * Listing and searching the store *)

Lemma insert_by_elem_of key x l y :
  y ∈ ProjectManager.insert_by key x l ↔ y = x ∨ y ∈ l.
Proof.
  induction l as [|z l IH]; simpl.
  - rewrite list_elem_of_singleton, elem_of_nil. tauto.
  - destruct (String.ltb (key z) (key x)).
    + by rewrite (elem_of_cons (z :: l)).
    + rewrite !elem_of_cons, IH. tauto.
Qed.

Lemma sort_reverse_elem_of key l y :
  y ∈ ProjectManager.sort_reverse key l ↔ y ∈ l.
Proof.
  unfold ProjectManager.sort_reverse.
  assert (∀ acc, y ∈ fold_left (λ acc x, ProjectManager.insert_by key x acc) l acc
                 ↔ y ∈ acc ∨ y ∈ l) as H.
  { induction l as [|x l IH]; intros acc; simpl.
    - rewrite elem_of_nil. tauto.
    - rewrite IH, insert_by_elem_of, elem_of_cons. tauto. }
  rewrite H, elem_of_nil. tauto.
Qed.

Lemma minimal_project_spec E p w :
  ProjectManager._validate_project p = true →
  let q := (ProjectManager.minimal_project E p w).1 in
  ContentProject.project_id q = ContentProject.project_id p
  ∧ ContentProject.name q = ContentProject.name p
  ∧ ContentProject.description q = ContentProject.description p
  ∧ ContentProject.created_at q = ContentProject.created_at p
  ∧ ContentProject.updated_at q = ContentProject.updated_at p
  ∧ ContentProject.execution_status q = ContentProject.execution_status p
  ∧ ContentProject.config q = ContentProject.default_config
  ∧ ContentProject.input_data q
    = {| seed_keywords := []; target_audience := ""; custom_instructions := "" |}
  ∧ (∀ k, manifest q k = [])
  ∧ ContentProject.project_path q = None.
Proof.
  intros Hv. unfold ProjectManager._validate_project in Hv.
  destruct (bool_decide (ContentProject.project_id p = "")) eqn:Hid; [done|].
  apply bool_decide_eq_false in Hid.
  unfold ProjectManager.minimal_project, ContentProject.__init__, bind, ret, datetime_now.
  simpl. rewrite decide_False by done. simpl. split_and!; try done.
  intros k. unfold manifest. simpl.
  change (<["keyword_research" := []]> _)
    with (list_to_map [("keyword_research", []); ("content_briefs", []);
                       ("articles", []); ("social_media", []); ("youtube", [])]
          : gmap string (list string)).
  destruct (_ !! k) as [files|] eqn:Hk; [|done].
  apply elem_of_list_to_map_2 in Hk.
  repeat (apply elem_of_cons in Hk as [[= _ ->]|Hk]; [done|]).
  by apply elem_of_nil in Hk.
Qed.

Lemma list_scan_minimal E (P : ContentProject.t → Prop) dirs :
  (∀ p w, ProjectManager._validate_project p = true →
          P (ProjectManager.minimal_project E p w).1) →
  ∀ projects st,
    Forall P projects →
    Forall P (ProjectManager.list_scan E false dirs projects st).1.
Proof.
  intros HP. induction dirs as [|d dirs IH]; intros projects [m w] Hall; simpl; [done|].
  unfold bind at 1, get at 1. simpl.
  destruct (ProjectManager.is_project_dir w d); [|by apply IH].
  unfold bind at 1, on_world at 1. simpl.
  destruct (ContentProject.load_from_config E d w) as [[p|] w1]; simpl; [|by apply IH].
  destruct (ProjectManager._validate_project p) eqn:Hv; [|by apply IH].
  unfold bind at 1, on_self at 1. simpl. unfold bind at 1, on_world at 1. simpl.
  specialize (HP p w1 Hv).
  destruct (ProjectManager.minimal_project E p w1) as [q w2]. simpl in *.
  apply IH. apply Forall_app. split; [done|]. by apply Forall_singleton.
Qed.

(** What holds of every project [list_projects] returns by default. *)
Lemma list_projects_Forall E st :
  Forall (λ q,
            ProjectManager._validate_project q = true
            ∧ ContentProject.config q = ContentProject.default_config
            ∧ ContentProject.input_data q
              = {| seed_keywords := []; target_audience := ""; custom_instructions := "" |}
            ∧ (∀ k, manifest q k = [])
            ∧ ContentProject.project_path q = None)
         (ProjectManager.list_projects E false st).1.
Proof.
  set (P := λ q : ContentProject.t,
         ProjectManager._validate_project q = true
         ∧ ContentProject.config q = ContentProject.default_config
         ∧ ContentProject.input_data q
           = {| seed_keywords := []; target_audience := ""; custom_instructions := "" |}
         ∧ (∀ k, manifest q k = [])
         ∧ ContentProject.project_path q = None).
  assert (∀ p w, ProjectManager._validate_project p = true →
                 P (ProjectManager.minimal_project E p w).1) as HP.
  { intros p w Hv.
    destruct (minimal_project_spec E p w Hv) as (H1 & H2 & H3 & H4 & H5 & H6 & H7 & H8 & H9 & H10).
    unfold P. split_and!; try done.
    unfold ProjectManager._validate_project in *. by rewrite H1, H2, H6. }
  destruct st as [m w].
  unfold ProjectManager.list_projects, bind, ret, try_except. simpl.
  match goal with |- Forall P (let '(a, s') := ?c in _).1 =>
    assert (Forall P c.1) as Hc; [|destruct c as [l s']; simpl in *] end.
  - unfold bindE at 1.
    destruct (ProjectManager._cleanup_cache (m, w)) as [[[]|e] [m1 w1]]; simpl; [|done].
    unfold bindE at 1, lift at 1, get at 1. simpl.
    destruct (FS.exists_ w1 (ProjectManager.projects_base_dir m1)); simpl; [|done].
    unfold bindE at 1, on_worldE at 1. simpl.
    destruct (FS.iterdir (ProjectManager.projects_base_dir m1) w1) as [[dirs|e] w2]; simpl;
      [|done].
    unfold lift.
    pose proof (list_scan_minimal E P dirs HP [] (m1, w2) (Forall_nil_2 _)) as H.
    by destruct (ProjectManager.list_scan E false dirs [] (m1, w2)).
  - apply Forall_forall. intros x Hx. apply sort_reverse_elem_of in Hx.
    by apply (proj1 (Forall_forall _ _) Hc).
Qed.

(** The projects [list_projects] returns by default are stand-ins: each has
    the id, name and stage entries of a stored project that passes
    validation, but the default configuration, no seed keywords, audience or
    instructions, no recorded output files and no path. *)
Theorem list_projects_returns_stand_ins E st q :
  q ∈ (ProjectManager.list_projects E false st).1 →
  ProjectManager._validate_project q = true
  ∧ ContentProject.config q = ContentProject.default_config
  ∧ ContentProject.input_data q
    = {| seed_keywords := []; target_audience := ""; custom_instructions := "" |}
  ∧ (∀ k, manifest q k = [])
  ∧ ContentProject.project_path q = None.
Proof.
  intros Hq. by apply (proj1 (Forall_forall _ _) (list_projects_Forall E st)).
Qed.

Lemma list_projects_returns_stand_ins_witness :
  let l := (ProjectManager.list_projects Demo.E false (Demo.create "Demo").2).1 in
  let q := hd (Demo.created "Demo") l in
  ContentProject.name q = "Demo"
  ∧ seed_keywords (ContentProject.input_data (Demo.created "Demo")) = ["a"; "b"]
  ∧ ContentProject.input_data q
    = {| seed_keywords := []; target_audience := ""; custom_instructions := "" |}.
Proof.
  intros l q. split; [vm_compute; reflexivity|]. split; [vm_compute; reflexivity|].
  apply (list_projects_returns_stand_ins Demo.E (Demo.create "Demo").2 q).
  apply (list_elem_of_lookup_2 _ 0). vm_compute. reflexivity.
Defined.

(** [search_projects] never finds a project by its seed keywords: it
    searches the stand-ins [list_projects] returns, which have none, so it
    returns exactly the listed projects whose name or description contains
    the query, compared in lower case. *)
Theorem search_projects_ignores_seed_keywords E query st :
  ProjectManager.search_projects E query st
  = (filter (λ project,
               Str.contains (Str.lower query) (Str.lower (ContentProject.name project))
               || Str.contains (Str.lower query)
                    (Str.lower (ContentProject.description project)) = true)
            (ProjectManager.list_projects E false st).1,
     (ProjectManager.list_projects E false st).2).
Proof.
  unfold ProjectManager.search_projects, bind, ret.
  pose proof (list_projects_Forall E st) as Hall.
  destruct (ProjectManager.list_projects E false st) as [l st']. simpl in *.
  f_equal. induction Hall as [|q l (_ & _ & Hin & _) _ IH]; [done|].
  rewrite !filter_cons, IH, Hin. simpl. by rewrite orb_false_r.
Qed.

(** The demo project has the seed keywords "a" and "b"; a search for "a"
    does not find it, a search for its name does. *)
Example search_projects_demo :
  (ProjectManager.search_projects Demo.E "a" (Demo.create "Demo").2).1 = []
  ∧ ContentProject.name
      <$> (ProjectManager.search_projects Demo.E "dem" (Demo.create "Demo").2).1 = ["Demo"].
Proof. split; vm_compute; reflexivity. Qed.
